(** * marechan: the prompt enhancer (src/utils/prompt_enhancer.py)

    A shallow embedding of [PromptEnhancer]: the thirteen host probes, the
    selection of enhancements, the rendering of each probe result and the
    assembly of the enriched prompt, together with the part of
    [Logger.log_message] (src/utils/logger.py) the probes call.

    Layout:
    - [Py]: the Python builtins the source relies on (str methods, int(),
      true division, round(), float formatting, sorted());
    - [Host]: what the operating system and the libraries (psutil, platform,
      socket, subprocess, ...) answer at a given instant;
    - [Run]: the state-and-exception monad the methods run in;
    - [Logger]: [log_message];
    - [PromptEnhancer]: the methods of the class, one definition per method;
    - [Config], [EmailParser], [AIClient], [RawEmailLog]: the configuration
      of the assistants, the callers of the enhancer and the raw email log
      (src/utils/email_parser.py, ai_client.py, logger.py);
    - [Fixtures]: the hosts of the examples;
    - [Notions]: the notions the statements are written with;
    - [Observations], [Scenarios]: the notions and the examples of the
      properties of the rest of the code;
    - the properties. *)

From Stdlib Require Import ZArith Lia Bool String Ascii List Sorted Floats DecimalString.
From stdpp Require Import base list strings gmap.

(** * Python builtins *)

Module Py.

(** ** Exceptions *)

(** An exception instance: its class name and [str(e)].  Only instances of
    [Exception] subclasses are modelled (no KeyboardInterrupt/SystemExit). *)
Inductive exn : Type := Exn (cls msg : string).

Definition str_exn (e : exn) : string := let 'Exn _ m := e in m.

(** The result of evaluating an expression or a call: a value or a raise. *)
Inductive outcome (A : Type) : Type :=
| Ret (a : A)
| Raise (e : exn).
Arguments Ret {A} a.
Arguments Raise {A} e.

Definition is_raise {A} (o : outcome A) : bool :=
  match o with Ret _ => false | Raise _ => true end.

(** ** str *)

(** [s.isascii()]: every character is below U+0080. *)
Definition isascii (s : string) : bool :=
  forallb (fun c => (nat_of_ascii c <? 128)%nat) (list_ascii_of_string s).

(** [c.isspace()] on the ASCII range. *)
Definition is_space (c : ascii) : bool :=
  let n := nat_of_ascii c in
  ((9 <=? n)%nat && (n <=? 13)%nat) || ((28 <=? n)%nat && (n <=? 32)%nat).

Fixpoint lstrip_chars (l : list ascii) : list ascii :=
  match l with
  | c :: l' => if is_space c then lstrip_chars l' else l
  | [] => []
  end.

(** [s.strip()], for a str written in ASCII (the white space of the rest
    of Unicode is not known here). *)
Definition strip (s : string) : string :=
  string_of_list_ascii
    (rev (lstrip_chars (rev (lstrip_chars (list_ascii_of_string s))))).

(** [s.startswith(p)] *)
Fixpoint startswith (p s : string) : bool :=
  match p, s with
  | EmptyString, _ => true
  | String a p', String b s' => Ascii.eqb a b && startswith p' s'
  | String _ _, EmptyString => false
  end.

(** [sub in s] for two strings: substring search. *)
Fixpoint contains (sub s : string) {struct s} : bool :=
  match s with
  | EmptyString => startswith sub EmptyString
  | String _ s' => startswith sub s || contains sub s'
  end.

Definition lower_ascii (c : ascii) : ascii :=
  let n := nat_of_ascii c in
  if (65 <=? n)%nat && (n <=? 90)%nat then ascii_of_nat (n + 32) else c.

(** [s.lower()], for a str written in ASCII (the letters A to Z; the
    characters outside ASCII are left alone). *)
Fixpoint lower (s : string) : string :=
  match s with
  | EmptyString => EmptyString
  | String c s' => String (lower_ascii c) (lower s')
  end.

Definition of_rev (cur : list ascii) : string := string_of_list_ascii (rev cur).

(** [s.split(sep)] for a non-empty separator: [skip] counts the characters
    of a separator occurrence still to be passed over, [cur] is the piece
    being read (reversed). *)
Fixpoint split_go (sep : string) (skip : nat) (cur : list ascii) (s : string)
  : list string :=
  match s with
  | EmptyString => [of_rev cur]
  | String c s' =>
      match skip with
      | S k => split_go sep k cur s'
      | O =>
          if startswith sep s
          then of_rev cur :: split_go sep (String.length sep - 1) [] s'
          else split_go sep O (c :: cur) s'
      end
  end.

Definition split (s sep : string) : list string := split_go sep 0 [] s.

(** [s.split()]: pieces between runs of whitespace, never empty. *)
Fixpoint split_ws_go (cur : list ascii) (s : string) : list string :=
  match s with
  | EmptyString => match cur with [] => [] | _ => [of_rev cur] end
  | String c s' =>
      if is_space c
      then match cur with
           | [] => split_ws_go [] s'
           | _ => of_rev cur :: split_ws_go [] s'
           end
      else split_ws_go (c :: cur) s'
  end.

Definition split_ws (s : string) : list string := split_ws_go [] s.

(** [sep.join(l)] *)
Fixpoint join (sep : string) (l : list string) : string :=
  match l with
  | [] => EmptyString
  | [x] => x
  | x :: rest => x +:+ sep +:+ join sep rest
  end.

(** Iterating over a str yields its characters as one-character strings. *)
Definition chars (s : string) : list string :=
  map (fun c => String c EmptyString) (list_ascii_of_string s).

(** [str(n)] for an int. *)
Definition str_int (z : Z) : string := NilEmpty.string_of_int (Z.to_int z).

Definition str_bool (b : bool) : string := if b then "True" else "False".

(** [str(o)] for a value that may be [None]. *)
Definition str_opt {A} (f : A -> string) (o : option A) : string :=
  match o with Some a => f a | None => "None" end.

Definition digit_of (c : ascii) : option Z :=
  let n := nat_of_ascii c in
  if (48 <=? n)%nat && (n <=? 57)%nat then Some (Z.of_nat (n - 48)) else None.

(** The digits of an int literal; single underscores may separate digits. *)
Fixpoint parse_digits (acc : Z) (after_digit : bool) (s : string) : option Z :=
  match s with
  | EmptyString => if after_digit then Some acc else None
  | String c s' =>
      match digit_of c with
      | Some d => parse_digits (10 * acc + d) true s'
      | None =>
          if Ascii.eqb c "_" && after_digit then parse_digits acc false s'
          else None
      end
  end.

(** [int(s)] in base 10: surrounding whitespace, an optional sign, digits. *)
Definition int (s : string) : outcome Z :=
  let t := strip s in
  let '(neg, body) :=
    match t with
    | String "-" r => (true, r)
    | String "+" r => (false, r)
    | _ => (false, t)
    end in
  match parse_digits 0 false body with
  | Some n => Ret (if neg then - n else n)%Z
  | None =>
      Raise (Exn "ValueError"
               ("invalid literal for int() with base 10: '" +:+ s +:+ "'"))
  end.

(** [l[i]] for a non-negative index. *)
Definition index {A} (l : list A) (i : nat) : outcome A :=
  match l !! i with
  | Some a => Ret a
  | None => Raise (Exn "IndexError" "list index out of range")
  end.

(** [l[-1]] *)
Definition index_last {A} (l : list A) : outcome A :=
  match last l with
  | Some a => Ret a
  | None => Raise (Exn "IndexError" "list index out of range")
  end.

(** [x in l] for a list. *)
Definition in_list `{EqDecision A} (x : A) (l : list A) : bool :=
  bool_decide (x ∈ l).

(** ** float

    Python floats are IEEE binary64 numbers: Rocq's primitive [float].  The
    arithmetic of the source that is not a hardware operation (int / int,
    round(x, 2), the conversions to text) is written out on the exact value
    of the float, a ratio of two integers. *)

Local Open Scope Z_scope.

(** The binary64 nearest to [p/q] for [0 <= p], [0 < q], ties to even.  The
    quotient is scaled to 60 or 61 bits and a sticky bit records an inexact
    division, so the single rounding of [of_uint63] decides. *)
Definition float_of_ratio (p q : Z) : float :=
  if p =? 0 then 0%float else
  let s := 60 - Z.log2 p + Z.log2 q in
  let num := if 0 <=? s then Z.shiftl p s else p in
  let den := if 0 <=? s then q else Z.shiftl q (- s) in
  let sticky := if num mod den =? 0 then 0 else 1 in
  Z.ldexp (PrimFloat.of_uint63 (Uint63.of_Z (2 * (num / den) + sticky)))
          (- s - 1).

Definition with_sign (neg : bool) (f : float) : float :=
  if neg then PrimFloat.opp f else f.

(** [float(n)] for an int. *)
Definition float_of_int (n : Z) : float :=
  with_sign (n <? 0) (float_of_ratio (Z.abs n) 1).

(** [a / b] for two ints, [b <> 0]: the correctly rounded quotient. *)
Definition truediv (a b : Z) : float :=
  with_sign (xorb (a <? 0) (b <? 0)) (float_of_ratio (Z.abs a) (Z.abs b)).

(** The integer nearest to [p/q] ([0 <= p], [0 < q]), ties to even. *)
Definition round_half_even (p q : Z) : Z :=
  let d := p / q in
  let r := p mod q in
  if 2 * r <? q then d
  else if q <? 2 * r then d + 1
  else if Z.even d then d else d + 1.

(** [(p/q) * 10^k] as a ratio. *)
Definition scaled (p q k : Z) : Z * Z :=
  if 0 <=? k then (p * 10 ^ k, q) else (p, q * 10 ^ (- k)).

(** The exact value [m * 2^e] of a finite float as a ratio. *)
Definition ratio_of (m : positive) (e : Z) : Z * Z :=
  if 0 <=? e then (Z.pos m * 2 ^ e, 1) else (Z.pos m, 2 ^ (- e)).

(** [round(x, 2)]: the exact value of [x] is rounded to an integer number
    of hundredths (ties to even), and the decimal obtained is converted
    back to the nearest float.  A float with no fractional bit, an
    infinity or a nan is returned as it is. *)
Definition round2 (x : float) : float :=
  match Prim2SF x with
  | S754_finite neg m e =>
      if 0 <=? e then x
      else with_sign neg
             (float_of_ratio (round_half_even (100 * Z.pos m) (2 ^ (- e))) 100)
  | _ => x
  end.

(** *** Floats as text *)

(** [10^k <= p/q] *)
Definition le_pow10 (k p q : Z) : bool :=
  if 0 <=? k then 10 ^ k * q <=? p else q <=? p * 10 ^ (- k).

Fixpoint log10_up (fuel : nat) (k p q : Z) : Z :=
  match fuel with
  | O => k
  | S f => if le_pow10 (k + 1) p q then log10_up f (k + 1) p q else k
  end.

(** [floor (log10 (p/q))] for [0 < p], [0 < q]: an estimate from the bit
    lengths, at most three below, then corrected upwards. *)
Definition floor_log10 (p q : Z) : Z :=
  log10_up 4 ((Z.log2 p - Z.log2 q - 1) * 30103 / 100000 - 1) p q.

(** Does the decimal [n * 10^k] convert to the float [x]? *)
Definition roundtrips (x : float) (n k : Z) : bool :=
  let '(a, b) := scaled n 1 k in
  PrimFloat.eqb (float_of_ratio a b) x.

(** The shortest decimal that converts back to [x = p/q], the nearest to
    [x] of that length, as digits [n] and exponent [k]; [ex] is
    [floor_log10 p q] and [d] the number of digits tried. *)
Fixpoint shortest_go (fuel : nat) (x : float) (p q ex d : Z) : Z * Z :=
  let k := ex - d + 1 in
  let '(a, b) := scaled p q (- k) in
  let near := round_half_even a b in
  let far := if near =? a / b then a / b + 1 else a / b in
  match fuel with
  | O => (near, k)
  | S f =>
      if roundtrips x near k then (near, k)
      else if roundtrips x far k then (far, k)
      else shortest_go f x p q ex (d + 1)
  end.

(** [p/q] rounded to [d] significant digits. *)
Definition to_digits (p q d : Z) : Z * Z :=
  let k := floor_log10 p q - d + 1 in
  let '(a, b) := scaled p q (- k) in
  (round_half_even a b, k).

Fixpoint strip_zeros (fuel : nat) (n k : Z) : Z * Z :=
  match fuel with
  | O => (n, k)
  | S f => if (n mod 10 =? 0) && (0 <? n) then strip_zeros f (n / 10) (k + 1)
           else (n, k)
  end.

(** Digits without trailing zeros and the position of the decimal point:
    the value is [0.ds * 10^decpt]. *)
Definition digits_decpt (nk : Z * Z) : string * Z :=
  let '(n, k) := strip_zeros 400 (fst nk) (snd nk) in
  let ds := str_int n in
  (ds, Z.of_nat (String.length ds) + k).

Fixpoint zeros (n : nat) : string :=
  match n with O => EmptyString | S k => String "0" (zeros k) end.

Definition layout_fixed (ds : string) (decpt : Z) (add_dot_0 : bool) : string :=
  let len := Z.of_nat (String.length ds) in
  if decpt <=? 0 then "0." +:+ zeros (Z.to_nat (- decpt)) +:+ ds
  else if decpt <? len
  then substring 0 (Z.to_nat decpt) ds +:+ "." +:+
       substring (Z.to_nat decpt) (Z.to_nat (len - decpt)) ds
  else ds +:+ zeros (Z.to_nat (decpt - len)) +:+ (if add_dot_0 then ".0" else "").

Definition layout_exp (ds : string) (decpt : Z) : string :=
  let e := decpt - 1 in
  let mant :=
    match ds with
    | String c EmptyString => ds
    | String c r => String c ("." +:+ r)
    | EmptyString => ds
    end in
  let es := str_int (Z.abs e) in
  mant +:+ "e" +:+ (if e <? 0 then "-" else "+") +:+
  (if Z.abs e <? 10 then "0" +:+ es else es).

(** [repr(x)], which is also [str(x)] and what an f-string field [{x}]
    shows: the shortest digits that read back as [x], in exponent notation
    from 1e16 on and below 1e-4. *)
Definition repr_float (x : float) : string :=
  match Prim2SF x with
  | S754_zero neg => if neg then "-0.0" else "0.0"
  | S754_infinity neg => if neg then "-inf" else "inf"
  | S754_nan => "nan"
  | S754_finite neg m e =>
      let '(p, q) := ratio_of m e in
      let '(ds, decpt) :=
        digits_decpt (shortest_go 16 (PrimFloat.abs x) p q (floor_log10 p q) 1) in
      (if neg then "-" else "") +:+
      (if (decpt <=? -4) || (16 <? decpt) then layout_exp ds decpt
       else layout_fixed ds decpt true)
  end.

(** [format(x, '+g')]: six significant digits, trailing zeros removed, the
    sign always shown. *)
Definition format_plus_g (x : float) : string :=
  match Prim2SF x with
  | S754_zero neg => if neg then "-0" else "+0"
  | S754_infinity neg => if neg then "-inf" else "+inf"
  | S754_nan => "+nan"
  | S754_finite neg m e =>
      let '(p, q) := ratio_of m e in
      let '(ds, decpt) := digits_decpt (to_digits p q 6) in
      (if neg then "-" else "+") +:+
      (if (decpt <=? -4) || (6 <? decpt) then layout_exp ds decpt
       else layout_fixed ds decpt false)
  end.

(** [format(x, '.1f')]: one digit after the point. *)
Definition format_1f (x : float) : string :=
  match Prim2SF x with
  | S754_zero neg => if neg then "-0.0" else "0.0"
  | S754_infinity neg => if neg then "-inf" else "inf"
  | S754_nan => "nan"
  | S754_finite neg m e =>
      let '(p, q) := ratio_of m e in
      let n := round_half_even (10 * p) q in
      (if neg then "-" else "") +:+ str_int (n / 10) +:+ "." +:+ str_int (n mod 10)
  end.

(** [int(x)] for a float: truncation towards zero. *)
Definition int_of_float (x : float) : outcome Z :=
  match Prim2SF x with
  | S754_zero _ => Ret 0
  | S754_finite neg m e =>
      let '(p, q) := ratio_of m e in
      Ret (if neg then - (p / q) else p / q)
  | S754_infinity _ =>
      Raise (Exn "OverflowError" "cannot convert float infinity to integer")
  | S754_nan => Raise (Exn "ValueError" "cannot convert float NaN to integer")
  end.

Definition is_Some_b {A} (o : option A) : bool :=
  match o with Some _ => true | None => false end.

(** A number that is an int on some paths and a float on others. *)
Inductive num : Type := NInt (z : Z) | NFloat (f : float).

Definition str_num (n : num) : string :=
  match n with NInt z => str_int z | NFloat f => repr_float f end.

Local Close Scope Z_scope.

(** ** Lists and small helpers *)

(** The newline character as a string. *)
Definition nl : string := String (ascii_of_nat 10) EmptyString.

(** Truth value of a str: non-empty. *)
Definition truthy (s : string) : bool :=
  match s with EmptyString => false | String _ _ => true end.

(** [sorted(l)] by insertion, stable as Python's sort is: [before x y]
    says that [x] must come before [y]; an element is placed after the
    elements already there that it need not precede. *)
Fixpoint insert_by {A} (before : A -> A -> bool) (x : A) (l : list A) : list A :=
  match l with
  | [] => [x]
  | y :: l' => if before x y then x :: l else y :: insert_by before x l'
  end.

Definition sorted_by {A} (before : A -> A -> bool) (l : list A) : list A :=
  fold_left (fun acc x => insert_by before x acc) l [].

(** [sorted(l)] for ints. *)
Definition sorted (l : list Z) : list Z := sorted_by Z.ltb l.

(** [sorted(l, key=key, reverse=True)] for int keys. *)
Definition sorted_desc {A} (key : A -> Z) (l : list A) : list A :=
  sorted_by (fun x y => Z.ltb (key y) (key x)) l.

Definition hex_digit (n : Z) : string :=
  String (ascii_of_nat (Z.to_nat (if n <? 10 then 48 + n else 87 + n)%Z)) EmptyString.

(** ['{:02x}'.format(n)] for [0 <= n < 256]. *)
Definition hex2 (n : Z) : string := (hex_digit (n / 16) +:+ hex_digit (n mod 16))%Z.

End Py.

(** * The host *)

Module Host.
Import Py.

(** A [datetime] value: the wall-clock instant in microseconds and the
    renderings the source asks of it ([strftime] is a function of the
    value and of the locale). *)
Record datetime : Type := {
  dt_micros : Z;
  dt_weekday : string;      (* strftime('%A') *)
  dt_date : string;         (* strftime('%d %B %Y') *)
  dt_time : string;         (* strftime('%H:%M:%S') *)
  dt_ymd_hms : string;      (* strftime('%Y-%m-%d %H:%M:%S') *)
  dt_isoformat : string     (* isoformat() *)
}.

(** psutil's named tuples, with the fields the source reads. *)
Record svmem : Type := { vm_total : Z; vm_percent : float }.
Record sdiskusage : Type := { du_total : Z; du_used : Z; du_percent : float }.
Record snetio : Type := {
  bytes_sent : Z; bytes_recv : Z; packets_sent : Z; packets_recv : Z
}.
Record sconn : Type := {
  conn_status : string; conn_laddr_port : Z; conn_pid : option Z
}.
Record sdiskpart : Type := {
  part_device : string; part_mountpoint : string; part_fstype : string
}.
Record sdiskio : Type := { read_count : Z; write_count : Z }.

(** [proc.info] of [psutil.process_iter(attrs)]: an attribute the process
    denies is [None]. *)
Record pinfo : Type := {
  p_name : option string;
  p_status : option string;
  p_cpu_percent : option float;
  p_memory_percent : option float
}.

(** What every library call of the source answers at one instant: a value
    or an exception. *)
Record host : Type := {
  (* datetime, time *)
  datetime_now : outcome datetime;
  datetime_utcnow : outcome datetime;
  datetime_fromtimestamp : float -> outcome datetime;
  time_time : outcome float;
  time_tzname : string * string;
  time_timezone : Z;
  time_altzone : Z;
  time_daylight : Z;
  time_localtime_isdst : outcome Z;          (* time.localtime().tm_isdst *)
  time_strftime_X : outcome string;          (* time.strftime('%X') *)
  time_strftime_x : outcome string;          (* time.strftime('%x') *)
  (* platform, os *)
  platform_system : outcome string;
  platform_release : outcome string;
  platform_machine : outcome string;
  platform_processor : outcome string;
  os_getloadavg : option (outcome (float * float * float)); (* None: no such attribute *)
  os_path_exists : string -> bool;
  (* psutil *)
  cpu_percent : outcome float;               (* cpu_percent(interval=1) *)
  cpu_count_logical : outcome (option Z);
  cpu_count_physical : outcome (option Z);
  virtual_memory : outcome svmem;
  swap_memory_percent : outcome float;       (* swap_memory().percent *)
  disk_usage : string -> outcome sdiskusage;
  disk_partitions : outcome (list sdiskpart);
  disk_io_counters : outcome (option sdiskio);
  boot_time : outcome float;
  pids : outcome (list Z);
  users : outcome (list string);             (* the name of each entry *)
  net_if_addrs : outcome (list string);      (* the keys, in order *)
  net_io_counters : outcome snetio;
  net_io_counters_pernic : outcome (list (string * snetio));
  net_connections : outcome (list sconn);
  process_name : Z -> outcome string;        (* psutil.Process(pid).name() *)
  process_iter : outcome (list pinfo);
  (* socket, uuid, requests, locale, pytz, pwd, wmi *)
  socket_gethostname : outcome string;
  socket_socket : outcome unit;              (* socket.socket(AF_INET, SOCK_DGRAM) *)
  socket_local_ip : outcome string;          (* s.connect(...); s.getsockname()[0] *)
  uuid_getnode : outcome Z;
  requests_get : string -> outcome unit;
  locale_getlocale : outcome (option string * option string);
  locale_setlocale : outcome unit;           (* setlocale(LC_ALL, '') *)
  locale_currency_symbol : outcome string;   (* localeconv()['currency_symbol'] *)
  pytz_all_timezones : outcome (list string);
  pwd_getpwall : outcome (list string);      (* p[0] of each entry *)
  wmi_bios_versions : outcome (list string); (* bios.Version over wmi.WMI().Win32_BIOS() *)
  (* subprocess.check_output(cmd).decode(), by argument vector; a shell
     command line is the one-element vector *)
  check_output : list string -> outcome string;
  (* open(path, "a") followed by write *)
  append_file : string -> outcome unit
}.

(** The host over time: its answers at each instant of an abstract clock
    that advances when the program waits. *)
Definition world : Type := nat -> host.

End Host.

(** * Running a method *)

Module Run.
Import Py Host.

(** The program's own state: the clock and what it has appended to files. *)
Record state : Type := {
  clock : nat;
  files : gmap string (list string)
}.

(** A method body: reads the world, changes the state, returns or raises. *)
Definition M (A : Type) : Type := world -> state -> outcome A * state.

Definition ret {A} (a : A) : M A := fun _ s => (Ret a, s).

Definition raise {A} (e : exn) : M A := fun _ s => (Raise e, s).

Definition bind {A B} (c : M A) (k : A -> M B) : M B :=
  fun w s =>
    match c w s with
    | (Ret a, s') => k a w s'
    | (Raise e, s') => (Raise e, s')
    end.

(** [try: c  except ...: h]: what [c] did to the state before raising
    stays done. *)
Definition try_except {A} (c : M A) (h : exn -> M A) : M A :=
  fun w s =>
    match c w s with
    | (Ret a, s') => (Ret a, s')
    | (Raise e, s') => h e w s'
    end.

(** The value of an expression that may raise. *)
Definition lift {A} (o : outcome A) : M A := fun _ s => (o, s).

(** A library call, answered by the host at the current instant. *)
Definition call {A} (f : host -> outcome A) : M A :=
  fun w s => (f (w (clock s)), s).

(** A module attribute, read at the current instant. *)
Definition attr {A} (f : host -> A) : M A :=
  fun w s => (Ret (f (w (clock s))), s).

(** The program waits: [time.sleep(1)], a blocking measurement or request. *)
Definition tick : M unit :=
  fun _ s => (Ret tt, {| clock := S (clock s); files := files s |}).

(** [with open(path, "a") as f: f.write(entry)] *)
Definition append_to (path entry : string) : M unit :=
  fun w s =>
    match append_file (w (clock s)) path with
    | Ret _ =>
        (Ret tt,
         {| clock := clock s;
            files := <[path := default [] (files s !! path) ++ [entry]]> (files s) |})
    | Raise e => (Raise e, s)
    end.

Declare Scope run_scope.
Delimit Scope run_scope with run.
Notation "'let*' x ':=' c 'in' k" := (bind c (fun x => k))
  (at level 10, x pattern, c at level 100, k at level 200) : run_scope.
Notation "c ';;;' k" := (bind c (fun _ => k))
  (at level 100, k at level 200, right associativity) : run_scope.

(** [for x in l: acc = body(acc, x)] *)
Fixpoint for_each {A S} (l : list A) (acc : S) (body : S -> A -> M S) : M S :=
  match l with
  | [] => ret acc
  | x :: l' => bind (body acc x) (fun acc' => for_each l' acc' body)
  end.

End Run.

(** * Logger (src/utils/logger.py) *)

Module Logger.
Import Py Host Run.
Local Open Scope run_scope.

(** The attributes of a [Logger] that [log_message] reads. *)
Record t : Type := { log_file : string; temp_log_path : string }.

(** [Logger.log_message(message, temp_log=True)] (logger.py, lines 38-53):
    no exception is caught here, a failing write propagates. *)
Definition log_message (self : t) (message : string) (temp_log : bool) : M unit :=
  let* now := call datetime_now in
  let log_entry := dt_isoformat now +:+ " - " +:+ message +:+ nl in
  append_to (log_file self) log_entry ;;;
  if temp_log then append_to (temp_log_path self) log_entry else ret tt.

End Logger.

(** * PromptEnhancer (src/utils/prompt_enhancer.py) *)

Module PromptEnhancer.
Import Py Host Run.
Local Open Scope run_scope.

Record t : Type := { logger : Logger.t }.

(** ** The dicts the probes return, one record per probe *)

Record time_info : Type := {
  ti_weekday : string; ti_date : string; ti_time : string;
  ti_full : string; ti_utc : string; ti_timestamp : Z
}.

Record system_info : Type := {
  si_os : string; si_version : string;
  si_cpu : float; si_cpu_cores : option Z; si_physical_cores : option Z;
  si_cpu_model : string;
  si_memory : float; si_memory_gb : float;
  si_disk_total : float; si_disk_percent : float;
  si_uptime : string
}.

Record network_info : Type := {
  ni_hostname : string; ni_local_ip : string; ni_mac_address : string;
  ni_interfaces : list string;
  ni_internet_available : bool; ni_latency : num
}.

Record locale_info : Type := {
  li_language : string; li_encoding : string; li_currency : string;
  li_time_format : string; li_date_format : string
}.

Record timezone_info : Type := {
  tz_current : string; tz_utc_offset : string; tz_dst_active : bool;
  tz_examples : list string
}.

Record performance_info : Type := {
  pf_load_1 : num; pf_load_5 : num; pf_load_15 : num;
  pf_process_count : Z;
  pf_network_sent : float; pf_network_recv : float;
  pf_swap_percent : float;
  pf_boot_time : string
}.

Record hardware_info : Type := {
  hw_machine_type : string; hw_processor : string;
  hw_bios_version : string; hw_boot_mode : string
}.

Record users_info : Type := {
  us_logged_users : list string; us_logged_users_count : Z;
  us_system_users : list string; us_system_users_count : Z;
  us_sessions_count : Z
}.

Record iface_stats : Type := {
  if_sent_mb : float; if_received_mb : float;
  if_packets_sent : Z; if_packets_recv : Z
}.

Record traffic_info : Type := {
  tr_download_speed : float; tr_upload_speed : float;
  tr_total_sent : float; tr_total_received : float;
  tr_packets_sent : Z; tr_packets_recv : Z;
  tr_interfaces : list (string * iface_stats)
}.

Record ports_info : Type := {
  po_listening_ports : list Z;
  po_total_connections : Z;
  po_established : Z;
  po_top_processes : list string
}.

Record process_info : Type := {
  pr_total : Z; pr_running : Z;
  pr_top_cpu : list string; pr_top_memory : list string
}.

Record disk_info : Type := {
  dk_device : string; dk_mountpoint : string; dk_fstype : string;
  dk_total_gb : float; dk_used_gb : float; dk_percent : float
}.

Record filesystem_info : Type := {
  fs_disks : list disk_info; fs_io_read : Z; fs_io_write : Z
}.

Record services_info : Type := {
  sv_running_count : Z;
  sv_services : list string;
  sv_critical : list string
}.

(** [len(l)] *)
Definition len {A} (l : list A) : Z := Z.of_nat (length l).

(** [x if x else "Unknown"] for a str that may be [None]. *)
Definition or_unknown (o : option string) : string :=
  match o with
  | Some s => if truthy s then s else "Unknown"
  | None => "Unknown"
  end.

Section methods.

Variable self : t.

(** The handler every guarded probe ends with:
    [except Exception as e: self.logger.log_message(f"...: {str(e)}"); return None]. *)
Definition log_and_none {A} (what : string) (e : exn) : M (option A) :=
  Logger.log_message (logger self) (what +:+ ": " +:+ str_exn e) true ;;;
  ret None.

(** ** get_current_time_info (lines 181-205): there is no [try] in this method. *)
Definition get_current_time_info : M time_info :=
  let* now_local := call datetime_now in
  let* now_utc := call datetime_utcnow in
  let* tzname := attr time_tzname in
  let local_tz := fst tzname in
  let weekday := dt_weekday now_local in
  let date := dt_date now_local in
  let time_str := dt_time now_local in
  let* now := call time_time in
  let* timestamp := lift (int_of_float now) in
  ret {| ti_weekday := weekday;
         ti_date := date;
         ti_time := time_str;
         ti_full := weekday +:+ ", " +:+ date +:+ " " +:+ time_str +:+
                    " (" +:+ local_tz +:+ ")";
         ti_utc := dt_ymd_hms now_utc +:+ " UTC";
         ti_timestamp := timestamp |}.

(** ** get_system_info (lines 207-265) *)
Definition get_system_info : M (option system_info) :=
  try_except
    (let* os_name := call platform_system in
     let* os_version := call platform_release in
     tick ;;;                               (* cpu_percent(interval=1) waits *)
     let* cpu_usage := call cpu_percent in
     let* cpu_cores := call cpu_count_logical in
     let* cpu_physical := call cpu_count_physical in
     let* cpu_model :=
       try_except
         (let* sys := call platform_system in
          if String.eqb sys "Windows" then call platform_processor
          else
            let* out := call (fun h => check_output h
                          ["cat /proc/cpuinfo | grep 'model name' | uniq"]) in
            let* field := lift (index (split (strip out) ":") 1) in
            ret (strip field))
         (fun _ => ret "Unknown CPU") in
     let* memory := call virtual_memory in
     let memory_used_percent := vm_percent memory in
     let memory_total_gb := round2 (truediv (vm_total memory) (1024 ^ 3)) in
     let* disk := call (fun h => disk_usage h "/") in
     let disk_total := round2 (truediv (du_total disk) (1024 ^ 3)) in
     let disk_percent := du_percent disk in
     let* bt := call boot_time in
     let* boot := call (fun h => datetime_fromtimestamp h bt) in
     let* now := call datetime_now in
     let uptime := (dt_micros now - dt_micros boot)%Z in
     let uptime_days := (uptime / 86400000000)%Z in
     let uptime_seconds := ((uptime mod 86400000000) / 1000000)%Z in
     let uptime_hours := (uptime_seconds / 3600)%Z in
     let uptime_minutes := ((uptime_seconds / 60) mod 60)%Z in
     ret (Some
       {| si_os := os_name;
          si_version := os_version;
          si_cpu := cpu_usage;
          si_cpu_cores := cpu_cores;
          si_physical_cores := cpu_physical;
          si_cpu_model := cpu_model;
          si_memory := memory_used_percent;
          si_memory_gb := memory_total_gb;
          si_disk_total := disk_total;
          si_disk_percent := disk_percent;
          si_uptime := str_int uptime_days +:+ " days, " +:+
                       str_int uptime_hours +:+ " hours, " +:+
                       str_int uptime_minutes +:+ " minutes" |}))
    (log_and_none "Error getting system info").

(** ** get_network_info (lines 267-318)

    The socket is closed in a [finally]; closing is not modelled. *)
Definition get_network_info : M (option network_info) :=
  try_except
    (let* hostname := call socket_gethostname in
     call socket_socket ;;;
     let* local_ip :=
       try_except (call socket_local_ip) (fun _ => ret "127.0.0.1") in
     let* node := call uuid_getnode in
     let mac :=
       join ":" (rev (map (fun ele => hex2 (Z.land (Z.shiftr node ele) 255))
                          [0; 8; 16; 24; 32; 40]%Z)) in
     let* addrs := call net_if_addrs in
     let interfaces := fold_left (fun acc iface => acc ++ [iface]) addrs [] in
     let* probe :=
       try_except
         (let* start := call time_time in
          tick ;;;                          (* the request takes its time *)
          call (fun h => requests_get h "https://www.google.com") ;;;
          let* stop := call time_time in
          let latency :=
            round2 (PrimFloat.mul (PrimFloat.sub stop start) (float_of_int 1000)) in
          ret (true, NFloat latency))
         (fun _ => ret (false, NInt (-1))) in
     ret (Some
       {| ni_hostname := hostname;
          ni_local_ip := local_ip;
          ni_mac_address := mac;
          ni_interfaces := interfaces;
          ni_internet_available := fst probe;
          ni_latency := snd probe |}))
    (log_and_none "Error getting network info").

(** ** get_locale_info (lines 320-350) *)
Definition get_locale_info : M (option locale_info) :=
  try_except
    (let* current_locale := call locale_getlocale in
     let* formats :=
       try_except
         (call locale_setlocale ;;;
          let* currency_symbol := call locale_currency_symbol in
          let* time_format := call time_strftime_X in
          let* date_format := call time_strftime_x in
          ret (currency_symbol, time_format, date_format))
         (fun _ => ret ("Unknown", "Unknown", "Unknown")) in
     let '(currency_symbol, time_format, date_format) := formats in
     ret (Some
       {| li_language := or_unknown (fst current_locale);
          li_encoding := or_unknown (snd current_locale);
          li_currency := currency_symbol;
          li_time_format := time_format;
          li_date_format := date_format |}))
    (log_and_none "Error getting locale info").

(** ** get_timezone_info (lines 352-382) *)
Definition get_timezone_info : M (option timezone_info) :=
  try_except
    (let* tzname := attr time_tzname in
     let local_zone := fst tzname in
     let* timezone := attr time_timezone in
     let utc_offset := round2 (truediv timezone (-3600)) in
     let* daylight := attr time_daylight in
     let* utc_offset :=
       if negb (daylight =? 0)%Z then
         let* isdst := call time_localtime_isdst in
         if (0 <? isdst)%Z then
           let* altzone := attr time_altzone in
           ret (round2 (truediv altzone (-3600)))
         else ret utc_offset
       else ret utc_offset in
     let* isdst := call time_localtime_isdst in
     let is_dst := negb (isdst =? 0)%Z in
     let* all_timezones := call pytz_all_timezones in
     let available_timezones := take 5 all_timezones in
     ret (Some
       {| tz_current := local_zone;
          tz_utc_offset := format_plus_g utc_offset +:+ " hours";
          tz_dst_active := is_dst;
          tz_examples := available_timezones |}))
    (log_and_none "Error getting timezone info").

(** ** get_performance_metrics (lines 384-422) *)
Definition get_performance_metrics : M (option performance_info) :=
  try_except
    (let* getloadavg := attr os_getloadavg in
     let* loads :=
       match getloadavg with
       | Some o =>
           let* l := lift o in
           ret (NFloat (fst (fst l)), NFloat (snd (fst l)), NFloat (snd l))
       | None => ret (NInt (-1), NInt (-1), NInt (-1))
       end in
     let '(load_1, load_5, load_15) := loads in
     let* ps := call pids in
     let process_count := len ps in
     let* net_io := call net_io_counters in
     let net_sent := round2 (truediv (bytes_sent net_io) (1024 ^ 2)) in
     let net_recv := round2 (truediv (bytes_recv net_io) (1024 ^ 2)) in
     let* swap_percent := call swap_memory_percent in
     let* bt := call boot_time in
     let* boot := call (fun h => datetime_fromtimestamp h bt) in
     ret (Some
       {| pf_load_1 := load_1;
          pf_load_5 := load_5;
          pf_load_15 := load_15;
          pf_process_count := process_count;
          pf_network_sent := net_sent;
          pf_network_recv := net_recv;
          pf_swap_percent := swap_percent;
          pf_boot_time := dt_ymd_hms boot |}))
    (log_and_none "Error getting performance metrics").

(** ** get_hardware_info (lines 424-463)

    [os.path.exists] answers [False] where it cannot look, it does not
    raise: the [try] around it has nothing to catch. *)
Definition get_hardware_info : M (option hardware_info) :=
  try_except
    (let* machine_type := call platform_machine in
     let* processor := call platform_processor in
     let* sys := call platform_system in
     let* bios_version :=
       if String.eqb sys "Windows" then
         try_except
           (let* versions := call wmi_bios_versions in
            ret (fold_left (fun _ version => version) versions "Unknown"))
           (fun _ => ret "Unknown")
       else ret "Unknown" in
     let* sys := call platform_system in
     let* boot_mode :=
       if String.eqb sys "Linux" then
         let* efi := attr (fun h => os_path_exists h "/sys/firmware/efi") in
         ret (if efi then "UEFI" else "Legacy BIOS")
       else ret "Unknown" in
     ret (Some
       {| hw_machine_type := machine_type;
          hw_processor := processor;
          hw_bios_version := bios_version;
          hw_boot_mode := boot_mode |}))
    (log_and_none "Error getting hardware info").

(** ** get_users_info (lines 465-520) *)

(** The body of the loop over the lines of [who]: [line.strip()] is not
    empty, so [line.split()] has a first element. *)
Definition who_line (acc : list string * Z) (line : string) : list string * Z :=
  let '(logged_users, sessions_count) := acc in
  if truthy (strip line) then
    let username := default EmptyString (head (split_ws line)) in
    (if in_list username logged_users then logged_users
     else logged_users ++ [username],
     (sessions_count + 1)%Z)
  else acc.

(** The body of the loop over the lines of [net user]. *)
Definition net_user_line (system_users : list string) (line : string) : list string :=
  let line := strip line in
  if truthy line && negb (startswith "-" line)
     && negb (startswith "User accounts" line)
     && negb (startswith "The command" line)
  then system_users ++ split_ws line
  else system_users.

Definition get_users_info : M (option users_info) :=
  try_except
    (let* logged :=
       try_except
         (let* us := call users in
          ret (fold_left (fun acc name => (fst acc ++ [name], (snd acc + 1)%Z))
                         us ([], 0%Z)))
         (fun _ =>
            try_except
              (let* output := call (fun h => check_output h ["who"]) in
               ret (fold_left who_line (split output nl) ([], 0%Z)))
              (fun _ => ret ([], 0%Z))) in
     let '(logged_users, sessions_count) := logged in
     let* system_users :=
       try_except
         (let* sys := call platform_system in
          if negb (String.eqb sys "Windows") then
            let* entries := call pwd_getpwall in
            ret (fold_left (fun acc name => acc ++ [name]) entries [])
          else
            let* output := call (fun h => check_output h ["net"; "user"]) in
            ret (fold_left net_user_line (split output nl) []))
         (fun _ => ret []) in
     ret (Some
       {| us_logged_users := logged_users;
          us_logged_users_count := len logged_users;
          us_system_users := system_users;
          us_system_users_count := len system_users;
          us_sessions_count := sessions_count |}))
    (log_and_none "Error getting users info").

(** ** get_network_traffic (lines 522-577) *)

(** The body of the loop over the counters of each interface. *)
Definition add_interface (interfaces_stats : list (string * iface_stats))
    (item : string * snetio) : list (string * iface_stats) :=
  let '(iface, stats) := item in
  let if_sent := round2 (truediv (bytes_sent stats) (1024 * 1024)) in
  let if_recv := round2 (truediv (bytes_recv stats) (1024 * 1024)) in
  interfaces_stats ++
  [(iface,
    {| if_sent_mb := if_sent;
       if_received_mb := if_recv;
       if_packets_sent := Host.packets_sent stats;
       if_packets_recv := Host.packets_recv stats |})].

Definition get_network_traffic : M (option traffic_info) :=
  try_except
    (let* net_io1 := call net_io_counters in
     tick ;;;                               (* time.sleep(1) *)
     let* net_io2 := call net_io_counters in
     let download_speed :=
       round2 (truediv (bytes_recv net_io2 - bytes_recv net_io1) 1024) in
     let upload_speed :=
       round2 (truediv (bytes_sent net_io2 - bytes_sent net_io1) 1024) in
     let total_sent := round2 (truediv (bytes_sent net_io2) (1024 * 1024)) in
     let total_received := round2 (truediv (bytes_recv net_io2) (1024 * 1024)) in
     let packets_sent := packets_sent net_io2 in
     let packets_recv := packets_recv net_io2 in
     let* interfaces_stats :=
       try_except
         (let* pernic := call net_io_counters_pernic in
          ret (fold_left add_interface pernic []))
         (fun _ => ret []) in
     ret (Some
       {| tr_download_speed := download_speed;
          tr_upload_speed := upload_speed;
          tr_total_sent := total_sent;
          tr_total_received := total_received;
          tr_packets_sent := packets_sent;
          tr_packets_recv := packets_recv;
          tr_interfaces := interfaces_stats |}))
    (log_and_none "Error getting network traffic").

(** ** get_open_ports (lines 579-643) *)

(** [process_connections[name] += 1] on a [defaultdict(int)]; the dict
    keeps its keys in the order of their first insertion. *)
Fixpoint count_connection (name : string) (d : list (string * Z)) : list (string * Z) :=
  match d with
  | [] => [(name, 1%Z)]
  | (k, v) :: d' =>
      if String.eqb k name then (k, (v + 1)%Z) :: d'
      else (k, v) :: count_connection name d'
  end.

(** The loop of the first part: listening ports, established connections
    and the connections of each process. *)
Definition scan_connection (acc : list Z * Z * list (string * Z)) (conn : sconn)
  : M (list Z * Z * list (string * Z)) :=
  let '(listening_ports, established, process_connections) := acc in
  let listening_ports :=
    if String.eqb (conn_status conn) "LISTEN"
       && negb (in_list (conn_laddr_port conn) listening_ports)
    then listening_ports ++ [conn_laddr_port conn]
    else listening_ports in
  let established :=
    if String.eqb (conn_status conn) "ESTABLISHED" then (established + 1)%Z
    else established in
  let* process_connections :=
    match conn_pid conn with
    | Some pid =>
        if negb (pid =? 0)%Z then
          try_except
            (let* name := call (fun h => process_name h pid) in
             ret (count_connection name process_connections))
            (fun _ => ret process_connections)
        else ret process_connections
    | None => ret process_connections
    end in
  ret (listening_ports, established, process_connections).

(** The body of the loop over the lines of [netstat -tuln]. *)
Definition netstat_line (listening_ports : list Z) (line : string) : list Z :=
  if contains "LISTEN" line then
    let parts := split_ws line in
    if (4 <=? length parts)%nat then
      let addr := default EmptyString (parts !! 3%nat) in
      let port := default EmptyString (last (split addr ":")) in
      match int port with
      | Ret port_num =>
          if negb (in_list port_num listening_ports)
          then listening_ports ++ [port_num]
          else listening_ports
      | Raise _ => listening_ports
      end
    else listening_ports
  else listening_ports.

Definition top_process_entry (item : string * Z) : string :=
  fst item +:+ " (" +:+ str_int (snd item) +:+ ")".

Definition get_open_ports : M (option ports_info) :=
  try_except
    (let* connections := call net_connections in
     let* scanned := for_each connections ([], 0%Z, []) scan_connection in
     let '(listening_ports, established, process_connections) := scanned in
     let top_processes :=
       fold_left (fun acc item => acc ++ [top_process_entry item])
                 (take 5 (sorted_desc snd process_connections)) [] in
     let* listening_ports :=
       match listening_ports with
       | [] =>
           let* sys := call platform_system in
           if String.eqb sys "Linux" then
             try_except
               (let* output := call (fun h => check_output h ["netstat"; "-tuln"]) in
                ret (fold_left netstat_line (split output nl) listening_ports))
               (fun _ => ret listening_ports)
           else ret listening_ports
       | _ :: _ => ret listening_ports
       end in
     ret (Some
       {| po_listening_ports := sorted listening_ports;
          po_total_connections := len connections;
          po_established := established;
          po_top_processes := top_processes |}))
    (log_and_none "Error getting open ports").

(** ** get_process_info (lines 645-685) *)

(** The type name of a key, as the TypeError of a comparison prints it. *)
Definition key_type (k : option float) : string :=
  match k with Some _ => "float" | None => "NoneType" end.

(** The text of the TypeError of a sort that meets [None]: it names the
    types of the two keys of the first comparison that has [None] on a
    side.  With [reverse=True] the sort turns the keys round and takes them
    from the left, each new key being the left operand of a comparison with
    a key taken before it: the first comparison is [keys[1] < keys[0]] of
    the turned list, and the first [None] further on is a left operand.
    (This is the order in which CPython sorts fewer than 64 keys; the runs
    of a longer list are merged and the two types can come the other way
    round.) *)
Definition sort_type_error (keys : list (option float)) : string :=
  match rev keys with
  | None :: k1 :: _ =>
      "'<' not supported between instances of '" +:+ key_type k1 +:+ "' and 'NoneType'"
  | _ => "'<' not supported between instances of 'NoneType' and 'float'"
  end.

(** [sorted(procs, key=lambda p: p.get(attr, 0), reverse=True)]: the key is
    present in every [info] dict, and comparing [None] with anything is a
    TypeError; a list of at least two elements compares each of them. *)
Definition sorted_by_percent (key : pinfo -> option float) (procs : list pinfo)
  : outcome (list pinfo) :=
  if (2 <=? length procs)%nat && existsb (fun p => negb (is_Some_b (key p))) procs
  then Raise (Exn "TypeError" (sort_type_error (map key procs)))
  else Ret (sorted_by
              (fun x y =>
                 match key y, key x with
                 | Some ky, Some kx => PrimFloat.ltb ky kx
                 | _, _ => false
                 end) procs).

(** The loop that formats the five first processes whose percentage is
    positive. *)
Definition top_entry (key : pinfo -> option float) (acc : list string) (p : pinfo)
  : outcome (list string) :=
  match key p with
  | None =>
      Raise (Exn "TypeError"
               "'>' not supported between instances of 'NoneType' and 'int'")
  | Some v =>
      if PrimFloat.ltb 0 v
      then Ret (acc ++ [str_opt id (p_name p) +:+ " (" +:+ format_1f v +:+ "%)"])
      else Ret acc
  end.

Definition get_process_info : M (option process_info) :=
  try_except
    (let* it := call process_iter in
     let scanned :=
       fold_left
         (fun acc pinfo =>
            (fst acc ++ [pinfo],
             if bool_decide (p_status pinfo = Some "running")
             then (snd acc + 1)%Z else snd acc))
         it ([], 0%Z) in
     let '(procs, running_count) := scanned in
     let* by_cpu := lift (sorted_by_percent p_cpu_percent procs) in
     let* top_cpu :=
       for_each (take 5 by_cpu) [] (fun acc p => lift (top_entry p_cpu_percent acc p)) in
     let* by_memory := lift (sorted_by_percent p_memory_percent procs) in
     let* top_memory :=
       for_each (take 5 by_memory) []
                (fun acc p => lift (top_entry p_memory_percent acc p)) in
     ret (Some
       {| pr_total := len procs;
          pr_running := running_count;
          pr_top_cpu := top_cpu;
          pr_top_memory := top_memory |}))
    (log_and_none "Error getting process info").

(** ** get_filesystem_info (lines 687-723) *)

(** The body of the loop over the partitions: a partition whose usage
    cannot be read is passed over. *)
Definition add_partition (disks : list disk_info) (partition : sdiskpart)
  : M (list disk_info) :=
  try_except
    (let* usage := call (fun h => disk_usage h (part_mountpoint partition)) in
     ret (disks ++
          [{| dk_device := part_device partition;
              dk_mountpoint := part_mountpoint partition;
              dk_fstype := part_fstype partition;
              dk_total_gb := round2 (truediv (du_total usage) (1024 ^ 3));
              dk_used_gb := round2 (truediv (du_used usage) (1024 ^ 3));
              dk_percent := du_percent usage |}]))
    (fun _ => ret disks).

Definition get_filesystem_info : M (option filesystem_info) :=
  try_except
    (let* partitions := call disk_partitions in
     let* disks := for_each partitions [] add_partition in
     let* io_counters := call disk_io_counters in
     let io_read := match io_counters with Some c => read_count c | None => 0%Z end in
     let io_write := match io_counters with Some c => write_count c | None => 0%Z end in
     ret (Some {| fs_disks := disks; fs_io_read := io_read; fs_io_write := io_write |}))
    (log_and_none "Error getting filesystem info").

(** ** get_services_info (lines 725-814) *)

Definition critical_service_names : list string :=
  ["sshd"; "httpd"; "apache2"; "nginx"; "mysql"; "mariadb";
   "postgresql"; "mongodb"; "redis"; "memcached"; "docker"; "containerd";
   "firewalld"; "ufw"; "ntpd"; "systemd"; "networkmanager"; "cron"].

Definition windows_critical : list string :=
  ["Windows Firewall"; "Windows Defender"; "Windows Update";
   "SQL Server"; "IIS"; "DHCP"; "DNS"; "Print Spooler";
   "Remote Desktop"; "Windows Time"].

(** [for critical in critical_service_names:
       if critical in name.lower(): critical_services.append(name); break] *)
Definition append_if_critical (critical_services : list string) (name : string)
  : list string :=
  if existsb (fun critical => contains critical (lower name)) critical_service_names
  then critical_services ++ [name]
  else critical_services.

(** The same loop over [windows_critical], both sides lower-cased. *)
Definition append_if_windows_critical (critical_services : list string) (line : string)
  : list string :=
  if existsb (fun critical => contains (lower critical) (lower line)) windows_critical
  then critical_services ++ [line]
  else critical_services.

(** The local variables of the service loops: [services],
    [critical_services] and [service_count], which is unbound ([None])
    until it is assigned. *)
Definition service_vars : Type := list string * list string * option Z.

(** [service_count += 1] *)
Definition incr_service_count (service_count : option Z) : outcome (option Z) :=
  match service_count with
  | Some n => Ret (Some (n + 1)%Z)
  | None =>
      Raise (Exn "UnboundLocalError"
               "cannot access local variable 'service_count' where it is not associated with a value")
  end.

(** The body of the loop over the lines of [systemctl list-units]. *)
Definition systemctl_line (vars : service_vars) (line : string) : M service_vars :=
  let '(services, critical_services, service_count) := vars in
  if contains ".service" line && contains "running" line then
    let* service_count := lift (incr_service_count service_count) in
    let* head := lift (index (split line ".service") 0) in
    let service_name := strip head in
    ret (services ++ [service_name],
         append_if_critical critical_services service_name,
         service_count)
  else ret vars.

(** The body of the loop over the lines of [service --status-all]. *)
Definition status_all_line (vars : service_vars) (line : string) : M service_vars :=
  let '(services, critical_services, service_count) := vars in
  if contains "[ + ]" line then
    let* service_count := lift (incr_service_count service_count) in
    let* tail := lift (index (split line "[ + ]") 1) in
    let service_name := strip tail in
    ret (services ++ [service_name],
         append_if_critical critical_services service_name,
         service_count)
  else ret vars.

(** The body of the loop over the lines of [net start]. *)
Definition net_start_line (acc : list string * list string) (line : string)
  : list string * list string :=
  let '(services, critical_services) := acc in
  let line := strip line in
  if truthy line && negb (startswith "The following" line)
     && negb (startswith "The command" line)
  then (services ++ [line], append_if_windows_critical critical_services line)
  else acc.

(** The fallback over the running processes: [proc.info['name'].lower()]
    is an AttributeError when the name is [None]. *)
Definition scan_process (critical_services : list string) (proc : pinfo)
  : M (list string) :=
  match p_name proc with
  | Some name => ret (append_if_critical critical_services name)
  | None =>
      raise (Exn "AttributeError" "'NoneType' object has no attribute 'lower'")
  end.

(** The Linux branch.  The first statement of the [try] is the only one that
    can raise, and it precedes [service_count = 0]: the handler runs with
    nothing appended and [service_count] unbound.  In the handler the first
    active line raises before it appends anything. *)
Definition linux_services : M (list string * list string) :=
  try_except
    (let* output := call (fun h => check_output h
                       ["systemctl"; "list-units"; "--type=service"; "--state=running"]) in
     let* vars := for_each (split output nl) ([], [], Some 0%Z) systemctl_line in
     ret (fst vars))
    (fun _ =>
       try_except
         (let* output := call (fun h => check_output h ["service"; "--status-all"]) in
          let* vars := for_each (split output nl) ([], [], None) status_all_line in
          ret (fst vars))
         (fun _ => ret ([], []))).

Definition windows_services : M (list string * list string) :=
  try_except
    (let* output := call (fun h => check_output h ["net"; "start"]) in
     ret (fold_left net_start_line (split output nl) ([], [])))
    (fun _ => ret ([], [])).

(** [list(set(l))]: the elements of [l] without repetition.  Python leaves
    the order of a set unspecified; here it is the order of [elements]. *)
Definition list_set (l : list string) : list string :=
  elements (list_to_set l : gset string).

(** The first part of the method: [services] and [critical_services]
    after the branch of the platform. *)
Definition listed_services : M (list string * list string) :=
  let* sys := call platform_system in
  if String.eqb sys "Linux" then linux_services
  else
    let* sys := call platform_system in
    if String.eqb sys "Windows" then windows_services
    else ret ([], []).

Definition get_services_info : M (option services_info) :=
  try_except
    (let* found := listed_services in
     let '(services, critical_services) := found in
     let* critical_services :=
       match services with
       | [] =>
           let* procs := call process_iter in
           for_each procs critical_services scan_process
       | _ :: _ => ret critical_services
       end in
     ret (Some
       {| sv_running_count := len services;
          sv_services := services;
          sv_critical := list_set critical_services |}))
    (log_and_none "Error getting services info").

(** ** enhance_prompt (lines 28-179) *)

(** What [enhancements] can be: a str (the configuration may hold the
    word "all") or a list of str. *)
Inductive selection : Type :=
| SelStr (s : string)
| SelList (l : list string).

Definition all_enhancements : list string :=
  ["time"; "system"; "network"; "locale"; "timezone";
   "performance"; "hardware"; "users"; "network_traffic";
   "ports"; "processes"; "filesystem"; "services"].

(** [enhancements == "all" or "all" in enhancements], then the choice of
    [enhancements_to_apply].  On a str, [in] looks for a substring and the
    loop goes through the characters; on a list, [in] looks for an element. *)
Definition enhancements_to_apply (enhancements : selection) : list string :=
  match enhancements with
  | SelStr s =>
      if String.eqb s "all" || contains "all" s then all_enhancements
      else chars s
  | SelList l =>
      if in_list "all" l then all_enhancements else l
  end.

(** The lines each branch of the loop appends to [info_sections]. *)

Definition time_lines (time_info : time_info) : list string :=
  ["Current time: " +:+ ti_full time_info;
   "UTC time: " +:+ ti_utc time_info].

Definition system_lines (sys_info : system_info) : list string :=
  ["System: " +:+ si_os sys_info +:+ " " +:+ si_version sys_info;
   "CPU: " +:+ si_cpu_model sys_info +:+ " (" +:+
     str_opt str_int (si_cpu_cores sys_info) +:+ " cores, " +:+
     repr_float (si_cpu sys_info) +:+ "% usage)";
   "RAM: " +:+ repr_float (si_memory_gb sys_info) +:+ "GB total, " +:+
     repr_float (si_memory sys_info) +:+ "% used";
   "Disk: " +:+ repr_float (si_disk_total sys_info) +:+ "GB total, " +:+
     repr_float (si_disk_percent sys_info) +:+ "% used";
   "System uptime: " +:+ si_uptime sys_info].

Definition network_lines (network_info : network_info) : list string :=
  ["Network: IP " +:+ ni_local_ip network_info +:+ ", hostname " +:+
     ni_hostname network_info;
   "Network interfaces: " +:+ join ", " (ni_interfaces network_info);
   if ni_internet_available network_info
   then "Internet connection: Available (latency: " +:+
        str_num (ni_latency network_info) +:+ "ms)"
   else "Internet connection: Unavailable"].

Definition locale_lines (locale_info : locale_info) : list string :=
  ["System locale: " +:+ li_language locale_info +:+ ", " +:+
     li_encoding locale_info;
   "Currency: " +:+ li_currency locale_info;
   "Time format: " +:+ li_time_format locale_info;
   "Date format: " +:+ li_date_format locale_info].

Definition timezone_lines (timezone_info : timezone_info) : list string :=
  ["Timezone information:";
   "  Current timezone: " +:+ tz_current timezone_info;
   "  UTC offset: " +:+ tz_utc_offset timezone_info;
   "  DST active: " +:+ str_bool (tz_dst_active timezone_info)].

Definition performance_lines (perf_info : performance_info) : list string :=
  ["System performance:";
   "  CPU load: 1min: " +:+ str_num (pf_load_1 perf_info) +:+
     ", 5min: " +:+ str_num (pf_load_5 perf_info) +:+
     ", 15min: " +:+ str_num (pf_load_15 perf_info);
   "  Process count: " +:+ str_int (pf_process_count perf_info);
   "  Network usage: " +:+ repr_float (pf_network_sent perf_info) +:+
     "MB sent, " +:+ repr_float (pf_network_recv perf_info) +:+ "MB received";
   "  Swap usage: " +:+ repr_float (pf_swap_percent perf_info) +:+ "%"].

Definition hardware_lines (hw_info : hardware_info) : list string :=
  ["Hardware information:";
   "  Machine type: " +:+ hw_machine_type hw_info;
   "  Processor: " +:+ hw_processor hw_info;
   "  BIOS version: " +:+ hw_bios_version hw_info;
   "  Boot mode: " +:+ hw_boot_mode hw_info].

Definition users_lines (users_info : users_info) : list string :=
  let users_list := join ", " (take 5 (us_logged_users users_info)) in
  let users_list :=
    if (5 <? len (us_logged_users users_info))%Z
    then users_list +:+ " and " +:+
         str_int (len (us_logged_users users_info) - 5) +:+ " more"
    else users_list in
  ["Users information:";
   "  Logged in users: " +:+ str_int (us_logged_users_count users_info);
   "  Current users: " +:+ users_list;
   "  System users: " +:+ str_int (us_system_users_count users_info);
   "  User sessions: " +:+ str_int (us_sessions_count users_info)].

Definition traffic_lines (traffic_info : traffic_info) : list string :=
  ["Network traffic:";
   "  Current download speed: " +:+ repr_float (tr_download_speed traffic_info) +:+ " KB/s";
   "  Current upload speed: " +:+ repr_float (tr_upload_speed traffic_info) +:+ " KB/s";
   "  Total downloaded: " +:+ repr_float (tr_total_received traffic_info) +:+ " MB";
   "  Total uploaded: " +:+ repr_float (tr_total_sent traffic_info) +:+ " MB";
   "  Packets received: " +:+ str_int (tr_packets_recv traffic_info);
   "  Packets sent: " +:+ str_int (tr_packets_sent traffic_info)].

Definition ports_lines (ports_info : ports_info) : list string :=
  ["Open ports and connections:";
   "  Total connections: " +:+ str_int (po_total_connections ports_info);
   "  Listening ports: " +:+
     join ", " (map str_int (take 10 (po_listening_ports ports_info)))]
  ++ (if (10 <? len (po_listening_ports ports_info))%Z
      then ["    and " +:+ str_int (len (po_listening_ports ports_info) - 10) +:+
            " more..."]
      else [])
  ++ ["  Established connections: " +:+ str_int (po_established ports_info);
      "  Top processes using network: " +:+
        join ", " (po_top_processes ports_info)].

Definition processes_lines (processes_info : process_info) : list string :=
  ["Process information:";
   "  Total processes: " +:+ str_int (pr_total processes_info);
   "  Running processes: " +:+ str_int (pr_running processes_info);
   "  Top CPU processes: " +:+ join ", " (pr_top_cpu processes_info);
   "  Top memory processes: " +:+ join ", " (pr_top_memory processes_info)].

Definition disk_line (disk : disk_info) : string :=
  "  " +:+ dk_device disk +:+ ": " +:+ dk_mountpoint disk +:+ ", " +:+
  dk_fstype disk +:+ ", " +:+ repr_float (dk_total_gb disk) +:+ "GB total, " +:+
  repr_float (dk_percent disk) +:+ "% used".

Definition filesystem_lines (fs_info : filesystem_info) : list string :=
  ["Filesystem information:"]
  ++ map disk_line (take 3 (fs_disks fs_info))
  ++ (if (3 <? len (fs_disks fs_info))%Z
      then ["  ... and " +:+ str_int (len (fs_disks fs_info) - 3) +:+
            " more filesystems"]
      else [])
  ++ ["  Total file operations: " +:+ str_int (fs_io_read fs_info) +:+
      " reads, " +:+ str_int (fs_io_write fs_info) +:+ " writes"].

Definition services_lines (services_info : services_info) : list string :=
  ["System services:";
   "  Running services: " +:+ str_int (sv_running_count services_info);
   "  Critical services: " +:+ join ", " (take 5 (sv_critical services_info))]
  ++ (if (5 <? len (sv_critical services_info))%Z
      then ["    ... and " +:+ str_int (len (sv_critical services_info) - 5) +:+
            " more"]
      else []).

(** [if info: ...]: a probe's dict has keys, so it is true; [None] is not. *)
Definition if_info {A} (lines : A -> list string) (info : option A) : list string :=
  match info with Some i => lines i | None => [] end.

(** One turn of the loop [for enhancement in enhancements_to_apply]: the
    probe the [if]/[elif] chain selects is called and its lines are
    returned; a token that matches no branch adds nothing. *)
Definition sections_of (enhancement : string) : M (list string) :=
  if String.eqb enhancement "time" then
    let* time_info := get_current_time_info in ret (time_lines time_info)
  else if String.eqb enhancement "system" then
    let* sys_info := get_system_info in ret (if_info system_lines sys_info)
  else if String.eqb enhancement "network" then
    let* network_info := get_network_info in ret (if_info network_lines network_info)
  else if String.eqb enhancement "locale" then
    let* locale_info := get_locale_info in ret (if_info locale_lines locale_info)
  else if String.eqb enhancement "timezone" then
    let* timezone_info := get_timezone_info in ret (if_info timezone_lines timezone_info)
  else if String.eqb enhancement "performance" then
    let* perf_info := get_performance_metrics in ret (if_info performance_lines perf_info)
  else if String.eqb enhancement "hardware" then
    let* hw_info := get_hardware_info in ret (if_info hardware_lines hw_info)
  else if String.eqb enhancement "users" then
    let* users_info := get_users_info in ret (if_info users_lines users_info)
  else if String.eqb enhancement "network_traffic" then
    let* traffic_info := get_network_traffic in ret (if_info traffic_lines traffic_info)
  else if String.eqb enhancement "ports" then
    let* ports_info := get_open_ports in ret (if_info ports_lines ports_info)
  else if String.eqb enhancement "processes" then
    let* processes_info := get_process_info in ret (if_info processes_lines processes_info)
  else if String.eqb enhancement "filesystem" then
    let* fs_info := get_filesystem_info in ret (if_info filesystem_lines fs_info)
  else if String.eqb enhancement "services" then
    let* services_info := get_services_info in ret (if_info services_lines services_info)
  else ret [].

(** The whole loop: [info_sections] after the selection [l]. *)
Definition collect_sections (l : list string) : M (list string) :=
  for_each l [] (fun info_sections enhancement =>
    let* lines := sections_of enhancement in
    ret (info_sections ++ lines)).

Definition header : string := "Here is real-time information you can use if relevant:".
Definition trailer : string := "The email is:".

Definition enhance_prompt (base_prompt : string) (enhancements : selection) : M string :=
  let* info_sections := collect_sections (enhancements_to_apply enhancements) in
  match info_sections with
  | [] => ret base_prompt
  | _ :: _ =>
      let info_text := join nl info_sections in
      ret (base_prompt +:+ nl +:+ nl +:+ header +:+ nl +:+ info_text +:+
           nl +:+ nl +:+ trailer)
  end.

End methods.

End PromptEnhancer.

(** * The assistants' configuration (assistants.json)

    The file maps the name of each assistant to a dict; the record holds
    the keys the program reads, [None] for a key that is absent.  A dict
    keeps its keys in the order of the file. *)

Module Config.

Record email_config : Type := {
  ec_sender : option string                    (* config['email']['sender'] *)
}.

Record assistant_config : Type := {
  cfg_prompt : option string;                  (* 'prompt' *)
  cfg_name : option string;                    (* 'name' *)
  cfg_enhance_prompt : bool;                   (* truth of .get('enhance_prompt', False) *)
  cfg_enhancements : option PromptEnhancer.selection;  (* 'enhancements' *)
  cfg_email : option email_config              (* 'email' *)
}.

Definition assistants : Type := list (string * assistant_config).

End Config.

(** * EmailParser (src/utils/email_parser.py) *)

Module EmailParser.
Import Py Host Run Config.
Local Open Scope run_scope.

Record t : Type := { logger : Logger.t }.

(** A parsed message, as [email.message_from_string] gives it: the headers
    the parser reads ([None] for a missing header) and the payload, which is
    a list of parts or a single text.  The text of a part or of the message
    is what [get_payload(decode=True).decode('utf-8', errors='ignore')]
    answers: the library raises UnicodeEncodeError on a payload that holds,
    besides bytes it could not decode, other characters outside ASCII. *)
Record part : Type := { part_content_type : string; part_text : outcome string }.

Inductive payload : Type :=
| Multipart (parts : list part)
| Single (text : outcome string).

Record message : Type := {
  msg_from : option string;
  msg_subject : option string;
  msg_to : option string;
  msg_payload : payload
}.

(** The dict [extract_email_content] returns. *)
Record email_data : Type := {
  ed_sender : option string;
  ed_subject : string;
  ed_recipient : option string;
  ed_content : string
}.

(** [s.lower()] on a value that may be [None]. *)
Definition lower_of (o : option string) : outcome string :=
  match o with
  | Some s => Ret (lower s)
  | None => Raise (Exn "AttributeError" "'NoneType' object has no attribute 'lower'")
  end.

(** ** extract_email_content (lines 16-56) *)

(** The loop over the parts of a multipart message. *)
Definition add_part (content : string) (part : part) : M string :=
  if String.eqb (part_content_type part) "text/plain"
  then let* text := lift (part_text part) in ret (content +:+ text)
  else ret content.

Section parsing.

(** [email.message_from_string], a function of the standard library. *)
Variable message_from_string : string -> outcome message.

Variable self : t.

Definition extract_email_content (raw_email : string) : M email_data :=
  try_except
    (let* msg := lift (message_from_string raw_email) in
     let sender := msg_from msg in
     let subject :=
       match msg_subject msg with
       | Some subject => if truthy subject then subject else "No subject"
       | None => "No subject"
       end in
     let recipient := msg_to msg in
     let* content :=
       match msg_payload msg with
       | Multipart parts => for_each parts EmptyString add_part
       | Single text => lift text
       end in
     let content := strip content in
     Logger.log_message (logger self)
       ("From: " +:+ str_opt id sender +:+ ", To: " +:+ str_opt id recipient +:+
        ", Subject: " +:+ subject) true ;;;
     Logger.log_message (logger self)
       ("Content extracted: " +:+ substring 0 100 content +:+ "...") true ;;;
     ret {| ed_sender := sender;
            ed_subject := subject;
            ed_recipient := recipient;
            ed_content := content |})
    (fun e =>
       Logger.log_message (logger self)
         ("ERROR extracting email: " +:+ str_exn e) true ;;;
       raise e).

End parsing.

(** ** is_no_reply_address (lines 58-83) *)

(** The loop over the assistants: the address of an assistant that has one
    is compared, lower-cased, with the sender. *)
Fixpoint is_assistant_address (sender_email : string) (items : assistants) : bool :=
  match items with
  | [] => false
  | (assistant_name, config) :: rest =>
      match cfg_email config with
      | Some email =>
          match ec_sender email with
          | Some assistant_email =>
              if String.eqb sender_email (lower assistant_email) then true
              else is_assistant_address sender_email rest
          | None => is_assistant_address sender_email rest
          end
      | None => is_assistant_address sender_email rest
      end
  end.

Definition is_no_reply_address (sender_email : option string)
    (assistants_config : option assistants) : outcome bool :=
  match lower_of sender_email with
  | Raise e => Raise e
  | Ret sender_email =>
      if contains "noreply" sender_email || contains "no-reply" sender_email
         || contains "daemon" sender_email
      then Ret true
      else
        match assistants_config with
        | Some items => Ret (is_assistant_address sender_email items)
        | None => Ret false
        end
  end.

(** ** detect_assistant (lines 85-110) *)

(** The loop over the names of the assistants, in the order of the file. *)
Fixpoint first_named_in (recipient_email : string) (names : list string)
  : option string :=
  match names with
  | [] => None
  | assistant_name :: rest =>
      if String.eqb assistant_name "default" then first_named_in recipient_email rest
      else if contains (lower assistant_name) recipient_email then Some assistant_name
      else first_named_in recipient_email rest
  end.

Definition detect_assistant (self : t) (email_data : email_data)
    (assistants_config : assistants) (default_assistant : string) : M string :=
  let* recipient_email := lift (lower_of (ed_recipient email_data)) in
  match first_named_in recipient_email (map fst assistants_config) with
  | Some assistant_name =>
      Logger.log_message (logger self)
        ("Detected assistant: " +:+ assistant_name) true ;;;
      ret assistant_name
  | None =>
      Logger.log_message (logger self)
        ("No specific assistant detected, using default: " +:+ default_assistant)
        true ;;;
      ret default_assistant
  end.

End EmailParser.

(** * AIClient (src/utils/ai_client.py) *)

Module AIClient.
Import Py Host Run Config.
Local Open Scope run_scope.

Record t : Type := { api_url : string; timeout : Z; logger : Logger.t }.

(** A JSON value, as [response.json()] returns it; an object has each key
    once. *)
#[local] Unset Elimination Schemes.
Inductive json : Type :=
| JNull
| JBool (b : bool)
| JNum (n : num)
| JStr (s : string)
| JArr (items : list json)
| JObj (fields : list (string * json)).
#[local] Set Elimination Schemes.

(** Truth value of a parsed JSON value. *)
Definition truthy_json (v : json) : bool :=
  match v with
  | JNull => false
  | JBool b => b
  | JNum (NInt z) => negb (z =? 0)%Z
  | JNum (NFloat f) => negb (PrimFloat.eqb f 0)
  | JStr s => truthy s
  | JArr items => match items with [] => false | _ :: _ => true end
  | JObj fields => match fields with [] => false | _ :: _ => true end
  end.

Fixpoint lookup_field (key : string) (fields : list (string * json)) : option json :=
  match fields with
  | [] => None
  | (k, v) :: rest => if String.eqb k key then Some v else lookup_field key rest
  end.

(** The name of the Python type [response.json()] gives a JSON value. *)
Definition json_type (v : json) : string :=
  match v with
  | JNull => "NoneType"
  | JBool _ => "bool"
  | JNum (NInt _) => "int"
  | JNum (NFloat _) => "float"
  | JStr _ => "str"
  | JArr _ => "list"
  | JObj _ => "dict"
  end.

(** [ai_data.get(key, default)]: only a dict has [get]. *)
Definition dict_get (ai_data : json) (key : string) (default_value : json)
  : outcome json :=
  match ai_data with
  | JObj fields => Ret (default default_value (lookup_field key fields))
  | _ =>
      Raise (Exn "AttributeError"
               ("'" +:+ json_type ai_data +:+ "' object has no attribute 'get'"))
  end.

(** What the program reads of a [requests] response. *)
Record response : Type := {
  status_code : Z;
  response_json : outcome json               (* response.json() *)
}.

(** The dict [process_ai_response] returns. *)
Record response_data : Type := { rd_message : json }.

Section client.

(** [requests.get(url, params={'content': ..., 'timeout': ...})]: what the
    remote API answers. *)
Variable requests_get_api : string -> string -> Z -> outcome response.

Variable self : t.

(** ** ask_ai (lines 19-57) *)
Definition ask_ai (content : string) (sender : option string)
    (assistant_config : assistant_config)
    (prompt_enhancer : option PromptEnhancer.t) : M response :=
  try_except
    (let base_prompt :=
       default "Reply to the following prompt:" (cfg_prompt assistant_config) in
     let assistant_name := default "assistant" (cfg_name assistant_config) in
     Logger.log_message (logger self)
       ("Calling AI API for assistant: " +:+ assistant_name +:+ "...") true ;;;
     let* enriched_prompt :=
       match cfg_enhance_prompt assistant_config, prompt_enhancer with
       | true, Some enhancer =>
           let enhancements :=
             default (PromptEnhancer.SelList []) (cfg_enhancements assistant_config) in
           PromptEnhancer.enhance_prompt enhancer base_prompt enhancements
       | _, _ => ret base_prompt
       end in
     let full_content :=
       enriched_prompt +:+ " Reminder: You are talking to the sender (" +:+
       str_opt id sender +:+ ") of this mail! " +:+ content in
     tick ;;;                               (* the request takes its time *)
     let* response :=
       lift (requests_get_api (api_url self) full_content (timeout self)) in
     Logger.log_message (logger self)
       ("API response status: " +:+ str_int (status_code response)) true ;;;
     ret response)
    (fun e =>
       Logger.log_message (logger self) ("ERROR in ask_ai: " +:+ str_exn e) true ;;;
       raise e).

(** ** process_ai_response (lines 59-92) *)
Definition process_ai_response (response : response)
    (assistant_config : assistant_config) : M response_data :=
  try_except
    (if (status_code response =? 200)%Z then
       let* ai_data := lift (response_json response) in
       Logger.log_message (logger self) "AI data received" true ;;;
       let* success := lift (dict_get ai_data "success" JNull) in
       if truthy_json success then
         let* ai_response :=
           lift (dict_get ai_data "message"
                   (JStr "Sorry, I couldn't process your request.")) in
         ret {| rd_message := ai_response |}
       else
         ret {| rd_message :=
                  JStr "Sorry, the AI couldn't process your message correctly." |}
     else
       ret {| rd_message :=
                JStr ("Error communicating with the AI: " +:+
                      str_int (status_code response)) |})
    (fun e =>
       Logger.log_message (logger self)
         ("ERROR in process_ai_response: " +:+ str_exn e) true ;;;
       ret {| rd_message := JStr ("Error processing AI response: " +:+ str_exn e) |}).

End client.

End AIClient.

(** * Logger: the raw email log (src/utils/logger.py) *)

Module RawEmailLog.
Import Py Host Run.
Local Open Scope run_scope.

(** A [Logger] with the attribute [log_raw_email] reads besides those of
    [log_message]. *)
Record t : Type := { base : Logger.t; raw_email_log : string }.

Section writing.

(** [f.write(text)] encodes the text with the codec of the file before any
    of it is buffered: what the codec answers.  (A text written in ASCII is
    encoded by every codec a text file is opened with.) *)
Variable encode : string -> outcome unit.

Variable self : t.

(** [open(path, "a")] *)
Definition open_append (path : string) : M unit :=
  call (fun h => append_file h path).

(** One [f.write(text)] on the file opened at [path]. *)
Definition write (path text : string) : M unit :=
  lift (encode text) ;;;
  fun _ s =>
    (Ret tt,
     {| clock := clock s;
        files := <[path := default [] (files s !! path) ++ [text]]> (files s) |}).

(** [Logger.log_raw_email(raw_email)] (logger.py, lines 55-75): leaving a
    [with] block on an error closes the file, what was written to it
    before stays written. *)
Definition log_raw_email (raw_email : string) : M unit :=
  try_except
    (open_append (raw_email_log self) ;;;
     write (raw_email_log self) ("==== NEW EMAIL BEGIN ====" +:+ nl) ;;;
     write (raw_email_log self) raw_email ;;;
     write (raw_email_log self) (nl +:+ "==== EMAIL END ====" +:+ nl +:+ nl) ;;;
     open_append (Logger.temp_log_path (base self)) ;;;
     write (Logger.temp_log_path (base self)) ("==== RAW EMAIL BEGIN ====" +:+ nl) ;;;
     write (Logger.temp_log_path (base self)) raw_email ;;;
     write (Logger.temp_log_path (base self))
       (nl +:+ "==== RAW EMAIL END ====" +:+ nl +:+ nl) ;;;
     Logger.log_message (base self)
       ("Raw email logged to " +:+ raw_email_log self +:+ " and temp log") false)
    (fun e =>
       Logger.log_message (base self)
         ("ERROR logging raw email: " +:+ str_exn e) true).

End writing.

End RawEmailLog.

(** * Hosts used in the examples *)

Module Fixtures.
Import Py Host Run.

(** A call the host cannot answer. *)
Definition unavailable {A} : outcome A := Raise (Exn "OSError" "not available").

Definition a_datetime : datetime :=
  {| dt_micros := 63908043300000000;
     dt_weekday := "Monday";
     dt_date := "02 March 2026";
     dt_time := "10:15:00";
     dt_ymd_hms := "2026-03-02 10:15:00";
     dt_isoformat := "2026-03-02T10:15:00" |}.

(** A host that answers the calls given as arguments and no other. *)
Definition host_of
    (now : outcome datetime)
    (system : outcome string)
    (output : list string -> outcome string)
    (processes : outcome (list pinfo))
    (connections : outcome (list sconn))
    (name_of : Z -> outcome string)
    (memory : outcome svmem)
    (usage : string -> outcome sdiskusage)
    (net_io : outcome snetio)
    (append : string -> outcome unit) : host :=
  {| datetime_now := now;
     datetime_utcnow := now;
     datetime_fromtimestamp := fun _ => unavailable;
     time_time := Ret 0x1.a6958c9p+30%float;
     time_tzname := ("UTC", "UTC");
     time_timezone := 0;
     time_altzone := 0;
     time_daylight := 0;
     time_localtime_isdst := unavailable;
     time_strftime_X := unavailable;
     time_strftime_x := unavailable;
     platform_system := system;
     platform_release := unavailable;
     platform_machine := unavailable;
     platform_processor := unavailable;
     os_getloadavg := None;
     os_path_exists := fun _ => false;
     cpu_percent := unavailable;
     cpu_count_logical := unavailable;
     cpu_count_physical := unavailable;
     virtual_memory := memory;
     swap_memory_percent := unavailable;
     disk_usage := usage;
     disk_partitions := unavailable;
     disk_io_counters := unavailable;
     boot_time := unavailable;
     pids := unavailable;
     users := unavailable;
     net_if_addrs := unavailable;
     net_io_counters := net_io;
     net_io_counters_pernic := unavailable;
     net_connections := connections;
     process_name := name_of;
     process_iter := processes;
     socket_gethostname := unavailable;
     socket_socket := unavailable;
     socket_local_ip := unavailable;
     uuid_getnode := unavailable;
     requests_get := fun _ => unavailable;
     locale_getlocale := unavailable;
     locale_setlocale := unavailable;
     locale_currency_symbol := unavailable;
     pytz_all_timezones := unavailable;
     pwd_getpwall := unavailable;
     wmi_bios_versions := unavailable;
     check_output := output;
     append_file := append |}.

(** Nothing is available, not even [datetime.now()]. *)
Definition bare : host :=
  host_of unavailable unavailable (fun _ => unavailable) unavailable unavailable
          (fun _ => unavailable) unavailable (fun _ => unavailable) unavailable
          (fun _ => Ret tt).

Definition start : state := {| clock := 0; files := ∅ |}.

Definition a_logger : Logger.t :=
  {| Logger.log_file := "/var/log/marechan.log";
     Logger.temp_log_path := "/tmp/marechan/session.txt" |}.

Definition enhancer : PromptEnhancer.t := {| PromptEnhancer.logger := a_logger |}.

(** A Linux workstation on which every call answers. *)

Definition lines_of (l : list string) : string := join nl l +:+ nl.

Definition a_process (name : string) (cpu mem : float) : pinfo :=
  {| p_name := Some name; p_status := Some "sleeping";
     p_cpu_percent := Some cpu; p_memory_percent := Some mem |}.

Definition listening (port pid : Z) : sconn :=
  {| conn_status := "LISTEN"; conn_laddr_port := port; conn_pid := Some pid |}.

Definition established (port pid : Z) : sconn :=
  {| conn_status := "ESTABLISHED"; conn_laddr_port := port; conn_pid := Some pid |}.

(** Twelve listening ports, each of its own process, and some established
    connections. *)
Definition twelve_listeners : list sconn :=
  [listening 8080 101; listening 22 102; listening 443 103; listening 80 103;
   listening 3306 104; listening 5432 105; listening 6379 106; listening 25 107;
   listening 53 108; listening 8443 109; listening 9090 110; listening 3000 111;
   established 22 102; established 443 103; established 443 103;
   established 5432 105; established 51234 112]%Z.

Definition names_of_pids (pid : Z) : outcome string :=
  match pid with
  | 101 => Ret "java" | 102 => Ret "sshd" | 103 => Ret "nginx"
  | 104 => Ret "mysqld" | 105 => Ret "postgres" | 106 => Ret "redis-server"
  | 107 => Ret "master" | 108 => Ret "named" | 109 => Ret "caddy"
  | 110 => Ret "prometheus" | 111 => Ret "node" | 112 => Ret "firefox"
  | _ => Raise (Exn "NoSuchProcess" "process no longer exists")
  end%Z.

Definition systemctl_output : string :=
  lines_of
    ["  UNIT                LOAD   ACTIVE SUB     DESCRIPTION";
     "  cron.service        loaded active running Regular background program processing daemon";
     "  nginx.service       loaded active running A high performance web server";
     "  cups.service        loaded active running CUPS Scheduler";
     "  ssh.service         loaded active running OpenBSD Secure Shell server";
     "";
     "4 loaded units listed."].

Definition workstation_commands (cmd : list string) : outcome string :=
  if bool_decide (cmd = ["systemctl"; "list-units"; "--type=service"; "--state=running"])
  then Ret systemctl_output
  else if bool_decide (cmd = ["cat /proc/cpuinfo | grep 'model name' | uniq"])
  then Ret ("model name	: Intel(R) Core(TM) i7-8650U CPU @ 1.90GHz" +:+ nl)
  else if bool_decide (cmd = ["who"])
  then Ret (lines_of ["alice    tty7         2026-03-02 08:01 (:0)"])
  else Raise (Exn "FileNotFoundError" "No such file or directory").

Definition workstation_processes : list pinfo :=
  [a_process "systemd" 0 0.125; a_process "nginx-worker" 1.5 0.5;
   a_process "bash" 0 0.125; a_process "nginx-main" 0.25 0.25;
   a_process "nginx-worker" 2.5 0.5]%float.

Definition workstation : host :=
  {| datetime_now := Ret a_datetime;
     datetime_utcnow := Ret a_datetime;
     datetime_fromtimestamp := fun _ =>
       Ret {| dt_micros := 63907956900000000;
              dt_weekday := "Sunday";
              dt_date := "01 March 2026";
              dt_time := "10:15:00";
              dt_ymd_hms := "2026-03-01 10:15:00";
              dt_isoformat := "2026-03-01T10:15:00" |};
     time_time := Ret 0x1.a6958c9p+30%float;
     time_tzname := ("UTC", "UTC");
     time_timezone := 0;
     time_altzone := 0;
     time_daylight := 0;
     time_localtime_isdst := Ret 0%Z;
     time_strftime_X := Ret "10:15:00";
     time_strftime_x := Ret "03/02/26";
     platform_system := Ret "Linux";
     platform_release := Ret "6.8.0-45-generic";
     platform_machine := Ret "x86_64";
     platform_processor := Ret "x86_64";
     os_getloadavg := Some (Ret (0.5, 0.25, 0.125)%float);
     os_path_exists := fun _ => true;
     cpu_percent := Ret 12.5%float;
     cpu_count_logical := Ret (Some 8%Z);
     cpu_count_physical := Ret (Some 4%Z);
     virtual_memory := Ret {| vm_total := 16 * 1024 ^ 3 + 123456789; vm_percent := 41.5 |};
     swap_memory_percent := Ret 3.5%float;
     disk_usage := fun _ =>
       Ret {| du_total := 500107862016; du_used := 123456789012; du_percent := 24.5 |};
     disk_partitions :=
       Ret [{| part_device := "/dev/sda1"; part_mountpoint := "/"; part_fstype := "ext4" |}];
     disk_io_counters := Ret (Some {| read_count := 1200; write_count := 3400 |});
     boot_time := Ret 0x1.a694799p+30%float;
     pids := Ret [1; 2; 3; 4; 5]%Z;
     users := Ret ["alice"];
     net_if_addrs := Ret ["lo"; "eth0"];
     net_io_counters :=
       Ret {| bytes_sent := 1512000; bytes_recv := 3048000;
              packets_sent := 1500; packets_recv := 2900 |};
     net_io_counters_pernic :=
       Ret [("eth0", {| bytes_sent := 1512000; bytes_recv := 3048000;
                        packets_sent := 1500; packets_recv := 2900 |})];
     net_connections := Ret twelve_listeners;
     process_name := names_of_pids;
     process_iter := Ret workstation_processes;
     socket_gethostname := Ret "marechan";
     socket_socket := Ret tt;
     socket_local_ip := Ret "192.168.1.20";
     uuid_getnode := Ret 0x0242ac110002%Z;
     requests_get := fun _ => Ret tt;
     locale_getlocale := Ret (Some "en_US", Some "UTF-8");
     locale_setlocale := Ret tt;
     locale_currency_symbol := Ret "$";
     pytz_all_timezones := Ret ["Africa/Abidjan"; "Africa/Accra"];
     pwd_getpwall := Ret ["root"; "alice"];
     wmi_bios_versions := Raise (Exn "ModuleNotFoundError" "No module named 'wmi'");
     check_output := workstation_commands;
     append_file := fun _ => Ret tt |}.

(** The workstation, with the network counters of the first instant
    lower than those of the following ones. *)
Definition busy_workstation : world := fun t =>
  match t with
  | O =>
      host_of (Ret a_datetime) (Ret "Linux") workstation_commands
              (Ret workstation_processes) (Ret twelve_listeners) names_of_pids
              unavailable (fun _ => unavailable)
              (Ret {| bytes_sent := 1000000; bytes_recv := 2000000;
                      packets_sent := 1000; packets_recv := 2000 |})
              (fun _ => Ret tt)
  | S _ => workstation
  end.

(** A host that is neither Linux nor Windows: only the scan of the
    processes finds services. *)
Definition a_mac : host :=
  host_of (Ret a_datetime) (Ret "Darwin") (fun _ => unavailable)
          (Ret workstation_processes) unavailable (fun _ => unavailable)
          unavailable (fun _ => unavailable) unavailable (fun _ => Ret tt).


(** A host that is neither Linux nor Windows and runs one web server. *)
Definition a_router : host :=
  host_of (Ret a_datetime) (Ret "FreeBSD") (fun _ => unavailable)
          (Ret [a_process "init" 0 0.125; a_process "nginx" 0.5 1.5;
                a_process "sh" 0 0.125]%float)
          unavailable (fun _ => unavailable)
          unavailable (fun _ => unavailable) unavailable (fun _ => Ret tt).


End Fixtures.

(** * Notions used in the statements *)

Module Notions.
Import Py Host Run PromptEnhancer.
Local Open Scope run_scope.

(** The logger can write at every instant: [datetime.now()] answers and
    both log files accept an append. *)
Definition logger_works (self : PromptEnhancer.t) (w : world) : Prop :=
  forall t,
    is_raise (datetime_now (w t)) = false /\
    append_file (w t) (Logger.log_file (logger self)) = Ret tt /\
    append_file (w t) (Logger.temp_log_path (logger self)) = Ret tt.

(** The blocks of text of a selection: one call of the probe and one block
    for each element, in the order of the selection. *)
Fixpoint blocks (self : PromptEnhancer.t) (l : list string) : M (list (list string)) :=
  match l with
  | [] => ret []
  | enhancement :: l' =>
      let* block := sections_of self enhancement in
      let* rest := blocks self l' in
      ret (block :: rest)
  end.

(** The entries of the per-interface dict, by the counters they come from. *)
Definition interface_rounded (pernic : list (string * snetio))
    (entry : string * iface_stats) : Prop :=
  exists stats,
    (fst entry, stats) ∈ pernic
    /\ if_sent_mb (snd entry) = round2 (truediv (bytes_sent stats) (1024 * 1024))
    /\ if_received_mb (snd entry) = round2 (truediv (bytes_recv stats) (1024 * 1024)).

(** A disk entry, by the usage of its mount point on the host [h]. *)
Definition disk_rounded (h : host) (disk : disk_info) : Prop :=
  exists usage,
    disk_usage h (dk_mountpoint disk) = Ret usage
    /\ dk_total_gb disk = round2 (truediv (du_total usage) (1024 ^ 3))
    /\ dk_used_gb disk = round2 (truediv (du_used usage) (1024 ^ 3))
    /\ dk_percent disk = du_percent usage.

(** The ports of the connections in state LISTEN, in the order of the
    connections. *)
Definition listen_ports (conns : list sconn) : list Z :=
  map conn_laddr_port
      (filter (fun conn => conn_status conn = "LISTEN") conns).

(** The name of the process that owns a connection, when the connection
    has a pid and the host can name the process. *)
Definition owner (h : host) (conn : sconn) : option string :=
  match conn_pid conn with
  | Some pid =>
      if (pid =? 0)%Z then None
      else match process_name h pid with Ret name => Some name | Raise _ => None end
  | None => None
  end.

(** The owners of the connections, one entry per connection. *)
Definition owners (h : host) (conns : list sconn) : list string :=
  omap (owner h) conns.

(** A name contains one of the critical substrings. *)
Definition has_critical_substring (name : string) : Prop :=
  exists critical,
    critical ∈ critical_service_names /\ contains critical name = true.

(** The test the source applies to a service or process name: one of the
    critical substrings occurs in the lower-cased name. *)
Definition critical_match (name : string) : bool :=
  existsb (fun critical => contains critical (lower name)) critical_service_names.

(** The test the source applies to a line of [net start]. *)
Definition windows_match (line : string) : bool :=
  existsb (fun critical => contains (lower critical) (lower line)) windows_critical.

(** Every critical name among the services is in the critical list, and
    the critical list holds services only. *)
Definition services_classified (match_ : string -> bool)
    (services critical_services : list string) : Prop :=
  (forall name, name ∈ services -> match_ name = true -> name ∈ critical_services)
  /\ (forall name, name ∈ critical_services -> name ∈ services).


End Notions.

(** * Notions used in the statements on the rest of the code *)

Module Observations.
Import Py Host Run PromptEnhancer Notions.
Local Open Scope run_scope.

(** ** The log files *)

(** The two files a logger writes to. *)
Definition log_paths (logger : Logger.t) : list string :=
  [Logger.log_file logger; Logger.temp_log_path logger].

(** What has been appended to a file, in order. *)
Definition file_content (s : state) (path : string) : list string :=
  default [] (files s !! path).

(** From [s] to [s'] time has not gone back, every file has kept what it
    held, and only the files of [paths] have changed. *)
Definition only_appends (paths : list string) (s s' : state) : Prop :=
  clock s <= clock s'
  /\ forall path,
       file_content s path `prefix_of` file_content s' path
       /\ (path ∉ paths -> files s' !! path = files s !! path).

(** From [s] to [s'] no file has changed. *)
Definition same_files (s s' : state) : Prop := files s' = files s.

(** Every run of [c] takes a state to one related to it by [R]. *)
Definition respects {A} (R : state -> state -> Prop) (c : M A) : Prop :=
  forall w s, R s (snd (c w s)).

(** The logger can write at every instant. *)
Definition log_works (logger : Logger.t) (w : world) : Prop :=
  forall t,
    is_raise (datetime_now (w t)) = false /\
    append_file (w t) (Logger.log_file logger) = Ret tt /\
    append_file (w t) (Logger.temp_log_path logger) = Ret tt.

(** ** The ports probe *)

(** The number of connections owned by the processes called [name]. *)
Definition connections_of (h : host) (conns : list sconn) (name : string) : Z :=
  len (filter (fun n => n = name) (owners h conns)).

(** The count a dict of counts holds for [name], 0 when it has none. *)
Fixpoint assoc_count (d : list (string * Z)) (name : string) : Z :=
  match d with
  | [] => 0
  | (k, v) :: d' => if String.eqb k name then v else assoc_count d' name
  end.

(** The port a line of [netstat -tuln] gives: the line holds "LISTEN",
    has a fourth field, and what follows the last colon of that field is
    an int. *)
Definition netstat_port (line : string) : option Z :=
  if contains "LISTEN" line then
    match split_ws line !! 3%nat with
    | Some addr =>
        match int (default EmptyString (last (split addr ":"))) with
        | Ret port => Some port
        | Raise _ => None
        end
    | None => None
    end
  else None.

(** What the fallback on [netstat] yields on the host [h]. *)
Definition netstat_ports (h : host) : list Z :=
  match platform_system h with
  | Ret sys =>
      if String.eqb sys "Linux" then
        match check_output h ["netstat"; "-tuln"] with
        | Ret output => fold_left netstat_line (split output nl) []
        | Raise _ => []
        end
      else []
  | Raise _ => []
  end.

(** [a] comes before [b] in a ranking by decreasing count. *)
Definition by_connections_desc (a b : string * Z) : Prop := (snd b <= snd a)%Z.

(** ** The processes probe *)

(** An entry of a top list: a process of [procs] whose percentage is
    positive, as "name (x.y%)". *)
Definition process_entry (key : pinfo -> option float) (procs : list pinfo)
    (entry : string) : Prop :=
  exists p v,
    p ∈ procs /\ key p = Some v /\ PrimFloat.ltb 0 v = true
    /\ entry = str_opt id (p_name p) +:+ " (" +:+ format_1f v +:+ "%)".

(** ** The filesystem probe *)

(** The usage of the partition can be read. *)
Definition readable (h : host) (partition : sdiskpart) : bool :=
  negb (is_raise (disk_usage h (part_mountpoint partition))).

Definition disk_of (disk : disk_info) : string * string * string :=
  (dk_device disk, dk_mountpoint disk, dk_fstype disk).

Definition partition_of (partition : sdiskpart) : string * string * string :=
  (part_device partition, part_mountpoint partition, part_fstype partition).

(** ** The timezone probe *)

(** The offset west of Greenwich, in seconds, the probe converts to hours. *)
Definition offset_seconds (h : host) (isdst : Z) : Z :=
  if negb (time_daylight h =? 0)%Z && (0 <? isdst)%Z
  then time_altzone h else time_timezone h.

(** [q] quarters of an hour east of Greenwich as a signed number of hours
    with its decimals; zero has a minus sign. *)
Definition quarter_hours_text (q : Z) : string :=
  (if (0 <? q)%Z then "+" else "-") +:+ str_int (Z.abs q / 4) +:+
  match (Z.abs q mod 4)%Z with
  | 0%Z => EmptyString
  | 1%Z => ".25"
  | 2%Z => ".5"
  | _ => ".75"
  end.

(** The offsets from UTC-12:00 to UTC+14:00, in quarters of an hour. *)
Definition quarter_hour_offsets : list Z :=
  map (fun n => (Z.of_nat n - 48)%Z) (seq 0 105).

(** ** The network probe *)

Definition hex_value (c : ascii) : option Z :=
  let n := nat_of_ascii c in
  if (48 <=? n)%nat && (n <=? 57)%nat then Some (Z.of_nat (n - 48))
  else if (97 <=? n)%nat && (n <=? 102)%nat then Some (Z.of_nat (n - 87))
  else None.

(** The number a MAC address stands for: its hexadecimal digits read from
    the left, the colons passed over. *)
Fixpoint mac_value (acc : Z) (mac : string) : option Z :=
  match mac with
  | EmptyString => Some acc
  | String c rest =>
      if Ascii.eqb c ":" then mac_value acc rest
      else match hex_value c with
           | Some d => mac_value (16 * acc + d) rest
           | None => None
           end
  end.

(** ** The parser of emails *)

(** One of the words of an address nobody reads. *)
Definition no_reply_word (address : string) : Prop :=
  contains "noreply" address = true \/ contains "no-reply" address = true
  \/ contains "daemon" address = true.

(** [address] is the sender address of one of the assistants. *)
Definition assistant_address (items : Config.assistants) (address : string) : Prop :=
  exists name config email,
    (name, config) ∈ items /\ Config.cfg_email config = Some email
    /\ Config.ec_sender email = Some address.






(** ** The client of the AI *)

(** What [ask_ai] adds after the prompt. *)
Definition reminder (sender : option string) (content : string) : string :=
  " Reminder: You are talking to the sender (" +:+ str_opt id sender +:+
  ") of this mail! " +:+ content.

Definition base_prompt_of (config : Config.assistant_config) : string :=
  default "Reply to the following prompt:" (Config.cfg_prompt config).

Definition assistant_name_of (config : Config.assistant_config) : string :=
  default "assistant" (Config.cfg_name config).

(** The selection [ask_ai] passes to the enhancer. *)
Definition enhancements_of (config : Config.assistant_config) : selection :=
  default (SelList []) (Config.cfg_enhancements config).

End Observations.

(** * Hosts, mails and configurations used in the examples on the rest of
    the code *)

Module Scenarios.
Import Py Host Run Fixtures.

(** The workstation, with other answers for the calls given as arguments. *)
Definition workstation_with
    (utcnow : outcome datetime)
    (timezone altzone daylight : Z)
    (isdst : outcome Z)
    (partitions : outcome (list sdiskpart))
    (usage : string -> outcome sdiskusage)
    (local_ip : outcome string)
    (request : string -> outcome unit)
    (setlocale : outcome unit) : host :=
  {| datetime_now := datetime_now workstation;
     datetime_utcnow := utcnow;
     datetime_fromtimestamp := datetime_fromtimestamp workstation;
     time_time := time_time workstation;
     time_tzname := time_tzname workstation;
     time_timezone := timezone;
     time_altzone := altzone;
     time_daylight := daylight;
     time_localtime_isdst := isdst;
     time_strftime_X := time_strftime_X workstation;
     time_strftime_x := time_strftime_x workstation;
     platform_system := platform_system workstation;
     platform_release := platform_release workstation;
     platform_machine := platform_machine workstation;
     platform_processor := platform_processor workstation;
     os_getloadavg := os_getloadavg workstation;
     os_path_exists := os_path_exists workstation;
     cpu_percent := cpu_percent workstation;
     cpu_count_logical := cpu_count_logical workstation;
     cpu_count_physical := cpu_count_physical workstation;
     virtual_memory := virtual_memory workstation;
     swap_memory_percent := swap_memory_percent workstation;
     disk_usage := usage;
     disk_partitions := partitions;
     disk_io_counters := disk_io_counters workstation;
     boot_time := boot_time workstation;
     pids := pids workstation;
     users := users workstation;
     net_if_addrs := net_if_addrs workstation;
     net_io_counters := net_io_counters workstation;
     net_io_counters_pernic := net_io_counters_pernic workstation;
     net_connections := net_connections workstation;
     process_name := process_name workstation;
     process_iter := process_iter workstation;
     socket_gethostname := socket_gethostname workstation;
     socket_socket := socket_socket workstation;
     socket_local_ip := local_ip;
     uuid_getnode := uuid_getnode workstation;
     requests_get := request;
     locale_getlocale := locale_getlocale workstation;
     locale_setlocale := setlocale;
     locale_currency_symbol := locale_currency_symbol workstation;
     pytz_all_timezones := pytz_all_timezones workstation;
     pwd_getpwall := pwd_getpwall workstation;
     wmi_bios_versions := wmi_bios_versions workstation;
     check_output := check_output workstation;
     append_file := append_file workstation |}.

(** The workstation with a UTC clock that cannot be read. *)
Definition no_utc_clock : host :=
  workstation_with (Raise (Exn "OSError" "[Errno 75] Value too large for defined data type"))
    0 0 0 (Ret 0%Z) (disk_partitions workstation) (disk_usage workstation)
    (socket_local_ip workstation) (requests_get workstation)
    (locale_setlocale workstation).

(** The workstation five hours and a half east of Greenwich, without
    daylight saving time. *)
Definition in_kolkata : host :=
  workstation_with (datetime_utcnow workstation)
    (-19800) (-19800) 0 (Ret 0%Z) (disk_partitions workstation)
    (disk_usage workstation) (socket_local_ip workstation) (requests_get workstation)
    (locale_setlocale workstation).

(** The workstation one hour east of Greenwich in a zone that has daylight
    saving time, when the C library cannot tell whether it is in force. *)
Definition dst_unknown : host :=
  workstation_with (datetime_utcnow workstation)
    (-3600) (-7200) 1 (Ret (-1)%Z) (disk_partitions workstation)
    (disk_usage workstation) (socket_local_ip workstation) (requests_get workstation)
    (locale_setlocale workstation).

(** The workstation with three partitions, the second of which denies the
    reading of its usage. *)
Definition three_partitions : list sdiskpart :=
  [{| part_device := "/dev/sda1"; part_mountpoint := "/"; part_fstype := "ext4" |};
   {| part_device := "/dev/sdb1"; part_mountpoint := "/mnt/backup"; part_fstype := "ext4" |};
   {| part_device := "tmpfs"; part_mountpoint := "/run"; part_fstype := "tmpfs" |}].

Definition locked_backup : host :=
  workstation_with (datetime_utcnow workstation)
    0 0 0 (Ret 0%Z) (Ret three_partitions)
    (fun mountpoint =>
       if String.eqb mountpoint "/mnt/backup"
       then Raise (Exn "PermissionError" "[Errno 13] Permission denied: '/mnt/backup'")
       else disk_usage workstation mountpoint)
    (socket_local_ip workstation) (requests_get workstation)
    (locale_setlocale workstation).

(** The workstation without a network. *)
Definition offline : host :=
  workstation_with (datetime_utcnow workstation)
    0 0 0 (Ret 0%Z) (disk_partitions workstation) (disk_usage workstation)
    (Raise (Exn "OSError" "[Errno 101] Network is unreachable"))
    (fun _ => Raise (Exn "ConnectionError" "Max retries exceeded"))
    (locale_setlocale workstation).

(** The workstation with a locale in its environment that is not
    installed. *)
Definition missing_locale : host :=
  workstation_with (datetime_utcnow workstation)
    0 0 0 (Ret 0%Z) (disk_partitions workstation) (disk_usage workstation)
    (socket_local_ip workstation) (requests_get workstation)
    (Raise (Exn "Error" "unsupported locale setting")).

(** A Linux host on which psutil sees no listening socket and [netstat]
    answers. *)
Definition netstat_output : string :=
  lines_of
    ["Active Internet connections (only servers)";
     "Proto Recv-Q Send-Q Local Address           Foreign Address         State";
     "tcp        0      0 0.0.0.0:8080            0.0.0.0:*               LISTEN";
     "tcp        0      0 127.0.0.1:22            0.0.0.0:*               LISTEN";
     "tcp6       0      0 :::8080                 :::*                    LISTEN";
     "udp        0      0 0.0.0.0:68              0.0.0.0:*"].

Definition netstat_host : host :=
  host_of (Ret a_datetime) (Ret "Linux")
          (fun cmd => if bool_decide (cmd = ["netstat"; "-tuln"]) then Ret netstat_output
                      else unavailable)
          (Ret workstation_processes)
          (Ret [established 443 103; established 5432 105]%Z) names_of_pids
          unavailable (fun _ => unavailable) unavailable (fun _ => Ret tt).

(** A host on which one process denies its CPU percentage. *)
Definition a_denied_process : pinfo :=
  {| p_name := Some "kworker"; p_status := Some "idle";
     p_cpu_percent := None; p_memory_percent := Some 0%float |}.

Definition denied_host : host :=
  host_of (Ret a_datetime) (Ret "Linux") (fun _ => unavailable)
          (Ret (workstation_processes ++ [a_denied_process]))
          unavailable (fun _ => unavailable)
          unavailable (fun _ => unavailable) unavailable (fun _ => Ret tt).

(** A Linux host without systemd, on which [service --status-all] answers. *)
Definition status_all_output : string :=
  lines_of [" [ + ]  cron"; " [ - ]  cups"; " [ + ]  nginx"; " [ + ]  ssh"].

Definition sysv_host : host :=
  host_of (Ret a_datetime) (Ret "Linux")
          (fun cmd => if bool_decide (cmd = ["service"; "--status-all"])
                      then Ret status_all_output
                      else Raise (Exn "FileNotFoundError"
                                    "[Errno 2] No such file or directory: 'systemctl'"))
          (Ret workstation_processes) unavailable (fun _ => unavailable)
          unavailable (fun _ => unavailable) unavailable (fun _ => Ret tt).

(** A host on which the session file cannot be written, the main log can. *)
Definition no_session_file : host :=
  host_of (Ret a_datetime) unavailable (fun _ => unavailable) unavailable
          unavailable (fun _ => unavailable) unavailable (fun _ => unavailable)
          unavailable
          (fun path =>
             if String.eqb path "/tmp/marechan/session.txt"
             then Raise (Exn "FileNotFoundError" "[Errno 2] No such file or directory")
             else Ret tt).

(** A host on which the raw email log cannot be written. *)
Definition no_raw_log : host :=
  host_of (Ret a_datetime) unavailable (fun _ => unavailable) unavailable
          unavailable (fun _ => unavailable) unavailable (fun _ => unavailable)
          unavailable
          (fun path =>
             if String.eqb path "/var/log/marechan_raw.log"
             then Raise (Exn "PermissionError"
                          "[Errno 13] Permission denied: '/var/log/marechan_raw.log'")
             else Ret tt).

Definition a_raw_logger : RawEmailLog.t :=
  {| RawEmailLog.base := a_logger;
     RawEmailLog.raw_email_log := "/var/log/marechan_raw.log" |}.

(** The assistants of a configuration file. *)
Definition an_assistant (prompt : string) (address : string) (enhance : bool)
    (enhancements : option PromptEnhancer.selection) : Config.assistant_config :=
  {| Config.cfg_prompt := Some prompt;
     Config.cfg_name := None;
     Config.cfg_enhance_prompt := enhance;
     Config.cfg_enhancements := enhancements;
     Config.cfg_email := Some {| Config.ec_sender := Some address |} |}.

Definition marechan_config : Config.assistant_config :=
  an_assistant "You are Marechan." "Marechan@douxx.tech" true
               (Some (PromptEnhancer.SelList ["time"])).

Definition support_config : Config.assistant_config :=
  an_assistant "You are the support desk." "support@douxx.tech" false None.

Definition assistants_file : Config.assistants :=
  [("default", an_assistant "Reply politely." "assistant@douxx.tech" false None);
   ("support", support_config);
   ("Marechan", marechan_config)].

(** A mail, and the parser of the standard library on it. *)
Definition a_raw_email : string :=
  lines_of
    ["From: Alice <alice@example.org>";
     "To: Marechan <marechan@douxx.tech>";
     "Subject: ";
     "Content-Type: multipart/alternative; boundary=sep";
     "";
     "--sep";
     "Content-Type: text/plain";
     "";
     "  What time is it?  ";
     "--sep";
     "Content-Type: text/html";
     "";
     "<p>What time is it?</p>";
     "--sep--"].

(** The codec of a host whose text files are ASCII: the error names the
    first run of characters it cannot encode (characters below U+0100). *)
Fixpoint first_high (i : nat) (l : list ascii) : option (nat * ascii * list ascii) :=
  match l with
  | [] => None
  | c :: l' =>
      if (nat_of_ascii c <? 128)%nat then first_high (S i) l' else Some (i, c, l')
  end.

Fixpoint run_high (l : list ascii) : nat :=
  match l with
  | c :: l' => if (nat_of_ascii c <? 128)%nat then 0%nat else S (run_high l')
  | [] => 0%nat
  end.

Definition an_ascii_codec (text : string) : outcome unit :=
  match first_high 0 (list_ascii_of_string text) with
  | None => Ret tt
  | Some (i, c, rest) =>
      Raise (Exn "UnicodeEncodeError"
        ("'ascii' codec can't encode " +:+
         match run_high rest with
         | O =>
             "character '\x" +:+ hex2 (Z.of_nat (nat_of_ascii c)) +:+
             "' in position " +:+ str_int (Z.of_nat i)
         | S n =>
             "characters in position " +:+ str_int (Z.of_nat i) +:+ "-" +:+
             str_int (Z.of_nat (i + S n))
         end +:+ ": ordinal not in range(128)"))
  end.

(** A mail whose sender has an e with diaeresis (U+00EB) in her name. *)
Definition a_latin_email : string :=
  lines_of
    ["From: Zo" +:+ String "235"%char " <zoe@example.org>";
     "To: Marechan <marechan@douxx.tech>";
     "Subject: Hello";
     "";
     "Hello!"].

Definition a_message : EmailParser.message :=
  {| EmailParser.msg_from := Some "Alice <alice@example.org>";
     EmailParser.msg_subject := Some EmptyString;
     EmailParser.msg_to := Some "Marechan <marechan@douxx.tech>";
     EmailParser.msg_payload :=
       EmailParser.Multipart
         [{| EmailParser.part_content_type := "text/plain";
             EmailParser.part_text := Ret "  What time is it?  " |};
          {| EmailParser.part_content_type := "text/html";
             EmailParser.part_text := Ret "<p>What time is it?</p>" |}] |}.

(** A mail whose text holds the byte 255, which is no UTF-8 and which
    [sys.stdin] reads as a lone surrogate, and an e with an acute accent
    (U+00E9): the library cannot give its payload. *)
Definition a_mixed_email : string :=
  lines_of
    ["From: Alice <alice@example.org>";
     "To: Marechan <marechan@douxx.tech>";
     "Subject: Hello";
     "";
     String "255"%char (" Caf" +:+ String "233"%char EmptyString)].

Definition a_mixed_message : EmailParser.message :=
  {| EmailParser.msg_from := Some "Alice <alice@example.org>";
     EmailParser.msg_subject := Some "Hello";
     EmailParser.msg_to := Some "Marechan <marechan@douxx.tech>";
     EmailParser.msg_payload :=
       EmailParser.Single
         (Raise (Exn "UnicodeEncodeError"
                   ("'ascii' codec can't encode character '\xe9' in position 5: "
                    +:+ "ordinal not in range(128)"))) |}.

Definition message_from_string (raw : string) : outcome EmailParser.message :=
  if String.eqb raw a_raw_email then Ret a_message
  else if String.eqb raw a_mixed_email then Ret a_mixed_message
  else Raise (Exn "TypeError" "initial_value must be str or None").

Definition a_parser : EmailParser.t := {| EmailParser.logger := a_logger |}.


Definition an_unaddressed_email : EmailParser.email_data :=
  {| EmailParser.ed_sender := Some "Alice <alice@example.org>";
     EmailParser.ed_subject := "No subject";
     EmailParser.ed_recipient := None;
     EmailParser.ed_content := "What time is it?" |}.

(** The client of the AI and an API that answers. *)
Definition a_client : AIClient.t :=
  {| AIClient.api_url := "https://api.douxx.tech/ai";
     AIClient.timeout := 30;
     AIClient.logger := a_logger |}.

Definition an_answer : AIClient.response :=
  {| AIClient.status_code := 200;
     AIClient.response_json :=
       Ret (AIClient.JObj [("success", AIClient.JBool true);
                           ("message", AIClient.JStr "It is a quarter past ten.")]) |}.

(** An API that answers at one address, with the content it was sent. *)
Definition an_api (url content : string) (timeout : Z) : outcome AIClient.response :=
  if String.eqb url "https://api.douxx.tech/ai" then
    Ret {| AIClient.status_code := 200;
           AIClient.response_json :=
             Ret (AIClient.JObj [("success", AIClient.JBool true);
                                 ("message", AIClient.JStr ("Received: " +:+ content))]) |}
  else Raise (Exn "ConnectionError" "Failed to establish a new connection").

Definition a_server_error : AIClient.response :=
  {| AIClient.status_code := 502;
     AIClient.response_json :=
       Raise (Exn "JSONDecodeError" "Expecting value: line 1 column 1 (char 0)") |}.

End Scenarios.

(** * Properties *)

Import Py Host Run PromptEnhancer Notions Fixtures.
Local Open Scope run_scope.

(** ** The builtins on small inputs

    The values are those CPython gives for the same expressions. *)

Example split_on_service :
  split "nginx.service loaded active running" ".service"
  = ["nginx"; " loaded active running"].
Proof. reflexivity. Qed.

Example split_keeps_empty_pieces : split "a::b:" ":" = ["a"; ""; "b"; ""].
Proof. reflexivity. Qed.

Example split_on_whitespace :
  split_ws "tcp    0   0 0.0.0.0:22    0.0.0.0:*    LISTEN "
  = ["tcp"; "0"; "0"; "0.0.0.0:22"; "0.0.0.0:*"; "LISTEN"].
Proof. reflexivity. Qed.

Example int_of_a_port : int "8080" = Ret 8080%Z /\ is_raise (int "*") = true.
Proof. split; reflexivity. Qed.

Example contains_is_substring :
  contains "all" "install" = true /\ contains "all" "al l" = false.
Proof. split; reflexivity. Qed.

Example truediv_third : repr_float (truediv 1 3) = "0.3333333333333333".
Proof. vm_compute. reflexivity. Qed.

Example truediv_negative_zero : repr_float (truediv 0 (-3600)) = "-0.0".
Proof. vm_compute. reflexivity. Qed.

(** [round(0.125, 2)] is a tie and goes to the even hundredth;
    [round(2.675, 2)] is 2.67 because the float 2.675 is below 2.675. *)
Example round2_ties_to_even : repr_float (round2 (truediv 1 8)) = "0.12".
Proof. vm_compute. reflexivity. Qed.

Example round2_below_the_tie : repr_float (round2 (truediv 2675 1000)) = "2.67".
Proof. vm_compute. reflexivity. Qed.

Example repr_float_exponent :
  repr_float (float_of_int (10 ^ 16)) = "1e+16"
  /\ repr_float (float_of_int (10 ^ 15)) = "1000000000000000.0"
  /\ repr_float (truediv 1 100000) = "1e-05".
Proof. repeat split; vm_compute; reflexivity. Qed.

Example format_plus_g_offsets :
  format_plus_g (round2 (truediv (-19800) (-3600))) = "+5.5"
  /\ format_plus_g (round2 (truediv 18000 (-3600))) = "-5"
  /\ format_plus_g (float_of_int 1234567) = "+1.23457e+06".
Proof. repeat split; vm_compute; reflexivity. Qed.

Example format_1f_rounds :
  format_1f (truediv 1234 100) = "12.3" /\ format_1f (truediv 1 4) = "0.2".
Proof. split; vm_compute; reflexivity. Qed.

Example sorted_ports : sorted [8080; 22; 443; 80]%Z = [22; 80; 443; 8080]%Z.
Proof. reflexivity. Qed.

(** Equal keys keep the order they came in. *)
Example sorted_desc_is_stable :
  sorted_desc snd [("a", 1); ("b", 3); ("c", 1); ("d", 3)]%Z
  = [("b", 3); ("d", 3); ("a", 1); ("c", 1)]%Z.
Proof. reflexivity. Qed.

Example hex2_pads : hex2 10 = "0a" /\ hex2 255 = "ff".
Proof. split; reflexivity. Qed.

(** ** Running guarded methods *)

Lemma log_message_returns self w message s :
  logger_works self w ->
  exists s', Logger.log_message (logger self) message true w s = (Ret tt, s')
             /\ clock s' = clock s.
Proof.
  intros Hw. destruct (Hw (clock s)) as (Hnow & Hlog & Htmp).
  unfold Logger.log_message, bind, call, append_to.
  destruct (datetime_now (w (clock s))) as [now|e]; [|discriminate].
  cbn. rewrite Hlog. cbn. rewrite Htmp. eauto.
Qed.

(** The handler of a guarded probe never yields a dict. *)
Lemma log_and_none_not_some {A} self what e w s (r : A) s' :
  log_and_none self what e w s <> (Ret (Some r), s').
Proof.
  unfold log_and_none, bind.
  destruct (Logger.log_message _ _ _ w s) as [[[]|e'] s1];
    unfold ret; congruence.
Qed.

(** A guarded probe that returns a dict returned it from its body. *)
Lemma guarded_some {A} self what (body : M (option A)) w s r s' :
  try_except body (log_and_none self what) w s = (Ret (Some r), s') ->
  body w s = (Ret (Some r), s').
Proof.
  unfold try_except. destruct (body w s) as [[a|e] s1]; [done|].
  intros H. by apply log_and_none_not_some in H.
Qed.

(** While the logger works, a guarded probe does not raise: a failure of
    its body is logged and becomes [None]. *)
Lemma guarded_no_raise {A} self what (body : M (option A)) w s :
  logger_works self w ->
  is_raise (fst (try_except body (log_and_none self what) w s)) = false.
Proof.
  intros Hw. unfold try_except.
  destruct (body w s) as [[a|e] s1]; [done|].
  unfold log_and_none, bind.
  destruct (log_message_returns self w (what +:+ ": " +:+ str_exn e) s1 Hw)
    as (s2 & -> & _).
  done.
Qed.


(** ** Facts about the str operations *)

Lemma startswith_spec p s :
  startswith p s = true <-> exists post, s = p +:+ post.
Proof.
  revert s. induction p as [|a p IH]; intros s; cbn.
  - split; [intros _; by exists s | done].
  - destruct s as [|b s]; cbn.
    + split; [done | intros [post H]; discriminate].
    + rewrite andb_true_iff, IH. split.
      * intros [Hab [post ->]]. apply Ascii.eqb_eq in Hab as ->. by exists post.
      * intros [post H]. injection H as -> ->. split; [apply Ascii.eqb_refl | eauto].
Qed.

(** [sub in s] holds exactly when [s] is some text, then [sub], then some
    text. *)
Lemma contains_spec sub s :
  contains sub s = true <-> exists pre post, s = pre +:+ sub +:+ post.
Proof.
  induction s as [|c s IH]; cbn.
  - rewrite startswith_spec. split.
    + intros [post H]. by exists EmptyString, post.
    + intros (pre & post & H). destruct pre; cbn in H; [eauto | discriminate].
  - rewrite orb_true_iff, IH, startswith_spec. split.
    + intros [[post H] | (pre & post & ->)].
      * by exists EmptyString, post.
      * by exists (String c pre), post.
    + intros (pre & post & H). destruct pre as [|c' pre]; cbn in H.
      * left. eauto.
      * right. injection H as -> ->. eauto.
Qed.

Lemma lower_app a b : lower (a +:+ b) = lower a +:+ lower b.
Proof. induction a as [|c a IH]; simpl; [done | by rewrite IH]. Qed.

(** Lower-casing both sides keeps a substring a substring. *)
Lemma contains_lower sub s :
  contains sub s = true -> contains (lower sub) (lower s) = true.
Proof.
  rewrite !contains_spec. intros (pre & post & ->).
  exists (lower pre), (lower post). by rewrite !lower_app.
Qed.

Lemma critical_names_lower :
  Forall (fun c => lower c = c) critical_service_names.
Proof. repeat constructor. Qed.

(** A name that contains one of the critical substrings passes the test of
    the source, which lower-cases the name first. *)
Lemma critical_test name c :
  c ∈ critical_service_names ->
  contains c name = true ->
  existsb (fun critical => contains critical (lower name)) critical_service_names
    = true.
Proof.
  intros Hc Hin. apply existsb_exists. exists c. split.
  - by apply list_elem_of_In.
  - pose proof critical_names_lower as Hl.
    rewrite Forall_forall in Hl. rewrite <- (Hl c Hc).
    by apply contains_lower.
Qed.

(** ** The selection and the loop over it *)

Lemma all_enhancements_length : length all_enhancements = 13.
Proof. reflexivity. Qed.

Ltac not_this_kind Hk :=
  match goal with
  | |- context [String.eqb ?k ?lit] =>
      destruct (String.eqb_spec k lit) as [->|_];
      [exfalso; apply Hk; unfold all_enhancements; set_solver |]
  end.

(** A token that is none of the thirteen kinds calls no probe and adds no
    line. *)
Lemma sections_of_unknown self k :
  k ∉ all_enhancements -> sections_of self k = ret [].
Proof.
  intros Hk. unfold sections_of. repeat not_this_kind Hk. reflexivity.
Qed.

Lemma run_bind {A B} (c : M A) (k : A -> M B) w s :
  bind c k w s =
  match c w s with
  | (Ret a, s') => k a w s'
  | (Raise e, s') => (Raise e, s')
  end.
Proof. reflexivity. Qed.

Lemma run_ret {A} (a : A) w s : ret a w s = (Ret a, s).
Proof. reflexivity. Qed.

Lemma run_call {A} (f : host -> outcome A) w s :
  call f w s = (f (w (clock s)), s).
Proof. reflexivity. Qed.

Lemma run_attr {A} (f : host -> A) w s :
  attr f w s = (Ret (f (w (clock s))), s).
Proof. reflexivity. Qed.

Lemma run_lift {A} (o : outcome A) w s : lift o w s = (o, s).
Proof. reflexivity. Qed.

Lemma run_tick w s :
  tick w s = (Ret tt, {| clock := S (clock s); files := files s |}).
Proof. reflexivity. Qed.

Lemma run_try {A} (c : M A) (h : exn -> M A) w s :
  try_except c h w s =
  match c w s with
  | (Ret a, s') => (Ret a, s')
  | (Raise e, s') => h e w s'
  end.
Proof. reflexivity. Qed.

(** A [try] whose handler returns, returns. *)
Lemma try_returns {A} (c : M A) (h : exn -> M A) w s :
  (forall e s1, exists a s2, h e w s1 = (Ret a, s2)) ->
  exists a s2, try_except c h w s = (Ret a, s2).
Proof.
  intros Hh. rewrite run_try. destruct (c w s) as [[a|e] s1]; eauto.
Qed.

Lemma for_each_blocks self l acc w s :
  for_each l acc
    (fun info_sections enhancement =>
       let* lines := sections_of self enhancement in
       ret (info_sections ++ lines)) w s
  = (let* bs := blocks self l in ret (acc ++ concat bs)) w s.
Proof.
  revert acc s. induction l as [|k l IH]; intros acc s.
  - cbn [for_each blocks]. rewrite run_bind, !run_ret. cbn. by rewrite app_nil_r.
  - cbn [for_each blocks]. rewrite !run_bind.
    destruct (sections_of self k w s) as [[b|e] s1]; [|done].
    rewrite run_ret, IH, !run_bind.
    destruct (blocks self l w s1) as [[bs|e] s2]; [|done].
    rewrite !run_ret. cbn. by rewrite <- app_assoc.
Qed.

Lemma collect_sections_blocks self l w s :
  collect_sections self l w s = (let* bs := blocks self l in ret (concat bs)) w s.
Proof. unfold collect_sections. by rewrite for_each_blocks. Qed.

Lemma blocks_unknown self l w s :
  (forall k, k ∈ l -> k ∉ all_enhancements) ->
  blocks self l w s = (Ret (map (fun _ => []) l), s).
Proof.
  revert s. induction l as [|k l IH]; intros s Hl; cbn; [done|].
  rewrite sections_of_unknown by (apply Hl; set_solver).
  unfold bind, ret. rewrite IH by (intros; apply Hl; set_solver). done.
Qed.

Lemma collect_sections_unknown self l w s :
  (forall k, k ∈ l -> k ∉ all_enhancements) ->
  collect_sections self l w s = (Ret [], s).
Proof.
  intros Hl. rewrite collect_sections_blocks. unfold bind.
  rewrite blocks_unknown by done. unfold ret. f_equal. f_equal.
  clear. induction l; cbn; done.
Qed.

Lemma in_list_true `{EqDecision A} (x : A) l : in_list x l = true <-> x ∈ l.
Proof. unfold in_list. apply bool_decide_eq_true. Qed.

Lemma in_list_false `{EqDecision A} (x : A) l : in_list x l = false <-> x ∉ l.
Proof. unfold in_list. apply bool_decide_eq_false. Qed.



(** The prompt [enhance_prompt] returns, from the blocks of the kinds it
    goes through. *)
Lemma enhance_prompt_blocks self base sel w s :
  (forall bs s',
      blocks self (enhancements_to_apply sel) w s = (Ret bs, s') ->
      enhance_prompt self base sel w s =
        (Ret match concat bs with
             | [] => base
             | _ :: _ =>
                 base +:+ nl +:+ nl +:+
                 "Here is real-time information you can use if relevant:" +:+ nl +:+
                 join nl (concat bs) +:+ nl +:+ nl +:+ "The email is:"
             end, s'))
  /\ (forall e s',
      blocks self (enhancements_to_apply sel) w s = (Raise e, s') ->
      enhance_prompt self base sel w s = (Raise e, s')).
Proof.
  split.
  - intros bs s' Hbs. unfold enhance_prompt.
    rewrite run_bind, collect_sections_blocks, run_bind, Hbs, run_ret.
    by destruct (concat bs).
  - intros e s' Hbs. unfold enhance_prompt.
    by rewrite run_bind, collect_sections_blocks, run_bind, Hbs.
Qed.

(** The blocks of a selection, place by place: the block at place [i] is
    what the probe of the element at place [i] returns, called in the
    state the elements before it have left. *)
Lemma blocks_at self l w s bs s' :
  blocks self l w s = (Ret bs, s') ->
  length bs = length l
  /\ forall i k, l !! i = Some k ->
       exists b si si',
         blocks self (take i l) w s = (Ret (take i bs), si)
         /\ sections_of self k w si = (Ret b, si')
         /\ bs !! i = Some b.
Proof.
  revert s bs s'. induction l as [|k0 l IH]; intros s bs s' Hbs.
  - cbn in Hbs. injection Hbs as <- <-. split; [done|]. intros i k Hi. done.
  - cbn [blocks] in Hbs. rewrite run_bind in Hbs.
    destruct (sections_of self k0 w s) as [[b0|e] s1] eqn:Hk0; [|discriminate].
    rewrite run_bind in Hbs.
    destruct (blocks self l w s1) as [[bs'|e] s2] eqn:Hrest; [|discriminate].
    rewrite run_ret in Hbs. injection Hbs as <- <-.
    destruct (IH _ _ _ Hrest) as (Hlen & Hat). split; [cbn; by f_equal|].
    intros [|i] k Hi.
    + injection Hi as <-. exists b0, s, s1. by rewrite !take_0.
    + cbn in Hi. destruct (Hat i k Hi) as (b & si & si' & Hpre & Hb & Hi').
      exists b, si, si'. split; [|done].
      cbn [take blocks]. by rewrite run_bind, Hk0, run_bind, Hpre, run_ret.
Qed.

(** C9: a str that is not ["all"] but has ["all"] inside it (as "install"
    and "ball" have) selects the whole catalog of thirteen kinds, because
    [in] on a str looks for a substring: [enhance_prompt] calls the
    thirteen probes in the order of the catalog and returns the prompt
    made of their blocks. *)
Theorem substring_all_selects_catalog self base (s : string) w st :
  s <> "all" ->
  (exists pre post, s = pre +:+ "all" +:+ post) ->
  enhancements_to_apply (SelStr s) = all_enhancements
  /\ length (enhancements_to_apply (SelStr s)) = 13
  /\ enhance_prompt self base (SelStr s) = enhance_prompt self base (SelStr "all")
  /\ (forall bs s',
        blocks self
          ["time"; "system"; "network"; "locale"; "timezone"; "performance";
           "hardware"; "users"; "network_traffic"; "ports"; "processes";
           "filesystem"; "services"] w st = (Ret bs, s') ->
        length bs = 13
        /\ enhance_prompt self base (SelStr s) w st =
             (Ret match concat bs with
                  | [] => base
                  | _ :: _ =>
                      base +:+ nl +:+ nl +:+
                      "Here is real-time information you can use if relevant:" +:+ nl +:+
                      join nl (concat bs) +:+ nl +:+ nl +:+ "The email is:"
                  end, s')
        /\ (forall i k, all_enhancements !! i = Some k ->
              exists b si si',
                blocks self (take i all_enhancements) w st = (Ret (take i bs), si)
                /\ sections_of self k w si = (Ret b, si')
                /\ bs !! i = Some b))
  /\ (forall e s',
        blocks self all_enhancements w st = (Raise e, s') ->
        enhance_prompt self base (SelStr s) w st = (Raise e, s')).
Proof.
  intros _ Hsub. apply contains_spec in Hsub.
  assert (enhancements_to_apply (SelStr s) = all_enhancements) as E.
  { cbn [enhancements_to_apply]. rewrite Hsub. by rewrite orb_true_r. }
  destruct (enhance_prompt_blocks self base (SelStr s) w st) as (Hret & Hraise).
  rewrite E in Hret, Hraise. rewrite E.
  split; [done|]. split; [done|]. split; [|split; [|exact Hraise]].
  - unfold enhance_prompt. rewrite E. done.
  - intros bs s' Hbs. change (blocks self all_enhancements w st = (Ret bs, s')) in Hbs.
    destruct (blocks_at _ _ _ _ _ _ Hbs) as (Hlen & Hat).
    split; [exact Hlen|]. split; [by apply Hret | exact Hat].
Qed.

Lemma substring_all_selects_catalog_witness :
  (enhancements_to_apply (SelStr "install") = all_enhancements
   /\ length (enhancements_to_apply (SelStr "install")) = 13
   /\ enhance_prompt enhancer "Answer politely." (SelStr "install")
      = enhance_prompt enhancer "Answer politely." (SelStr "all"))
  /\ enhancements_to_apply (SelStr "ball") = all_enhancements
  /\ enhance_prompt enhancer "Answer politely." (SelStr "install")
       (fun _ => workstation) start
     = (Ret ("Answer politely." +:+ nl +:+ nl +:+
             "Here is real-time information you can use if relevant:" +:+ nl +:+
             join nl
               ["Current time: Monday, 02 March 2026 10:15:00 (UTC)";
                "UTC time: 2026-03-02 10:15:00 UTC";
                "System: Linux 6.8.0-45-generic";
                "CPU: Intel(R) Core(TM) i7-8650U CPU @ 1.90GHz (8 cores, 12.5% usage)";
                "RAM: 16.11GB total, 41.5% used";
                "Disk: 465.76GB total, 24.5% used";
                "System uptime: 1 days, 0 hours, 0 minutes";
                "Network: IP 192.168.1.20, hostname marechan";
                "Network interfaces: lo, eth0";
                "Internet connection: Available (latency: 0.0ms)";
                "System locale: en_US, UTF-8";
                "Currency: $";
                "Time format: 10:15:00";
                "Date format: 03/02/26";
                "Timezone information:";
                "  Current timezone: UTC";
                "  UTC offset: -0 hours";
                "  DST active: False";
                "System performance:";
                "  CPU load: 1min: 0.5, 5min: 0.25, 15min: 0.125";
                "  Process count: 5";
                "  Network usage: 1.44MB sent, 2.91MB received";
                "  Swap usage: 3.5%";
                "Hardware information:";
                "  Machine type: x86_64";
                "  Processor: x86_64";
                "  BIOS version: Unknown";
                "  Boot mode: UEFI";
                "Users information:";
                "  Logged in users: 1";
                "  Current users: alice";
                "  System users: 2";
                "  User sessions: 1";
                "Network traffic:";
                "  Current download speed: 0.0 KB/s";
                "  Current upload speed: 0.0 KB/s";
                "  Total downloaded: 2.91 MB";
                "  Total uploaded: 1.44 MB";
                "  Packets received: 2900";
                "  Packets sent: 1500";
                "Open ports and connections:";
                "  Total connections: 17";
                "  Listening ports: 22, 25, 53, 80, 443, 3000, 3306, 5432, 6379, 8080";
                "    and 2 more...";
                "  Established connections: 5";
                "  Top processes using network: nginx (4), sshd (2), postgres (2), java (1), mysqld (1)";
                "Process information:";
                "  Total processes: 5";
                "  Running processes: 0";
                "  Top CPU processes: nginx-worker (2.5%), nginx-worker (1.5%), nginx-main (0.2%)";
                "  Top memory processes: nginx-worker (0.5%), nginx-worker (0.5%), nginx-main (0.2%), systemd (0.1%), bash (0.1%)";
                "Filesystem information:";
                "  /dev/sda1: /, ext4, 465.76GB total, 24.5% used";
                "  Total file operations: 1200 reads, 3400 writes";
                "System services:";
                "  Running services: 4";
                "  Critical services: cron, nginx"] +:+ nl +:+ nl +:+
             "The email is:"), {| clock := 3; files := ∅ |}).
Proof.
  destruct (substring_all_selects_catalog enhancer "Answer politely." "install"
              (fun _ => workstation) start)
    as (E1 & E2 & E3 & Hblocks & _).
  { discriminate. }
  { exists "inst", "". reflexivity. }
  split; [by repeat split|]. split.
  - apply (substring_all_selects_catalog enhancer "Answer politely." "ball"
             (fun _ => workstation) start).
    + discriminate.
    + exists "b", "". reflexivity.
  - eassert (blocks enhancer all_enhancements (fun _ => workstation) start
             = (Ret _, _)) as Hbs by (vm_compute; reflexivity).
    destruct (Hblocks _ _ Hbs) as (_ & Hp & _). rewrite Hp.
    vm_compute. reflexivity.
Defined.

(** A str without ["all"] inside is gone through character by character,
    and no character is a kind. *)
Lemma str_selection_without_all self s w st :
  contains "all" s = false ->
  enhancements_to_apply (SelStr s) = chars s
  /\ collect_sections self (chars s) w st = (Ret [], st).
Proof.
  intros Hc. split.
  - cbn [enhancements_to_apply]. rewrite Hc, orb_false_r.
    destruct (String.eqb_spec s "all") as [->|_]; [discriminate Hc | done].
  - apply collect_sections_unknown. intros k Hk.
    unfold chars in Hk. apply list_elem_of_fmap in Hk as (c & -> & _).
    unfold all_enhancements. intros Hin.
    repeat (apply elem_of_cons in Hin as [Hin|Hin]; [discriminate Hin|]).
    by apply elem_of_nil in Hin.
Qed.

(** C2: when the loop has produced lines, the prompt returned is the base
    prompt, an empty line, the header, the lines one per line, an empty
    line and the trailer; when it has produced none, the base prompt is
    returned as it is, which is the case of the empty selection and of a
    selection of unknown tokens only. *)
Theorem enhance_prompt_assembly self base sel w s :
  (forall lines s',
      collect_sections self (enhancements_to_apply sel) w s = (Ret lines, s') ->
      lines <> [] ->
      enhance_prompt self base sel w s =
        (Ret (base +:+ nl +:+ nl +:+
              "Here is real-time information you can use if relevant:" +:+ nl +:+
              join nl lines +:+ nl +:+ nl +:+ "The email is:"), s'))
  /\ (forall s',
      collect_sections self (enhancements_to_apply sel) w s = (Ret [], s') ->
      enhance_prompt self base sel w s = (Ret base, s'))
  /\ enhance_prompt self base (SelList []) w s = (Ret base, s)
  /\ (forall l,
      (forall k, k ∈ l -> (k ∉ all_enhancements) /\ k <> "all") ->
      enhance_prompt self base (SelList l) w s = (Ret base, s)).
Proof.
  split; [|split; [|split]].
  - intros lines s' Hrun Hne. unfold enhance_prompt. rewrite run_bind, Hrun.
    destruct lines; [done | reflexivity].
  - intros s' Hrun. unfold enhance_prompt. by rewrite run_bind, Hrun.
  - reflexivity.
  - intros l Hl. unfold enhance_prompt. rewrite run_bind.
    assert (enhancements_to_apply (SelList l) = l) as ->.
    { cbn [enhancements_to_apply].
      assert (in_list "all" l = false) as ->; [|done].
      apply in_list_false. intros Hin. by destruct (Hl _ Hin). }
    rewrite collect_sections_unknown; [done|]. intros k Hk. by destruct (Hl k Hk).
Qed.

Lemma enhance_prompt_assembly_witness :
  enhance_prompt enhancer "Answer politely." (SelList ["time"]) (fun _ => workstation) start
    = (Ret ("Answer politely." +:+ nl +:+ nl +:+
            "Here is real-time information you can use if relevant:" +:+ nl +:+
            join nl ["Current time: Monday, 02 March 2026 10:15:00 (UTC)";
                     "UTC time: 2026-03-02 10:15:00 UTC"] +:+ nl +:+ nl +:+
            "The email is:"), start)
  /\ enhance_prompt enhancer "Answer politely." (SelList ["weather"; "Time"; ""])
       (fun _ => workstation) start
     = (Ret "Answer politely.", start).
Proof.
  destruct (enhance_prompt_assembly enhancer "Answer politely." (SelList ["time"])
              (fun _ => workstation) start) as (Hsome & _).
  destruct (enhance_prompt_assembly enhancer "Answer politely." (SelList [])
              (fun _ => workstation) start) as (_ & _ & _ & Hunknown).
  split.
  - apply Hsome; [reflexivity | discriminate].
  - apply Hunknown. intros k Hk. apply list_elem_of_In in Hk. cbn in Hk.
    repeat destruct Hk as [<-|Hk]; try contradiction;
      (split; [|discriminate]); intros Hin; apply list_elem_of_In in Hin;
      vm_compute in Hin; repeat destruct Hin as [Hin|Hin]; try discriminate Hin;
      exact Hin.
Defined.

(** C8: a list without ["all"] is gone through as the caller wrote it:
    the probe of each element is called once for each occurrence, in the
    order of the list, and the enriched prompt holds the blocks one after
    the other in that order, so that an element at two places of the
    selection has its block at the two corresponding places of the
    prompt. *)
Theorem duplicates_repeat_blocks self base (l : list string) w s :
  "all" ∉ l ->
  enhancements_to_apply (SelList l) = l
  /\ collect_sections self (enhancements_to_apply (SelList l)) w s
     = (let* bs := blocks self l in ret (concat bs)) w s
  /\ (forall bs s', blocks self l w s = (Ret bs, s') ->
        length bs = length l
        /\ collect_sections self (enhancements_to_apply (SelList l)) w s
           = (Ret (concat bs), s')
        /\ enhance_prompt self base (SelList l) w s =
             (Ret match concat bs with
                  | [] => base
                  | _ :: _ =>
                      base +:+ nl +:+ nl +:+
                      "Here is real-time information you can use if relevant:" +:+ nl +:+
                      join nl (concat bs) +:+ nl +:+ nl +:+ "The email is:"
                  end, s')
        /\ (forall i j k, (i < j)%nat -> l !! i = Some k -> l !! j = Some k ->
              exists bi si si' bj sj sj',
                blocks self (take i l) w s = (Ret (take i bs), si)
                /\ sections_of self k w si = (Ret bi, si')
                /\ bs !! i = Some bi
                /\ blocks self (take j l) w s = (Ret (take j bs), sj)
                /\ sections_of self k w sj = (Ret bj, sj')
                /\ bs !! j = Some bj))
  /\ (forall e s', blocks self l w s = (Raise e, s') ->
        enhance_prompt self base (SelList l) w s = (Raise e, s')).
Proof.
  intros Hnot.
  assert (enhancements_to_apply (SelList l) = l) as E.
  { cbn [enhancements_to_apply]. apply in_list_false in Hnot. by rewrite Hnot. }
  destruct (enhance_prompt_blocks self base (SelList l) w s) as (Hret & Hraise).
  rewrite E in Hret, Hraise. rewrite E.
  split; [done|]. split; [apply collect_sections_blocks|]. split; [|exact Hraise].
  intros bs s' Hbs. destruct (blocks_at _ _ _ _ _ _ Hbs) as (Hlen & Hat).
  split; [exact Hlen|]. split; [|split; [by apply Hret|]].
  - by rewrite collect_sections_blocks, run_bind, Hbs.
  - intros i j k _ Hi Hj.
    destruct (Hat i k Hi) as (bi & si & si' & H1 & H2 & H3).
    destruct (Hat j k Hj) as (bj & sj & sj' & H4 & H5 & H6).
    by exists bi, si, si', bj, sj, sj'.
Qed.

Lemma duplicates_repeat_blocks_witness :
  enhancements_to_apply (SelList ["time"; "bogus"; "time"]) = ["time"; "bogus"; "time"]
  /\ collect_sections enhancer ["time"; "bogus"; "time"] (fun _ => workstation) start
     = (Ret ["Current time: Monday, 02 March 2026 10:15:00 (UTC)";
             "UTC time: 2026-03-02 10:15:00 UTC";
             "Current time: Monday, 02 March 2026 10:15:00 (UTC)";
             "UTC time: 2026-03-02 10:15:00 UTC"], start)
  /\ enhance_prompt enhancer "Answer politely." (SelList ["time"; "bogus"; "time"])
       (fun _ => workstation) start
     = (Ret ("Answer politely." +:+ nl +:+ nl +:+
             "Here is real-time information you can use if relevant:" +:+ nl +:+
             "Current time: Monday, 02 March 2026 10:15:00 (UTC)" +:+ nl +:+
             "UTC time: 2026-03-02 10:15:00 UTC" +:+ nl +:+
             "Current time: Monday, 02 March 2026 10:15:00 (UTC)" +:+ nl +:+
             "UTC time: 2026-03-02 10:15:00 UTC" +:+ nl +:+ nl +:+
             "The email is:"), start).
Proof.
  assert ("all" ∉ ["time"; "bogus"; "time"]) as Hnot.
  { intros H. apply list_elem_of_In in H. vm_compute in H.
    repeat destruct H as [H|H]; try discriminate H. exact H. }
  destruct (duplicates_repeat_blocks enhancer "Answer politely."
              ["time"; "bogus"; "time"] (fun _ => workstation) start Hnot)
    as (E & _ & Hblocks & _).
  split; [exact E|].
  destruct (Hblocks
              [["Current time: Monday, 02 March 2026 10:15:00 (UTC)";
                "UTC time: 2026-03-02 10:15:00 UTC"];
               [];
               ["Current time: Monday, 02 March 2026 10:15:00 (UTC)";
                "UTC time: 2026-03-02 10:15:00 UTC"]] start) as (_ & Hc & Hp & _).
  - reflexivity.
  - rewrite E in Hc. split; [exact Hc|]. rewrite Hp. vm_compute. reflexivity.
Defined.

(** ** Numbers *)

(** Steps of a run: the binds are taken one at a time and the answers of
    the host are read at the current instant. *)
Ltac run_step :=
  rewrite ?run_bind, ?run_ret, ?run_call, ?run_attr, ?run_lift, ?run_tick;
  cbn [clock files fst snd].

(** An inner [try] whose handler cannot fail is replaced by its result. *)
Ltac run_inner_try :=
  match goal with
  | |- context [try_except ?c ?h ?w ?s] =>
      let a := fresh "a" in
      let s2 := fresh "s" in
      let E := fresh "E" in
      destruct (try_returns c h w s) as (a & s2 & E);
      [intros; rewrite ?run_ret; eauto | rewrite E]
  end.

(** C4: with the counters at sent = 1,000,000 and received = 2,000,000
    bytes at the first reading and at sent = 1,512,000 and received =
    3,048,000 bytes at the reading one tick later, the probe returns
    download_speed = round((3,048,000 - 2,000,000) / 1024, 2), which is the
    float 1023.44, and upload_speed = round((1,512,000 - 1,000,000) / 1024,
    2), which is 500.0. *)
Theorem traffic_speeds self w s io1 io2 :
  net_io_counters (w (clock s)) = Ret io1 ->
  net_io_counters (w (S (clock s))) = Ret io2 ->
  bytes_sent io1 = 1000000%Z -> bytes_recv io1 = 2000000%Z ->
  bytes_sent io2 = 1512000%Z -> bytes_recv io2 = 3048000%Z ->
  exists r s',
    get_network_traffic self w s = (Ret (Some r), s')
    /\ tr_download_speed r = round2 (truediv (3048000 - 2000000) 1024)
    /\ tr_download_speed r = 0x1.ffb851eb851ecp+9%float
    /\ repr_float (tr_download_speed r) = "1023.44"
    /\ tr_upload_speed r = round2 (truediv (1512000 - 1000000) 1024)
    /\ tr_upload_speed r = 500%float
    /\ repr_float (tr_upload_speed r) = "500.0".
Proof.
  intros H1 H2 Hs1 Hr1 Hs2 Hr2.
  unfold get_network_traffic. rewrite run_try.
  repeat run_step. rewrite H1. repeat run_step. rewrite H2. repeat run_step.
  run_inner_try. repeat run_step.
  eexists _, _. split; [reflexivity|].
  cbn [tr_download_speed tr_upload_speed]. rewrite Hs1, Hr1, Hs2, Hr2.
  repeat split; vm_compute; reflexivity.
Qed.

Lemma traffic_speeds_witness :
  exists r s',
    get_network_traffic enhancer busy_workstation start = (Ret (Some r), s')
    /\ tr_download_speed r = round2 (truediv (3048000 - 2000000) 1024)
    /\ tr_download_speed r = 0x1.ffb851eb851ecp+9%float
    /\ repr_float (tr_download_speed r) = "1023.44"
    /\ tr_upload_speed r = round2 (truediv (1512000 - 1000000) 1024)
    /\ tr_upload_speed r = 500%float
    /\ repr_float (tr_upload_speed r) = "500.0".
Proof.
  apply (traffic_speeds enhancer busy_workstation start
           {| bytes_sent := 1000000; bytes_recv := 2000000;
              packets_sent := 1000; packets_recv := 2000 |}
           {| bytes_sent := 1512000; bytes_recv := 3048000;
              packets_sent := 1500; packets_recv := 2900 |});
    reflexivity.
Defined.

(** [round_half_even p q] is an integer nearest to [p/q]. *)
Lemma round_half_even_nearest (p q : Z) :
  (0 < q)%Z ->
  (2 * Z.abs (p - round_half_even p q * q) <= q)%Z.
Proof.
  intros Hq. unfold round_half_even.
  pose proof (Z.div_mod p q ltac:(lia)) as Hdm.
  pose proof (Z.mod_pos_bound p q Hq) as Hr.
  destruct (Z.ltb_spec (2 * (p mod q)) q);
    [|destruct (Z.ltb_spec q (2 * (p mod q)));
      [|destruct (Z.even (p / q))]]; nia.
Qed.

(** What [round(x, 2)] is for a float [x = m * 2^e] with fractional bits:
    the float nearest to [n/100], for an integer [n] of hundredths within
    half a hundredth of [x]. *)
Lemma round2_hundredths (x : float) neg m e :
  Prim2SF x = S754_finite neg m e ->
  (e < 0)%Z ->
  exists n : Z,
    round2 x = with_sign neg (float_of_ratio n 100)
    /\ (2 * Z.abs (100 * Z.pos m - n * 2 ^ (- e)) <= 2 ^ (- e))%Z.
Proof.
  intros Hx He. unfold round2. rewrite Hx.
  destruct (Z.leb_spec 0 e); [lia|].
  eexists. split; [reflexivity|].
  apply round_half_even_nearest. apply Z.pow_pos_nonneg; lia.
Qed.

(** Taking a run apart: binds are stepped, and every answer of the host,
    every test and every pair is split in its cases. *)
Ltac run_simp H :=
  repeat (progress
    (rewrite ?run_try, ?run_bind, ?run_ret, ?run_call, ?run_attr, ?run_lift,
             ?run_tick in H;
     cbn [clock files fst snd] in H)).

Ltac run_case H :=
  match type of H with
  | context [match ?o with Ret _ => _ | Raise _ => _ end] => destruct o eqn:?
  | context [match ?o with Some _ => _ | None => _ end] => destruct o eqn:?
  | context [if ?b then _ else _] => destruct b eqn:?
  | context [let (_, _) := ?p in _] => destruct p eqn:?
  end.

Ltac run_inv H := repeat (run_simp H; try discriminate H; try run_case H).

Lemma system_info_fields self w s r s' :
  get_system_info self w s = (Ret (Some r), s') ->
  exists cpu memory disk,
    cpu_percent (w (S (clock s))) = Ret cpu
    /\ virtual_memory (w (S (clock s))) = Ret memory
    /\ disk_usage (w (S (clock s))) "/" = Ret disk
    /\ si_memory_gb r = round2 (truediv (vm_total memory) (1024 ^ 3))
    /\ si_disk_total r = round2 (truediv (du_total disk) (1024 ^ 3))
    /\ si_cpu r = cpu
    /\ si_memory r = vm_percent memory
    /\ si_disk_percent r = du_percent disk.
Proof.
  intros H. apply guarded_some in H. run_inv H.
  all: injection H as <- <-; eexists _, _, _; repeat split; eauto.
Qed.

Lemma performance_fields self w s r s' :
  get_performance_metrics self w s = (Ret (Some r), s') ->
  exists net_io swap,
    net_io_counters (w (clock s)) = Ret net_io
    /\ swap_memory_percent (w (clock s)) = Ret swap
    /\ pf_network_sent r = round2 (truediv (bytes_sent net_io) (1024 ^ 2))
    /\ pf_network_recv r = round2 (truediv (bytes_recv net_io) (1024 ^ 2))
    /\ pf_swap_percent r = swap.
Proof.
  intros H. apply guarded_some in H. run_inv H.
  all: injection H as <- <-; eexists _, _; repeat split; eauto.
Qed.

Lemma add_interface_rounded pernic items acc :
  (forall item, item ∈ items -> item ∈ pernic) ->
  Forall (interface_rounded pernic) acc ->
  Forall (interface_rounded pernic) (fold_left add_interface items acc).
Proof.
  revert acc. induction items as [|[iface stats] items IH]; intros acc Hsub Hacc;
    cbn [fold_left]; [done|].
  apply IH; [intros; apply Hsub; set_solver|].
  unfold add_interface. apply Forall_app. split; [done|].
  constructor; [|constructor].
  exists stats. cbn. split; [apply Hsub; set_solver | done].
Qed.

Lemma traffic_fields self w s r s' :
  get_network_traffic self w s = (Ret (Some r), s') ->
  exists net_io1 net_io2,
    net_io_counters (w (clock s)) = Ret net_io1
    /\ net_io_counters (w (S (clock s))) = Ret net_io2
    /\ tr_download_speed r
       = round2 (truediv (bytes_recv net_io2 - bytes_recv net_io1) 1024)
    /\ tr_upload_speed r
       = round2 (truediv (bytes_sent net_io2 - bytes_sent net_io1) 1024)
    /\ tr_total_sent r = round2 (truediv (bytes_sent net_io2) (1024 * 1024))
    /\ tr_total_received r = round2 (truediv (bytes_recv net_io2) (1024 * 1024))
    /\ (forall pernic,
          net_io_counters_pernic (w (S (clock s))) = Ret pernic ->
          Forall (interface_rounded pernic) (tr_interfaces r)).
Proof.
  intros H. apply guarded_some in H. run_inv H.
  all: injection H as <- <-; eexists _, _; repeat split; eauto.
  intros pernic Hp. cbn [tr_interfaces]. injection Hp as <-.
  apply add_interface_rounded; [done | constructor].
Qed.

Lemma add_partition_keeps (P : disk_info -> Prop) w s partitions disks :
  (forall partition usage,
      disk_usage (w (clock s)) (part_mountpoint partition) = Ret usage ->
      P {| dk_device := part_device partition;
           dk_mountpoint := part_mountpoint partition;
           dk_fstype := part_fstype partition;
           dk_total_gb := round2 (truediv (du_total usage) (1024 ^ 3));
           dk_used_gb := round2 (truediv (du_used usage) (1024 ^ 3));
           dk_percent := du_percent usage |}) ->
  Forall P disks ->
  exists disks',
    for_each partitions disks add_partition w s = (Ret disks', s)
    /\ Forall P disks'.
Proof.
  intros HP. revert disks.
  induction partitions as [|partition partitions IH]; intros disks Hd;
    cbn [for_each].
  - rewrite run_ret. eauto.
  - rewrite run_bind. unfold add_partition at 1.
    rewrite run_try, run_bind, run_call.
    destruct (disk_usage (w (clock s)) (part_mountpoint partition)) as [usage|e] eqn:E;
      rewrite run_ret.
    + apply IH. apply Forall_app. split; [done|]. constructor; [|constructor].
      by apply HP.
    + by apply IH.
Qed.

Lemma filesystem_fields self w s r s' :
  get_filesystem_info self w s = (Ret (Some r), s') ->
  Forall (disk_rounded (w (clock s))) (fs_disks r).
Proof.
  intros H. apply guarded_some in H. run_simp H.
  destruct (disk_partitions (w (clock s))) as [partitions|e]; [|discriminate H].
  run_simp H.
  destruct (add_partition_keeps (disk_rounded (w (clock s))) w s partitions [])
    as (disks & E & Hdisks).
  - intros partition usage Hu. exists usage. cbn. done.
  - constructor.
  - rewrite E in H. run_inv H. all: by injection H as <- <-.
Qed.

(** C7: every field computed from a byte count (memory and disk totals in
    GB, bytes sent and received in MB, the sizes of each interface and of
    each disk) is [round(bytes / 1024**k, 2)], a float nearest to a whole
    number of hundredths; every percentage (CPU, memory, disk, swap, each
    disk) is the float the host reported, as it is. *)
Theorem byte_counts_rounded_percentages_unrounded self w s :
  (forall r s', get_system_info self w s = (Ret (Some r), s') ->
     exists cpu memory disk,
       cpu_percent (w (S (clock s))) = Ret cpu
       /\ virtual_memory (w (S (clock s))) = Ret memory
       /\ disk_usage (w (S (clock s))) "/" = Ret disk
       /\ si_memory_gb r = round2 (truediv (vm_total memory) (1024 ^ 3))
       /\ si_disk_total r = round2 (truediv (du_total disk) (1024 ^ 3))
       /\ si_cpu r = cpu
       /\ si_memory r = vm_percent memory
       /\ si_disk_percent r = du_percent disk)
  /\ (forall r s', get_performance_metrics self w s = (Ret (Some r), s') ->
     exists net_io swap,
       net_io_counters (w (clock s)) = Ret net_io
       /\ swap_memory_percent (w (clock s)) = Ret swap
       /\ pf_network_sent r = round2 (truediv (bytes_sent net_io) (1024 ^ 2))
       /\ pf_network_recv r = round2 (truediv (bytes_recv net_io) (1024 ^ 2))
       /\ pf_swap_percent r = swap)
  /\ (forall r s', get_network_traffic self w s = (Ret (Some r), s') ->
     exists net_io1 net_io2,
       net_io_counters (w (clock s)) = Ret net_io1
       /\ net_io_counters (w (S (clock s))) = Ret net_io2
       /\ tr_download_speed r
          = round2 (truediv (bytes_recv net_io2 - bytes_recv net_io1) 1024)
       /\ tr_upload_speed r
          = round2 (truediv (bytes_sent net_io2 - bytes_sent net_io1) 1024)
       /\ tr_total_sent r = round2 (truediv (bytes_sent net_io2) (1024 * 1024))
       /\ tr_total_received r = round2 (truediv (bytes_recv net_io2) (1024 * 1024))
       /\ (forall pernic,
             net_io_counters_pernic (w (S (clock s))) = Ret pernic ->
             Forall (interface_rounded pernic) (tr_interfaces r)))
  /\ (forall r s', get_filesystem_info self w s = (Ret (Some r), s') ->
     Forall (disk_rounded (w (clock s))) (fs_disks r))
  /\ (forall x neg m e,
     Prim2SF x = S754_finite neg m e -> (e < 0)%Z ->
     exists n : Z,
       round2 x = with_sign neg (float_of_ratio n 100)
       /\ (2 * Z.abs (100 * Z.pos m - n * 2 ^ (- e)) <= 2 ^ (- e))%Z).
Proof.
  split; [|split; [|split; [|split]]].
  - apply system_info_fields.
  - apply performance_fields.
  - apply traffic_fields.
  - apply filesystem_fields.
  - apply round2_hundredths.
Qed.

Lemma byte_counts_rounded_witness :
  exists r s',
    get_system_info enhancer (fun _ => workstation) start = (Ret (Some r), s')
    /\ si_memory_gb r = round2 (truediv (16 * 1024 ^ 3 + 123456789) (1024 ^ 3))
    /\ repr_float (si_memory_gb r) = "16.11"
    /\ si_disk_total r = round2 (truediv 500107862016 (1024 ^ 3))
    /\ repr_float (si_disk_total r) = "465.76"
    /\ si_cpu r = 12.5%float
    /\ si_memory r = 41.5%float
    /\ si_disk_percent r = 24.5%float.
Proof.
  destruct (byte_counts_rounded_percentages_unrounded enhancer (fun _ => workstation) start)
    as (Hsys & _).
  eassert (get_system_info enhancer (fun _ => workstation) start
           = (Ret (Some _), _)) as E by (vm_compute; reflexivity).
  destruct (Hsys _ _ E)
    as (cpu & memory & disk & Hc & Hm & Hd & Hmem & Hdisk & Hcpu & Hmp & Hdp).
  eexists _, _. split; [exact E|].
  cbn in Hc, Hm, Hd. injection Hc as <-. injection Hm as <-. injection Hd as <-.
  repeat split; first [exact Hmem | exact Hdisk | exact Hcpu | exact Hmp | exact Hdp
                      | vm_compute; reflexivity].
Defined.

(** ** sorted() *)

Lemma insert_by_perm {A} (before : A -> A -> bool) x l :
  insert_by before x l ≡ₚ x :: l.
Proof.
  induction l as [|y l IH]; cbn; [done|].
  destruct (before x y); [done|]. rewrite IH. apply Permutation_swap.
Qed.

Lemma sorted_by_acc_perm {A} (before : A -> A -> bool) l acc :
  fold_left (fun acc x => insert_by before x acc) l acc ≡ₚ acc ++ l.
Proof.
  revert acc. induction l as [|x l IH]; intros acc; cbn.
  - by rewrite app_nil_r.
  - rewrite IH, insert_by_perm. cbn. apply Permutation_middle.
Qed.

(** Sorting rearranges: nothing is lost and nothing is added. *)
Lemma sorted_by_perm {A} (before : A -> A -> bool) l : sorted_by before l ≡ₚ l.
Proof. unfold sorted_by. by rewrite sorted_by_acc_perm. Qed.

Lemma insert_ltb_sorted x l :
  StronglySorted Z.le l -> StronglySorted Z.le (insert_by Z.ltb x l).
Proof.
  induction 1 as [|y l Hl IH Hy]; cbn.
  - repeat constructor.
  - destruct (Z.ltb_spec x y).
    + constructor; [by constructor|]. constructor; [lia|].
      eapply Forall_impl; [exact Hy|]. cbn. lia.
    + constructor; [done|]. rewrite insert_by_perm. constructor; [lia | done].
Qed.

Lemma sorted_acc_sorted l acc :
  StronglySorted Z.le acc ->
  StronglySorted Z.le (fold_left (fun acc x => insert_by Z.ltb x acc) l acc).
Proof.
  revert acc. induction l as [|x l IH]; intros acc Hacc; cbn; [done|].
  apply IH. by apply insert_ltb_sorted.
Qed.

(** [sorted(l)] is ascending. *)
Lemma sorted_ascending l : StronglySorted Z.le (sorted l).
Proof. apply sorted_acc_sorted. constructor. Qed.

Lemma sorted_perm l : sorted l ≡ₚ l.
Proof. apply sorted_by_perm. Qed.

(** ** The ports probe *)

Lemma count_connection_keys name d :
  map fst (count_connection name d)
  = if bool_decide (name ∈ map fst d) then map fst d else map fst d ++ [name].
Proof.
  induction d as [|[k v] d IH]; cbn.
  - rewrite bool_decide_eq_false_2; [done | apply not_elem_of_nil].
  - destruct (String.eqb_spec k name) as [->|Hne]; cbn.
    + rewrite bool_decide_eq_true_2; [done | apply list_elem_of_here].
    + rewrite IH. destruct (bool_decide (name ∈ map fst d)) eqn:E.
      * apply bool_decide_eq_true in E.
        rewrite bool_decide_eq_true_2; [done | by apply list_elem_of_further].
      * apply bool_decide_eq_false in E.
        rewrite bool_decide_eq_false_2; [done|].
        intros Hin. apply elem_of_cons in Hin as [->|Hin]; done.
Qed.

Lemma count_connection_nodup name d :
  NoDup (map fst d) -> NoDup (map fst (count_connection name d)).
Proof.
  intros Hd. rewrite count_connection_keys. case_bool_decide; [done|].
  apply NoDup_app. split; [done|]. split; [|apply NoDup_singleton].
  intros x Hx Hx'. apply list_elem_of_singleton in Hx' as ->. done.
Qed.

Lemma count_connection_elem name d n :
  n ∈ map fst (count_connection name d) <-> n ∈ map fst d \/ n = name.
Proof.
  rewrite count_connection_keys. case_bool_decide.
  - split; [by left | intros [?| ->]; done].
  - rewrite elem_of_app, list_elem_of_singleton. done.
Qed.

Lemma listen_ports_cons conn conns :
  listen_ports (conn :: conns)
  = if String.eqb (conn_status conn) "LISTEN"
    then conn_laddr_port conn :: listen_ports conns
    else listen_ports conns.
Proof.
  unfold listen_ports. rewrite filter_cons.
  destruct (String.eqb_spec (conn_status conn) "LISTEN") as [E|E];
    case_decide; done.
Qed.

Lemma owners_cons h conn conns :
  owners h (conn :: conns)
  = match owner h conn with
    | Some name => name :: owners h conns
    | None => owners h conns
    end.
Proof. reflexivity. Qed.

(** The loop over the connections returns, leaves the state as it is, and
    finds the distinct listening ports and the distinct owners. *)
Lemma scan_connections w s conns lp est pc :
  NoDup lp -> NoDup (map fst pc) ->
  exists lp' est' pc',
    for_each conns (lp, est, pc) scan_connection w s = (Ret (lp', est', pc'), s)
    /\ NoDup lp'
    /\ (forall p, p ∈ lp' <-> p ∈ lp \/ p ∈ listen_ports conns)
    /\ NoDup (map fst pc')
    /\ (forall n, n ∈ map fst pc' <-> n ∈ map fst pc \/ n ∈ owners (w (clock s)) conns).
Proof.
  revert lp est pc. induction conns as [|conn conns IH]; intros lp est pc Hlp Hpc.
  - cbn [for_each]. rewrite run_ret. eexists _, _, _. split; [done|].
    repeat split; try done; try tauto.
    + intros [?|H]; [done | by apply elem_of_nil in H].
    + intros [?|H]; [done | by apply elem_of_nil in H].
  - cbn [for_each]. rewrite run_bind. unfold scan_connection at 1.
    rewrite listen_ports_cons, owners_cons. unfold owner.
    set (lp1 := if String.eqb (conn_status conn) "LISTEN"
                   && negb (in_list (conn_laddr_port conn) lp)
                then lp ++ [conn_laddr_port conn] else lp).
    set (est1 := if String.eqb (conn_status conn) "ESTABLISHED"
                 then (est + 1)%Z else est).
    assert (NoDup lp1 /\
            forall p, p ∈ lp1 <->
              p ∈ lp \/ (String.eqb (conn_status conn) "LISTEN" = true
                         /\ p = conn_laddr_port conn)) as (Hlp1 & Hin1).
    { subst lp1. destruct (String.eqb (conn_status conn) "LISTEN"); cbn.
      - destruct (in_list (conn_laddr_port conn) lp) eqn:E; cbn.
        + apply in_list_true in E. split; [done|]. intros p. split; [by left|].
          intros [?|[_ ->]]; done.
        + apply in_list_false in E. split.
          * apply NoDup_app. split; [done|]. split; [|apply NoDup_singleton].
            intros x Hx Hx'. apply list_elem_of_singleton in Hx' as ->. done.
          * intros p. rewrite elem_of_app, list_elem_of_singleton. tauto.
      - split; [done|]. intros p. split; [by left | intros [?|[? _]]; done]. }
    clearbody lp1 est1.
    assert (forall pc1,
      NoDup (map fst pc1) ->
      (forall n, n ∈ map fst pc1 <->
         n ∈ map fst pc \/ owner (w (clock s)) conn = Some n) ->
      exists lp' est' pc',
        for_each conns (lp1, est1, pc1) scan_connection w s = (Ret (lp', est', pc'), s)
        /\ NoDup lp'
        /\ (forall p, p ∈ lp' <->
              p ∈ lp \/ p ∈ (if String.eqb (conn_status conn) "LISTEN"
                             then conn_laddr_port conn :: listen_ports conns
                             else listen_ports conns))
        /\ NoDup (map fst pc')
        /\ (forall n, n ∈ map fst pc' <->
              n ∈ map fst pc \/
              n ∈ match owner (w (clock s)) conn with
                  | Some name => name :: owners (w (clock s)) conns
                  | None => owners (w (clock s)) conns
                  end)) as Hrest.
    { intros pc1 Hpc1 Hin_pc1.
      destruct (IH lp1 est1 pc1 Hlp1 Hpc1) as (lp' & est' & pc' & E & Hn & Hp & Hn' & Ho).
      exists lp', est', pc'. split; [done|]. split; [done|]. split; [|split; [done|]].
      - intros p. rewrite Hp, Hin1.
        destruct (String.eqb (conn_status conn) "LISTEN");
          rewrite ?elem_of_cons; intuition congruence.
      - intros n. rewrite Ho, Hin_pc1.
        destruct (owner (w (clock s)) conn) as [name|];
          rewrite ?elem_of_cons; intuition congruence. }
    unfold owner in Hrest.
    destruct (conn_pid conn) as [pid|]; [destruct (Z.eqb_spec pid 0)|];
      cbn [negb]; cbv iota.
    + repeat run_step. apply Hrest; [done|]. intros nm. intuition congruence.
    + rewrite run_bind, run_try, run_bind, run_call.
      destruct (process_name (w (clock s)) pid) as [name|e]; repeat run_step.
      * apply Hrest; [by apply count_connection_nodup|].
        intros nm. rewrite count_connection_elem. intuition congruence.
      * apply Hrest; [done|]. intros nm. intuition congruence.
    + repeat run_step. apply Hrest; [done|]. intros nm. intuition congruence.
Qed.

Lemma fold_left_snoc_map {A B} (f : A -> B) l acc :
  fold_left (fun acc item => acc ++ [f item]) l acc = acc ++ map f l.
Proof.
  revert acc. induction l as [|x l IH]; intros acc; cbn.
  - by rewrite app_nil_r.
  - by rewrite IH, <- app_assoc.
Qed.

(** What the ports probe returns, by the loop over the connections. *)
Lemma ports_result self w s r s' conns :
  net_connections (w (clock s)) = Ret conns ->
  get_open_ports self w s = (Ret (Some r), s') ->
  exists lp pc,
    NoDup lp
    /\ (forall p, p ∈ lp <-> p ∈ listen_ports conns)
    /\ NoDup (map fst pc)
    /\ (forall n, n ∈ map fst pc <-> n ∈ owners (w (clock s)) conns)
    /\ po_top_processes r = map top_process_entry (take 5 (sorted_desc snd pc))
    /\ (lp <> [] -> po_listening_ports r = sorted lp)
    /\ (exists l, po_listening_ports r = sorted l).
Proof.
  intros Hconns H. apply guarded_some in H. run_simp H. rewrite Hconns in H.
  run_simp H.
  destruct (scan_connections w s conns [] 0%Z []) as
    (lp & est & pc & E & Hlp & Hports & Hpc & Hown); [constructor..|].
  rewrite E in H. exists lp, pc.
  assert (forall p, p ∈ lp <-> p ∈ listen_ports conns) as Hports'.
  { intros p. rewrite Hports. split; [intros [H0|?]; [by apply elem_of_nil in H0|done]
                                     | by right]. }
  assert (forall n, n ∈ map fst pc <-> n ∈ owners (w (clock s)) conns) as Hown'.
  { intros n. rewrite Hown. split; [intros [H0|?]; [by apply elem_of_nil in H0|done]
                                     | by right]. }
  repeat (split; [done|]).
  rewrite fold_left_snoc_map in H. cbn [app] in H.
  destruct lp as [|p lp]; run_inv H.
  all: injection H as <- <-; cbn [po_top_processes po_listening_ports].
  all: split; [done|]; split; [done | eauto].
Qed.

(** The rendering of a ports dict with more than ten ports and with at
    most ten. *)
Lemma ports_lines_more r :
  (10 < length (po_listening_ports r))%nat ->
  ports_lines r =
    ["Open ports and connections:";
     "  Total connections: " +:+ str_int (po_total_connections r);
     "  Listening ports: " +:+
       join ", " (map str_int (take 10 (po_listening_ports r)));
     "    and " +:+ str_int (len (po_listening_ports r) - 10) +:+ " more...";
     "  Established connections: " +:+ str_int (po_established r);
     "  Top processes using network: " +:+ join ", " (po_top_processes r)].
Proof.
  intros Hlen. unfold ports_lines.
  destruct (Z.ltb_spec 10 (len (po_listening_ports r))) as [_|Hle];
    [reflexivity | unfold len in Hle; lia].
Qed.

Lemma ports_lines_few r :
  (length (po_listening_ports r) <= 10)%nat ->
  ports_lines r =
    ["Open ports and connections:";
     "  Total connections: " +:+ str_int (po_total_connections r);
     "  Listening ports: " +:+ join ", " (map str_int (po_listening_ports r));
     "  Established connections: " +:+ str_int (po_established r);
     "  Top processes using network: " +:+ join ", " (po_top_processes r)].
Proof.
  intros Hlen. unfold ports_lines.
  destruct (Z.ltb_spec 10 (len (po_listening_ports r))) as [Hlt|_];
    [unfold len in Hlt; lia|].
  by rewrite take_ge.
Qed.

(** C5 (as amended): the dict of the ports probe holds every distinct
    listening port, in ascending order, and its rendering shows the first
    ten followed by a line "and K more..." (K = 2 for twelve ports); the
    list of top processes is cut to five entries inside the probe, so the
    dict holds at most five of them, and the rendering joins all the
    entries the dict holds. *)
Theorem ports_truncation self w s r s' conns :
  net_connections (w (clock s)) = Ret conns ->
  get_open_ports self w s = (Ret (Some r), s') ->
  (listen_ports conns <> [] ->
     po_listening_ports r ≡ₚ remove_dups (listen_ports conns))
  /\ StronglySorted Z.le (po_listening_ports r)
  /\ (length (po_listening_ports r) = 12 ->
      length (take 10 (po_listening_ports r)) = 10
      /\ ports_lines r =
         ["Open ports and connections:";
          "  Total connections: " +:+ str_int (po_total_connections r);
          "  Listening ports: " +:+
            join ", " (map str_int (take 10 (po_listening_ports r)));
          "    and 2 more...";
          "  Established connections: " +:+ str_int (po_established r);
          "  Top processes using network: " +:+ join ", " (po_top_processes r)])
  /\ length (po_top_processes r)
     = min 5 (length (remove_dups (owners (w (clock s)) conns)))
  /\ last (ports_lines r)
     = Some ("  Top processes using network: " +:+ join ", " (po_top_processes r)).
Proof.
  intros Hconns H.
  destruct (ports_result self w s r s' conns Hconns H)
    as (lp & pc & Hlp & Hports & Hpc & Hown & Htop & Hlisten & (l & Hsorted)).
  split; [|split; [|split; [|split]]].
  - intros Hne. rewrite Hlisten.
    + rewrite sorted_perm. apply NoDup_Permutation; [done | apply NoDup_remove_dups |].
      intros p. by rewrite Hports, elem_of_remove_dups.
    + intros ->. destruct (listen_ports conns) as [|p ?]; [done|].
      specialize (Hports p). rewrite elem_of_nil in Hports.
      apply Hports. apply list_elem_of_here.
  - rewrite Hsorted. apply sorted_ascending.
  - intros Hlen. split; [rewrite length_take; lia|].
    rewrite ports_lines_more by lia. unfold len. rewrite Hlen. reflexivity.
  - rewrite Htop, length_map, length_take. unfold sorted_desc.
    rewrite (Permutation_length (sorted_by_perm _ pc)).
    rewrite <- (length_map fst pc). f_equal.
    apply Permutation_length. apply NoDup_Permutation; [done | apply NoDup_remove_dups |].
    intros n. by rewrite Hown, elem_of_remove_dups.
  - destruct (le_lt_dec (length (po_listening_ports r)) 10) as [Hle|Hlt].
    + by rewrite ports_lines_few.
    + by rewrite ports_lines_more.
Qed.

Lemma ports_truncation_witness :
  exists r s',
    get_open_ports enhancer (fun _ => workstation) start = (Ret (Some r), s')
    /\ po_listening_ports r ≡ₚ remove_dups (listen_ports twelve_listeners)
    /\ po_listening_ports r
       = [22; 25; 53; 80; 443; 3000; 3306; 5432; 6379; 8080; 8443; 9090]%Z
    /\ ports_lines r =
       ["Open ports and connections:";
        "  Total connections: 17";
        "  Listening ports: 22, 25, 53, 80, 443, 3000, 3306, 5432, 6379, 8080";
        "    and 2 more...";
        "  Established connections: 5";
        "  Top processes using network: nginx (4), sshd (2), postgres (2), java (1), mysqld (1)"]
    /\ length (po_top_processes r) = 5.
Proof.
  eassert (get_open_ports enhancer (fun _ => workstation) start
           = (Ret (Some _), _)) as E by (vm_compute; reflexivity).
  destruct (ports_truncation enhancer (fun _ => workstation) start _ _ twelve_listeners
              eq_refl E) as (Hperm & _ & Hlines & _ & _).
  eexists _, _. split; [exact E|]. split; [|split; [|split]].
  - apply Hperm. discriminate.
  - reflexivity.
  - destruct Hlines as (_ & ->); reflexivity.
  - reflexivity.
Defined.

(** C5, as stated, fails on the workstation: twelve processes own
    connections, the dict of the probe keeps five entries, and no entry is
    about firefox, which owns one. *)
Lemma ports_dict_keeps_five_processes :
  exists r s',
    get_open_ports enhancer (fun _ => workstation) start = (Ret (Some r), s')
    /\ length (remove_dups (owners workstation twelve_listeners)) = 12
    /\ "firefox" ∈ owners workstation twelve_listeners
    /\ length (po_top_processes r) = 5
    /\ Forall (fun entry => contains "firefox" entry = false) (po_top_processes r)
    /\ length (po_listening_ports r) = 12
    /\ ~ (forall self w s r s' conns,
            net_connections (w (clock s)) = Ret conns ->
            get_open_ports self w s = (Ret (Some r), s') ->
            forall name, name ∈ owners (w (clock s)) conns ->
              Exists (fun entry => contains name entry = true) (po_top_processes r)).
Proof.
  eassert (get_open_ports enhancer (fun _ => workstation) start
           = (Ret (Some _), _)) as E by (vm_compute; reflexivity).
  assert ("firefox" ∈ owners workstation twelve_listeners) as Hin
    by (apply list_elem_of_In; vm_compute; tauto).
  eexists _, _. split; [exact E|].
  split; [reflexivity|]. split; [exact Hin|].
  split; [reflexivity|]. split; [repeat constructor|]. split; [reflexivity|].
  intros Hall.
  specialize (Hall enhancer (fun _ => workstation) start _ _ twelve_listeners
                eq_refl E "firefox" Hin).
  apply Exists_exists in Hall as (entry & Hentry & Hc).
  apply list_elem_of_In in Hentry. cbn in Hentry.
  repeat destruct Hentry as [<-|Hentry]; try discriminate Hc. exact Hentry.
Qed.

(** ** The services probe *)

Lemma has_critical_substring_match name :
  has_critical_substring name -> critical_match name = true.
Proof. intros (c & Hc & Hin). by eapply critical_test. Qed.

Lemma split_go_nonempty sep skip cur s :
  exists h t, split_go sep skip cur s = h :: t.
Proof.
  revert skip cur. induction s as [|c s IH]; intros skip cur; cbn; [eauto|].
  destruct skip; [destruct (startswith sep (String c s))|]; eauto.
Qed.

(** [s.split(sep)[0]] always exists. *)
Lemma split_first s sep : exists h, index (split s sep) 0 = Ret h.
Proof.
  unfold split. destruct (split_go_nonempty sep 0 [] s) as (h & t & ->).
  by exists h.
Qed.

Lemma services_classified_nil match_ : services_classified match_ [] [].
Proof. split; intros name H; by apply elem_of_nil in H. Qed.

Lemma append_if_critical_match cs name :
  append_if_critical cs name = if critical_match name then cs ++ [name] else cs.
Proof. reflexivity. Qed.

Lemma append_if_windows_critical_match cs line :
  append_if_windows_critical cs line
  = if windows_match line then cs ++ [line] else cs.
Proof. reflexivity. Qed.

Lemma services_classified_snoc (match_ : string -> bool) sv cs name :
  services_classified match_ sv cs ->
  services_classified match_ (sv ++ [name])
    (if match_ name then cs ++ [name] else cs).
Proof.
  intros [H1 H2]. split.
  - intros n Hn Hm. apply elem_of_app in Hn as [Hn|Hn].
    + destruct (match_ name); [apply elem_of_app; left|]; by apply H1.
    + apply list_elem_of_singleton in Hn as ->. rewrite Hm.
      apply elem_of_app. right. apply list_elem_of_here.
  - intros n Hn. destruct (match_ name).
    + apply elem_of_app in Hn as [Hn|Hn]; apply elem_of_app; [left; by apply H2 | by right].
    + apply elem_of_app. left. by apply H2.
Qed.

Lemma systemctl_loop w s lines sv cs count :
  services_classified critical_match sv cs ->
  exists sv' cs' count',
    for_each lines (sv, cs, Some count) systemctl_line w s
      = (Ret (sv', cs', Some count'), s)
    /\ services_classified critical_match sv' cs'.
Proof.
  revert sv cs count. induction lines as [|line lines IH]; intros sv cs count Hc;
    cbn [for_each].
  - rewrite run_ret. eauto 6.
  - rewrite run_bind. unfold systemctl_line at 1.
    destruct (contains ".service" line && contains "running" line).
    + cbn [incr_service_count]. repeat run_step.
      destruct (split_first line ".service") as (h & ->). repeat run_step.
      rewrite append_if_critical_match. apply IH.
      by apply (services_classified_snoc critical_match).
    + rewrite run_ret. by apply IH.
Qed.

(** The loop over [service --status-all] runs with [service_count]
    unbound: it raises at the first active line and appends nothing. *)
Lemma status_all_loop w s lines :
  for_each lines ([], [], None) status_all_line w s = (Ret ([], [], None), s)
  \/ exists e, for_each lines ([], [], None) status_all_line w s = (Raise e, s).
Proof.
  induction lines as [|line lines IH]; cbn [for_each].
  - left. by rewrite run_ret.
  - assert (forall vars, contains "[ + ]" line = false ->
              status_all_line vars line w s = (Ret vars, s)) as Hskip.
    { intros [[sv cs] count] E. unfold status_all_line. by rewrite E. }
    destruct (contains "[ + ]" line) eqn:E.
    + right. eexists. rewrite run_bind. unfold status_all_line. rewrite E.
      cbn [incr_service_count]. repeat run_step. reflexivity.
    + rewrite !run_bind, !Hskip by done. exact IH.
Qed.

Lemma linux_services_spec w s :
  exists sv cs,
    linux_services w s = (Ret (sv, cs), s)
    /\ services_classified critical_match sv cs.
Proof.
  unfold linux_services. rewrite run_try, run_bind, run_call.
  destruct (check_output (w (clock s)) _) as [output|e].
  - destruct (systemctl_loop w s (split output nl) [] [] 0%Z
                (services_classified_nil _)) as (sv & cs & count & E & Hc).
    rewrite run_bind, E, run_ret. cbn. eauto.
  - exists [], []. split; [|apply services_classified_nil].
    rewrite run_try, run_bind, run_call.
    destruct (check_output (w (clock s)) _) as [output|e']; [|by rewrite run_ret].
    rewrite run_bind.
    destruct (status_all_loop w s (split output nl)) as [E|[e' E]]; rewrite E;
      by rewrite run_ret.
Qed.

Lemma net_start_loop lines sv cs :
  services_classified windows_match sv cs ->
  services_classified windows_match
    (fst (fold_left net_start_line lines (sv, cs)))
    (snd (fold_left net_start_line lines (sv, cs))).
Proof.
  revert sv cs. induction lines as [|line lines IH]; intros sv cs Hc;
    cbn [fold_left]; [done|].
  assert (services_classified windows_match
            (fst (net_start_line (sv, cs) line))
            (snd (net_start_line (sv, cs) line))) as Hstep.
  { unfold net_start_line.
    destruct (truthy (strip line) && negb (startswith "The following" (strip line))
              && negb (startswith "The command" (strip line))); cbn [fst snd]; [|done].
    rewrite append_if_windows_critical_match.
    by apply (services_classified_snoc windows_match). }
  destruct (net_start_line (sv, cs) line) as [sv1 cs1]. by apply IH.
Qed.

Lemma windows_services_spec w s :
  exists sv cs,
    windows_services w s = (Ret (sv, cs), s)
    /\ services_classified windows_match sv cs.
Proof.
  unfold windows_services. rewrite run_try, run_bind, run_call.
  destruct (check_output (w (clock s)) _) as [output|e]; rewrite run_ret.
  - destruct (fold_left net_start_line (split output nl) ([], [])) as [sv cs] eqn:E.
    exists sv, cs. split; [done|].
    pose proof (net_start_loop (split output nl) [] [] (services_classified_nil _)) as H.
    by rewrite E in H.
  - exists [], []. split; [done | apply services_classified_nil].
Qed.

(** What the platform branch finds: the state is left as it is, the
    critical list holds listed services only, and every listed service that
    passes the test of its platform is in the critical list. *)
Lemma listed_services_spec w s sv cs s1 :
  listed_services w s = (Ret (sv, cs), s1) ->
  s1 = s
  /\ (forall name, name ∈ cs -> name ∈ sv)
  /\ (platform_system (w (clock s)) <> Ret "Windows" ->
      forall name, name ∈ sv -> critical_match name = true -> name ∈ cs)
  /\ (platform_system (w (clock s)) = Ret "Windows" ->
      forall name, name ∈ sv -> windows_match name = true -> name ∈ cs).
Proof.
  unfold listed_services. rewrite run_bind, run_call.
  destruct (platform_system (w (clock s))) as [sys|e] eqn:Hsys; [|discriminate].
  destruct (String.eqb_spec sys "Linux") as [->|Hlinux].
  - destruct (linux_services_spec w s) as (sv' & cs' & -> & [H1 H2]).
    intros [= <- <- <-]. repeat split; [done| done |discriminate].
  - rewrite run_bind, run_call, Hsys.
    destruct (String.eqb_spec sys "Windows") as [->|Hwin].
    + destruct (windows_services_spec w s) as (sv' & cs' & -> & [H1 H2]).
      intros [= <- <- <-]. repeat split; done.
    + rewrite run_ret. intros [= <- <- <-]. repeat split.
      * intros name H. by apply elem_of_nil in H.
      * intros _ name H. by apply elem_of_nil in H.
      * congruence.
Qed.

(** The scan of the processes adds the names that pass the test. *)
Lemma scan_processes w s procs cs cs' s1 :
  for_each procs cs scan_process w s = (Ret cs', s1) ->
  s1 = s
  /\ forall name,
       name ∈ cs' <->
       name ∈ cs \/ exists p, p ∈ procs /\ p_name p = Some name
                              /\ critical_match name = true.
Proof.
  revert cs. induction procs as [|p procs IH]; intros cs; cbn [for_each].
  - rewrite run_ret. intros [= <- <-]. split; [done|]. intros name. split; [by left|].
    intros [?|(p & Hp & _)]; [done | by apply elem_of_nil in Hp].
  - rewrite run_bind. unfold scan_process at 1.
    destruct (p_name p) as [pname|] eqn:Hname; [|discriminate].
    rewrite run_ret. intros H. apply IH in H as [-> H]. split; [done|].
    intros name. rewrite H, append_if_critical_match. split.
    + intros [Hin|(q & Hq & Hqn & Hm)].
      * destruct (critical_match pname) eqn:Hm; [|by left].
        apply elem_of_app in Hin as [?|Hin]; [by left|].
        apply list_elem_of_singleton in Hin as ->. right. exists p.
        split; [apply list_elem_of_here | done].
      * right. exists q. split; [by apply list_elem_of_further | done].
    + intros [Hin|(q & Hq & Hqn & Hm)].
      * left. destruct (critical_match pname); [apply elem_of_app; by left | done].
      * apply elem_of_cons in Hq as [->|Hq].
        -- left. rewrite Hname in Hqn. injection Hqn as ->. rewrite Hm.
           apply elem_of_app. right. apply list_elem_of_here.
        -- right. eauto.
Qed.

Lemma list_set_elem name l : name ∈ list_set l <-> name ∈ l.
Proof. unfold list_set. by rewrite elem_of_elements, elem_of_list_to_set. Qed.

Lemma list_set_nodup l : NoDup (list_set l).
Proof. unfold list_set. apply NoDup_elements. Qed.

(** What the services probe returns, by what the platform branch found. *)
Lemma services_result self w s r s' :
  get_services_info self w s = (Ret (Some r), s') ->
  exists sv cs,
    listed_services w s = (Ret (sv, cs), s)
    /\ sv_services r = sv
    /\ sv_running_count r = len sv
    /\ ((sv <> [] /\ forall name, name ∈ sv_critical r <-> name ∈ cs)
        \/ (sv = [] /\
            exists procs,
              process_iter (w (clock s)) = Ret procs
              /\ forall name,
                   name ∈ sv_critical r <->
                   exists p, p ∈ procs /\ p_name p = Some name
                             /\ critical_match name = true)).
Proof.
  intros H. apply guarded_some in H. rewrite run_bind in H.
  destruct (listed_services w s) as [[[sv cs]|e] s1] eqn:E; [|discriminate H].
  destruct (listed_services_spec w s sv cs s1 E) as (-> & Hsub & _).
  exists sv, cs. split; [done|].
  destruct sv as [|name0 sv].
  - rewrite run_bind, run_bind, run_call in H.
    destruct (process_iter (w (clock s))) as [procs|e] eqn:Hprocs; [|discriminate H].
    destruct (for_each procs cs scan_process w s) as [[cs'|e] s2] eqn:Hscan;
      [|discriminate H].
    apply scan_processes in Hscan as [-> Hscan].
    rewrite run_ret in H. injection H as <- <-. cbn.
    split; [done|]. split; [done|]. right. split; [done|].
    exists procs. split; [done|]. intros name. rewrite list_set_elem, Hscan.
    split; [intros [Hin|?]; [|done] | by right].
    apply Hsub in Hin. by apply elem_of_nil in Hin.
  - rewrite run_bind, !run_ret in H. injection H as <- <-. cbn.
    split; [done|]. split; [done|]. left. split; [done|].
    intros name. apply list_set_elem.
Qed.

(** C6: the module imports [pwd] when it is loaded, so a host that runs
    it is not Windows.  There a service the platform command lists, and a
    process the fallback scans, is in the critical list when its name
    contains one of the eighteen critical substrings, so "nginx-worker"
    is; the critical list has no repetition, and distinct names are
    distinct entries.  In the branch written for Windows the lines of
    [net start] are tested against the ten Windows names instead. *)
Theorem critical_classification self w s r s' :
  get_services_info self w s = (Ret (Some r), s') ->
  (platform_system (w (clock s)) <> Ret "Windows" ->
   forall name, name ∈ sv_services r -> has_critical_substring name ->
                name ∈ sv_critical r)
  /\ (sv_services r = [] ->
      forall procs p name,
        process_iter (w (clock s)) = Ret procs ->
        p ∈ procs -> p_name p = Some name -> has_critical_substring name ->
        name ∈ sv_critical r)
  /\ (has_critical_substring "nginx-worker" /\ has_critical_substring "nginx-main")
  /\ NoDup (sv_critical r)
  /\ (platform_system (w (clock s)) = Ret "Windows" ->
      forall name, name ∈ sv_services r -> windows_match name = true ->
                   name ∈ sv_critical r).
Proof.
  intros H.
  destruct (services_result self w s r s' H) as (sv & cs & E & Hsv & _ & Hcrit).
  destruct (listed_services_spec w s sv cs s E) as (_ & Hsub & Hother & Hwin).
  assert (NoDup (sv_critical r)) as Hnodup.
  { apply guarded_some in H. rewrite run_bind in H.
    destruct (listed_services w s) as [[[sv0 cs0]|e] s1]; [|discriminate H].
    run_inv H. all: injection H as <- <-; apply list_set_nodup. }
  split; [|split; [|split; [|split; [done|]]]].
  - intros Hplat name Hin Hc. apply has_critical_substring_match in Hc.
    rewrite Hsv in Hin.
    destruct Hcrit as [[_ Hc1]|[-> _]]; [|by apply elem_of_nil in Hin].
    apply Hc1. by apply Hother.
  - intros Hnil procs p name Hprocs Hp Hname Hc.
    apply has_critical_substring_match in Hc.
    destruct Hcrit as [[Hne _]|[_ (procs' & Hprocs' & Hc2)]]; [congruence|].
    apply Hc2. exists p. rewrite Hprocs in Hprocs'. injection Hprocs' as <-. done.
  - split; exists "nginx";
      (split; [apply list_elem_of_In; cbn; tauto | reflexivity]).
  - intros Hplat name Hin Hm. rewrite Hsv in Hin.
    destruct Hcrit as [[_ Hc1]|[-> _]]; [|by apply elem_of_nil in Hin].
    apply Hc1. by apply Hwin.
Qed.

Lemma critical_classification_witness :
  (exists r s',
     get_services_info enhancer (fun _ => workstation) start = (Ret (Some r), s')
     /\ sv_services r = ["cron"; "nginx"; "cups"; "ssh"]
     /\ "nginx" ∈ sv_critical r
     /\ "cron" ∈ sv_critical r
     /\ NoDup (sv_critical r)
     /\ length (sv_critical r) = 2)
  /\ (exists r s',
        get_services_info enhancer (fun _ => a_mac) start = (Ret (Some r), s')
        /\ "nginx-worker" ∈ sv_critical r
        /\ "nginx-main" ∈ sv_critical r
        /\ NoDup (sv_critical r)
        /\ length (sv_critical r) = 3).
Proof.
  split.
  - eassert (get_services_info enhancer (fun _ => workstation) start
             = (Ret (Some _), _)) as E by (vm_compute; reflexivity).
    destruct (critical_classification enhancer (fun _ => workstation) start _ _ E)
      as (Hlisted & _ & _ & Hnodup & _).
    assert (platform_system workstation <> Ret "Windows") as Hplat by discriminate.
    eexists _, _. split; [exact E|]. split; [reflexivity|].
    split; [|split; [|split; [exact Hnodup | reflexivity]]].
    + apply (Hlisted Hplat "nginx"); [apply list_elem_of_In; cbn; tauto|].
      exists "nginx". split; [apply list_elem_of_In; cbn; tauto | reflexivity].
    + apply (Hlisted Hplat "cron"); [apply list_elem_of_In; cbn; tauto|].
      exists "cron". split; [apply list_elem_of_In; cbn; tauto | reflexivity].
  - eassert (get_services_info enhancer (fun _ => a_mac) start
             = (Ret (Some _), _)) as E by (vm_compute; reflexivity).
    destruct (critical_classification enhancer (fun _ => a_mac) start _ _ E)
      as (_ & Hprocs & (Hworker & Hmain) & Hnodup & _).
    eexists _, _. split; [exact E|].
    split; [|split; [|split; [exact Hnodup | reflexivity]]].
    + apply (Hprocs eq_refl workstation_processes
               (a_process "nginx-worker" 1.5 0.5) "nginx-worker" eq_refl);
        [apply list_elem_of_In; cbn; tauto | reflexivity | exact Hworker].
    + apply (Hprocs eq_refl workstation_processes
               (a_process "nginx-main" 0.25 0.25) "nginx-main" eq_refl);
        [apply list_elem_of_In; cbn; tauto | reflexivity | exact Hmain].
Defined.

(** C10: when the platform branch has found no service, the scan of the
    processes runs and fills the critical list only: the dict returned has
    running_count = 0 and an empty list of services, its critical list is
    the set of the process names that pass the test, and its rendering
    shows "Running services: 0" followed by the line of the critical
    services, which is not empty as soon as one process passes. *)
Theorem fallback_leaves_running_count_zero self w s r s' cs0 s1 :
  listed_services w s = (Ret ([], cs0), s1) ->
  get_services_info self w s = (Ret (Some r), s') ->
  sv_running_count r = 0%Z
  /\ sv_services r = []
  /\ (exists procs,
        process_iter (w (clock s)) = Ret procs
        /\ forall name,
             name ∈ sv_critical r <->
             exists p, p ∈ procs /\ p_name p = Some name
                       /\ critical_match name = true)
  /\ (forall procs p name,
        process_iter (w (clock s)) = Ret procs ->
        p ∈ procs -> p_name p = Some name -> critical_match name = true ->
        sv_critical r <> [])
  /\ take 3 (services_lines r) =
       ["System services:";
        "  Running services: 0";
        "  Critical services: " +:+ join ", " (take 5 (sv_critical r))].
Proof.
  intros Hlisted H.
  destruct (services_result self w s r s' H) as (sv & cs & E & Hsv & Hcount & Hcrit).
  destruct (listed_services_spec w s [] cs0 s1 Hlisted) as (-> & _).
  rewrite Hlisted in E. injection E as <- <-.
  destruct Hcrit as [[Hne _]|[_ Hprocs]]; [done|].
  split; [by rewrite Hcount|]. split; [done|]. split; [exact Hprocs|]. split.
  - intros procs p name Hp Hin Hname Hm Hnil.
    destruct Hprocs as (procs' & Hp' & Hiff).
    rewrite Hp in Hp'. injection Hp' as <-.
    assert (name ∈ sv_critical r) as Hn by (apply Hiff; eauto).
    rewrite Hnil in Hn. by apply elem_of_nil in Hn.
  - unfold services_lines. rewrite Hcount. reflexivity.
Qed.

Lemma fallback_leaves_running_count_zero_witness :
  exists r s',
    get_services_info enhancer (fun _ => a_router) start = (Ret (Some r), s')
    /\ sv_running_count r = 0%Z
    /\ sv_critical r = ["nginx"]
    /\ services_lines r =
         ["System services:";
          "  Running services: 0";
          "  Critical services: nginx"].
Proof.
  eassert (get_services_info enhancer (fun _ => a_router) start
           = (Ret (Some _), _)) as E by (vm_compute; reflexivity).
  destruct (fallback_leaves_running_count_zero enhancer (fun _ => a_router) start
              _ _ [] start eq_refl E) as (Hcount & _ & _ & _ & _).
  eexists _, _. split; [exact E|]. split; [exact Hcount|]. split; reflexivity.
Defined.

(** ** Failures of the probes *)











(** * Properties of the rest of the code *)

Import Observations Scenarios.

(** ** What a run does to the files *)

Section respects.

Variable R : state -> state -> Prop.
Hypothesis R_refl : forall s, R s s.
Hypothesis R_trans : forall s1 s2 s3, R s1 s2 -> R s2 s3 -> R s1 s3.
Hypothesis R_tick : forall s, R s {| clock := S (clock s); files := files s |}.

Lemma respects_ret {A} (a : A) : respects R (ret a).
Proof. intros w s. apply R_refl. Qed.

Lemma respects_raise {A} e : respects R (raise e : M A).
Proof. intros w s. apply R_refl. Qed.

Lemma respects_lift {A} (o : outcome A) : respects R (lift o).
Proof. intros w s. apply R_refl. Qed.

Lemma respects_call {A} (f : host -> outcome A) : respects R (call f).
Proof. intros w s. apply R_refl. Qed.

Lemma respects_attr {A} (f : host -> A) : respects R (attr f).
Proof. intros w s. apply R_refl. Qed.

Lemma respects_tick : respects R tick.
Proof. intros w s. apply R_tick. Qed.

Lemma respects_bind {A B} (c : M A) (k : A -> M B) :
  respects R c -> (forall a, respects R (k a)) -> respects R (bind c k).
Proof.
  intros Hc Hk w s. rewrite run_bind. specialize (Hc w s).
  destruct (c w s) as [[a|e] s1]; cbn in *; [|done].
  eapply R_trans; [exact Hc | apply Hk].
Qed.

Lemma respects_try {A} (c : M A) (h : exn -> M A) :
  respects R c -> (forall e, respects R (h e)) -> respects R (try_except c h).
Proof.
  intros Hc Hh w s. rewrite run_try. specialize (Hc w s).
  destruct (c w s) as [[a|e] s1]; cbn in *; [done|].
  eapply R_trans; [exact Hc | apply Hh].
Qed.

Lemma respects_for_each {A S} (l : list A) (acc : S) (body : S -> A -> M S) :
  (forall acc x, respects R (body acc x)) -> respects R (for_each l acc body).
Proof.
  intros Hb. revert acc. induction l as [|x l IH]; intros acc; cbn [for_each].
  - apply respects_ret.
  - apply respects_bind; [apply Hb | intros; apply IH].
Qed.

End respects.

Lemma same_files_refl s : same_files s s.
Proof. done. Qed.

Lemma same_files_trans s1 s2 s3 :
  same_files s1 s2 -> same_files s2 s3 -> same_files s1 s3.
Proof. unfold same_files. congruence. Qed.

Lemma same_files_tick s : same_files s {| clock := S (clock s); files := files s |}.
Proof. done. Qed.

Lemma only_appends_refl paths s : only_appends paths s s.
Proof. split; [lia|]. intros path. split; done. Qed.

Lemma only_appends_trans paths s1 s2 s3 :
  only_appends paths s1 s2 -> only_appends paths s2 s3 -> only_appends paths s1 s3.
Proof.
  intros [Hc1 H1] [Hc2 H2]. split; [lia|]. intros path.
  destruct (H1 path) as [Hp1 Hn1], (H2 path) as [Hp2 Hn2]. split.
  - by etrans.
  - intros Hn. rewrite Hn2, Hn1; done.
Qed.

Lemma only_appends_tick paths s :
  only_appends paths s {| clock := S (clock s); files := files s |}.
Proof. split; [cbn; lia|]. intros path. split; done. Qed.

Lemma append_to_only_appends paths path entry :
  path ∈ paths -> respects (only_appends paths) (append_to path entry).
Proof.
  intros Hin w s. unfold append_to.
  destruct (append_file (w (clock s)) path); cbn; [|apply only_appends_refl].
  split; [cbn; lia|]. intros p. unfold file_content. cbn. split.
  - destruct (decide (p = path)) as [->|Hne].
    + rewrite lookup_insert_eq. cbn. by apply prefix_app_r.
    + by rewrite lookup_insert_ne.
  - intros Hn. rewrite lookup_insert_ne; [done|]. intros <-. done.
Qed.

(** One step through a method body, for the relation [only_appends]. *)
Ltac appends_only :=
  repeat first
    [ apply append_to_only_appends; apply list_elem_of_In; cbn; tauto
    | lazymatch goal with
      | |- respects _ (bind _ _) =>
          apply respects_bind; [apply only_appends_trans | | intros ?]
      | |- respects _ (try_except _ _) =>
          apply respects_try; [apply only_appends_trans | | intros ?]
      | |- respects _ (for_each _ _ _) =>
          apply respects_for_each;
          [apply only_appends_refl | apply only_appends_trans | intros ? ?]
      | |- respects _ (ret _) => apply respects_ret; apply only_appends_refl
      | |- respects _ (raise _) => apply respects_raise; apply only_appends_refl
      | |- respects _ (lift _) => apply respects_lift; apply only_appends_refl
      | |- respects _ (call _) => apply respects_call; apply only_appends_refl
      | |- respects _ (attr _) => apply respects_attr; apply only_appends_refl
      | |- respects _ tick => apply respects_tick; apply only_appends_tick
      | |- respects _ (if ?b then _ else _) => destruct b
      | |- respects _ (match ?x with _ => _ end) => destruct x
      end ].

(** The same for the relation [same_files]. *)
Ltac same_files_only :=
  repeat
    lazymatch goal with
    | |- respects _ (bind _ _) =>
        apply respects_bind; [apply same_files_trans | | intros ?]
    | |- respects _ (try_except _ _) =>
        apply respects_try; [apply same_files_trans | | intros ?]
    | |- respects _ (for_each _ _ _) =>
        apply respects_for_each;
        [apply same_files_refl | apply same_files_trans | intros ? ?]
    | |- respects _ (ret _) => apply respects_ret; apply same_files_refl
    | |- respects _ (raise _) => apply respects_raise; apply same_files_refl
    | |- respects _ (lift _) => apply respects_lift; apply same_files_refl
    | |- respects _ (call _) => apply respects_call; apply same_files_refl
    | |- respects _ (attr _) => apply respects_attr; apply same_files_refl
    | |- respects _ tick => apply respects_tick; apply same_files_tick
    | |- respects _ (if ?b then _ else _) => destruct b
    | |- respects _ (match ?x with _ => _ end) => destruct x
    end.

Lemma log_message_only_appends logger message temp_log :
  respects (only_appends (log_paths logger))
           (Logger.log_message logger message temp_log).
Proof. unfold Logger.log_message, log_paths. appends_only. Qed.

Lemma sections_of_only_appends self k :
  respects (only_appends (log_paths (logger self))) (sections_of self k).
Proof.
  pose proof (log_message_only_appends (logger self)) as Hlog.
  unfold sections_of.
  repeat match goal with |- respects _ (if ?b then _ else _) => destruct b end.
  all: unfold get_current_time_info, get_system_info, get_network_info,
    get_locale_info, get_timezone_info, get_performance_metrics,
    get_hardware_info, get_users_info, get_network_traffic, get_open_ports,
    get_process_info, get_filesystem_info, get_services_info, log_and_none,
    scan_connection, add_partition, listed_services, linux_services,
    windows_services, systemctl_line, status_all_line, scan_process.
  all: repeat first [ apply Hlog | progress appends_only ].
Qed.

Lemma collect_sections_only_appends self l :
  respects (only_appends (log_paths (logger self))) (collect_sections self l).
Proof.
  unfold collect_sections.
  apply respects_for_each; [apply only_appends_refl | apply only_appends_trans |].
  intros acc k.
  apply respects_bind; [apply only_appends_trans | apply sections_of_only_appends |].
  intros lines. apply respects_ret, only_appends_refl.
Qed.

(** X1: whatever the selection and whatever the host answers, a run of
    [enhance_prompt] (one that raises included) writes to no file but the
    two files of its logger, keeps what every file held and appends after
    it, and does not put the clock back. *)
Theorem enhance_prompt_only_appends_to_logs self base sel w s :
  only_appends (log_paths (logger self)) s (snd (enhance_prompt self base sel w s)).
Proof.
  revert w s.
  change (respects (only_appends (log_paths (logger self)))
                   (enhance_prompt self base sel)).
  unfold enhance_prompt.
  apply respects_bind; [apply only_appends_trans | apply collect_sections_only_appends |].
  intros [|x secs]; apply respects_ret, only_appends_refl.
Qed.

(** The body of a guarded probe, which holds no call of the logger, leaves
    the files as they are. *)
Ltac silent_body H :=
  apply guarded_some in H;
  lazymatch type of H with
  | ?body ?w ?s = _ =>
      let Hb := fresh "Hb" in
      assert (respects same_files body) as Hb
        by (unfold scan_connection, add_partition, listed_services, linux_services,
              windows_services, systemctl_line, status_all_line, scan_process;
            same_files_only);
      specialize (Hb w s); rewrite H in Hb; exact Hb
  end.

Ltac silent_probe H probe :=
  let E := fresh "E" in
  destruct probe as [[[?|]|?] ?] eqn:E; [|discriminate H..];
  rewrite run_ret in H; injection H as _ _ <-;
  unfold get_system_info, get_network_info,
    get_locale_info, get_timezone_info, get_performance_metrics,
    get_hardware_info, get_users_info, get_network_traffic, get_open_ports,
    get_process_info, get_filesystem_info, get_services_info in E;
  silent_body E.

(** X2: a kind that contributes lines to the prompt has written nothing
    to the log: the logger is called by the handlers of the probes only,
    and a probe whose handler ran contributes no line. *)
Theorem successful_probe_logs_nothing self k w s line lines s' :
  sections_of self k w s = (Ret (line :: lines), s') ->
  files s' = files s.
Proof.
  unfold sections_of.
  repeat match goal with |- context [if ?b then _ else _] => destruct b end.
  all: rewrite ?run_bind; intros H.
  14: discriminate H.
  - assert (respects same_files get_current_time_info) as Hb
      by (unfold get_current_time_info; same_files_only).
    specialize (Hb w s).
    destruct (get_current_time_info w s) as [[r|e] s1]; [|discriminate H].
    rewrite run_ret in H. injection H as _ _ <-. exact Hb.
  - silent_probe H (get_system_info self w s).
  - silent_probe H (get_network_info self w s).
  - silent_probe H (get_locale_info self w s).
  - silent_probe H (get_timezone_info self w s).
  - silent_probe H (get_performance_metrics self w s).
  - silent_probe H (get_hardware_info self w s).
  - silent_probe H (get_users_info self w s).
  - silent_probe H (get_network_traffic self w s).
  - silent_probe H (get_open_ports self w s).
  - silent_probe H (get_process_info self w s).
  - silent_probe H (get_filesystem_info self w s).
  - silent_probe H (get_services_info self w s).
Qed.

Lemma successful_probe_logs_nothing_witness :
  exists line lines s',
    sections_of enhancer "hardware" (fun _ => workstation) start
      = (Ret (line :: lines), s')
    /\ files s' = files start.
Proof.
  eassert (sections_of enhancer "hardware" (fun _ => workstation) start
           = (Ret (_ :: _), _)) as E by (vm_compute; reflexivity).
  eexists _, _, _. split; [exact E|].
  exact (successful_probe_logs_nothing enhancer "hardware" _ start _ _ _ E).
Defined.

(** ** The logger *)

(** X3: when the clock answers and both files can be written,
    [log_message] appends one entry, the ISO time, " - ", the message and
    a newline, at the end of the main log, the same entry at the end of
    the session file unless [temp_log] is false, and touches no other
    file. *)
Theorem log_message_appends logger message temp_log w s now :
  datetime_now (w (clock s)) = Ret now ->
  append_file (w (clock s)) (Logger.log_file logger) = Ret tt ->
  append_file (w (clock s)) (Logger.temp_log_path logger) = Ret tt ->
  Logger.log_file logger <> Logger.temp_log_path logger ->
  exists s',
    Logger.log_message logger message temp_log w s = (Ret tt, s')
    /\ clock s' = clock s
    /\ file_content s' (Logger.log_file logger)
       = file_content s (Logger.log_file logger)
         ++ [dt_isoformat now +:+ " - " +:+ message +:+ nl]
    /\ file_content s' (Logger.temp_log_path logger)
       = file_content s (Logger.temp_log_path logger)
         ++ (if temp_log then [dt_isoformat now +:+ " - " +:+ message +:+ nl] else [])
    /\ forall path,
         path <> Logger.log_file logger -> path <> Logger.temp_log_path logger ->
         files s' !! path = files s !! path.
Proof.
  intros Hnow Hlog Htmp Hne.
  unfold Logger.log_message. rewrite run_bind, run_call, Hnow, run_bind.
  unfold append_to at 1. rewrite Hlog.
  destruct temp_log.
  - unfold append_to. cbn [clock files]. rewrite Htmp.
    eexists. split; [reflexivity|]. unfold file_content. cbn [clock files].
    split; [done|]. split; [|split].
    + rewrite lookup_insert_ne by done. by rewrite lookup_insert_eq.
    + rewrite lookup_insert_eq. cbn. by rewrite lookup_insert_ne.
    + intros path H1 H2. by rewrite !lookup_insert_ne.
  - rewrite run_ret. eexists. split; [reflexivity|]. unfold file_content.
    cbn [clock files]. split; [done|]. split; [|split].
    + by rewrite lookup_insert_eq.
    + rewrite lookup_insert_ne by done. by rewrite app_nil_r.
    + intros path H1 H2. by rewrite lookup_insert_ne.
Qed.

Lemma log_message_appends_witness :
  exists s',
    Logger.log_message a_logger "Script started" true (fun _ => workstation) start
      = (Ret tt, s')
    /\ file_content s' "/var/log/marechan.log"
       = ["2026-03-02T10:15:00 - Script started" +:+ nl]
    /\ file_content s' "/tmp/marechan/session.txt"
       = ["2026-03-02T10:15:00 - Script started" +:+ nl]
    /\ files s' !! "/etc/passwd" = None.
Proof.
  destruct (log_message_appends a_logger "Script started" true (fun _ => workstation)
              start a_datetime eq_refl eq_refl eq_refl)
    as (s' & E & _ & Hlog & Htmp & Hother); [discriminate|].
  exists s'. split; [exact E|]. split; [exact Hlog|]. split; [exact Htmp|].
  rewrite Hother by discriminate. reflexivity.
Defined.

(** X4: the two writes of [log_message] are not one: when the session
    file cannot be written, the entry is in the main log already, and the
    error of the second write goes to the caller. *)
Theorem failed_session_write_keeps_main_entry logger message w s now e :
  datetime_now (w (clock s)) = Ret now ->
  append_file (w (clock s)) (Logger.log_file logger) = Ret tt ->
  append_file (w (clock s)) (Logger.temp_log_path logger) = Raise e ->
  Logger.log_file logger <> Logger.temp_log_path logger ->
  exists s',
    Logger.log_message logger message true w s = (Raise e, s')
    /\ file_content s' (Logger.log_file logger)
       = file_content s (Logger.log_file logger)
         ++ [dt_isoformat now +:+ " - " +:+ message +:+ nl]
    /\ files s' !! Logger.temp_log_path logger = files s !! Logger.temp_log_path logger.
Proof.
  intros Hnow Hlog Htmp Hne.
  unfold Logger.log_message. rewrite run_bind, run_call, Hnow, run_bind.
  unfold append_to at 1. rewrite Hlog.
  unfold append_to. cbn [clock files]. rewrite Htmp.
  eexists. split; [reflexivity|]. unfold file_content. cbn [clock files]. split.
  - by rewrite lookup_insert_eq.
  - by rewrite lookup_insert_ne.
Qed.

Lemma failed_session_write_keeps_main_entry_witness :
  exists e s',
    Logger.log_message a_logger "Script started" true (fun _ => no_session_file) start
      = (Raise e, s')
    /\ file_content s' "/var/log/marechan.log"
       = ["2026-03-02T10:15:00 - Script started" +:+ nl]
    /\ files s' !! "/tmp/marechan/session.txt" = None.
Proof.
  destruct (failed_session_write_keeps_main_entry a_logger "Script started"
              (fun _ => no_session_file) start a_datetime _ eq_refl eq_refl eq_refl)
    as (s' & E & Hlog & Htmp); [discriminate|].
  eexists _, s'. split; [exact E|]. split; [exact Hlog | exact Htmp].
Defined.

(** ** The users probe *)




(** ** The ports probe: counts, fallback and ranking *)

Lemma count_connection_assoc name d k :
  assoc_count (count_connection name d) k
  = (assoc_count d k + if String.eqb name k then 1 else 0)%Z.
Proof.
  induction d as [|[k' v] d IH]; cbn.
  - destruct (String.eqb name k); lia.
  - destruct (String.eqb_spec k' name) as [->|Hne]; cbn.
    + destruct (String.eqb name k); lia.
    + destruct (String.eqb_spec k' k) as [->|Hne'].
      * destruct (String.eqb_spec name k) as [->|]; [done | lia].
      * apply IH.
Qed.

Lemma assoc_count_elem d k v :
  NoDup (map fst d) -> (k, v) ∈ d -> assoc_count d k = v.
Proof.
  induction d as [|[k' v'] d IH]; intros Hd Hin; [by apply elem_of_nil in Hin|].
  cbn in *. apply NoDup_cons in Hd as [Hk' Hd].
  apply elem_of_cons in Hin as [[= <- <-]|Hin].
  - by rewrite String.eqb_refl.
  - destruct (String.eqb_spec k' k) as [->|Hne]; [|by apply IH].
    exfalso. apply Hk'. apply list_elem_of_fmap. by exists (k, v).
Qed.

Lemma connections_of_cons h conn conns name :
  connections_of h (conn :: conns) name
  = (connections_of h conns name
     + match owner h conn with
       | Some n => if String.eqb n name then 1 else 0
       | None => 0
       end)%Z.
Proof.
  unfold connections_of. rewrite owners_cons.
  destruct (owner h conn) as [n|]; [|lia].
  rewrite filter_cons. destruct (String.eqb_spec n name) as [->|Hne].
  - rewrite decide_True by done. unfold len. cbn [length]. lia.
  - rewrite decide_False by done. lia.
Qed.

Lemma scan_counts w s conns lp est pc lp' est' pc' s' :
  for_each conns (lp, est, pc) scan_connection w s = (Ret (lp', est', pc'), s') ->
  est' = (est + len (filter (fun c => conn_status c = "ESTABLISHED") conns))%Z
  /\ forall name,
       assoc_count pc' name
       = (assoc_count pc name + connections_of (w (clock s)) conns name)%Z.
Proof.
  revert lp est pc. induction conns as [|conn conns IH]; intros lp est pc H.
  - cbn [for_each] in H. rewrite run_ret in H. injection H as <- <- <- <-.
    split; [unfold len; cbn; lia|]. intros name. unfold connections_of, len. cbn. lia.
  - cbn [for_each] in H. rewrite run_bind in H.
    destruct (scan_connection (lp, est, pc) conn w s) as [[[[lp1 est1] pc1]|e] s1] eqn:E;
      [|discriminate H].
    assert (s1 = s /\ est1 = (est + if String.eqb (conn_status conn) "ESTABLISHED"
                                    then 1 else 0)%Z
            /\ forall name, assoc_count pc1 name
                 = (assoc_count pc name
                    + match owner (w (clock s)) conn with
                      | Some n => if String.eqb n name then 1 else 0
                      | None => 0
                      end)%Z) as (-> & -> & Hpc1).
    { unfold scan_connection in E. unfold owner.
      destruct (conn_pid conn) as [pid|]; [destruct (Z.eqb_spec pid 0)|];
        cbn [negb] in E; cbv iota in E.
      - run_simp E. injection E as <- <- <- <-. split; [done|]. split.
        + destruct (String.eqb _ "ESTABLISHED"); lia.
        + intros; lia.
      - rewrite run_bind, run_try, run_bind, run_call in E.
        destruct (process_name (w (clock s)) pid) as [name|e]; run_simp E;
          injection E as <- <- <- <-.
        + split; [done|]. split; [destruct (String.eqb _ "ESTABLISHED"); lia|].
          intros k. apply count_connection_assoc.
        + split; [done|]. split; [destruct (String.eqb _ "ESTABLISHED"); lia|].
          intros; lia.
      - run_simp E. injection E as <- <- <- <-. split; [done|]. split.
        + destruct (String.eqb _ "ESTABLISHED"); lia.
        + intros; lia. }
    apply IH in H as [-> Hpc']. split.
    + rewrite filter_cons.
      destruct (String.eqb_spec (conn_status conn) "ESTABLISHED") as [E'|E'].
      * rewrite decide_True by done. unfold len. cbn [length]. lia.
      * rewrite decide_False by done. lia.
    + intros name. rewrite Hpc', Hpc1, connections_of_cons. lia.
Qed.

Lemma insert_desc_sorted {A} (key : A -> Z) x l :
  StronglySorted (fun a b => (key b <= key a)%Z) l ->
  StronglySorted (fun a b => (key b <= key a)%Z)
    (insert_by (fun x y => Z.ltb (key y) (key x)) x l).
Proof.
  induction 1 as [|y l Hl IH Hy]; cbn.
  - repeat constructor.
  - destruct (Z.ltb_spec (key y) (key x)).
    + constructor; [by constructor|]. constructor; [lia|].
      eapply Forall_impl; [exact Hy|]. cbn. lia.
    + constructor; [done|]. rewrite insert_by_perm. constructor; [lia | done].
Qed.

Lemma sorted_desc_descending {A} (key : A -> Z) l :
  StronglySorted (fun a b => (key b <= key a)%Z) (sorted_desc key l).
Proof.
  unfold sorted_desc, sorted_by.
  assert (forall acc, StronglySorted (fun a b => (key b <= key a)%Z) acc ->
            StronglySorted (fun a b => (key b <= key a)%Z)
              (fold_left (fun acc x => insert_by (fun x y => Z.ltb (key y) (key x)) x acc)
                         l acc)) as H.
  { induction l as [|x l IH]; intros acc Hacc; cbn; [done|].
    apply IH. by apply insert_desc_sorted. }
  apply H. constructor.
Qed.

Lemma netstat_loop lines lp :
  NoDup lp ->
  NoDup (fold_left netstat_line lines lp)
  /\ forall p, p ∈ fold_left netstat_line lines lp
       <-> p ∈ lp \/ exists line, line ∈ lines /\ netstat_port line = Some p.
Proof.
  revert lp. induction lines as [|line lines IH]; intros lp Hlp; cbn [fold_left].
  - split; [done|]. intros p. split; [by left|].
    intros [?|(line & Hin & _)]; [done | by apply elem_of_nil in Hin].
  - assert (NoDup (netstat_line lp line)
            /\ forall p, p ∈ netstat_line lp line
                 <-> p ∈ lp \/ netstat_port line = Some p) as [Hnd Hstep].
    { unfold netstat_line, netstat_port.
      destruct (contains "LISTEN" line); [|split; [done|]; intros; intuition congruence].
      destruct (Nat.leb_spec 4 (length (split_ws line))) as [Hlen|Hlen].
      - destruct (split_ws line !! 3%nat) as [addr|] eqn:E3;
          [|apply lookup_ge_None in E3; lia].
        cbn [default].
        destruct (int _) as [port|e]; [|split; [done|]; intros; intuition congruence].
        destruct (in_list port lp) eqn:E; cbn [negb].
        + apply in_list_true in E. split; [done|]. intros p.
          split; [by left | intros [?|[= <-]]; done].
        + apply in_list_false in E. split.
          * apply NoDup_app. split; [done|]. split; [|apply NoDup_singleton].
            intros x Hx Hx'. apply list_elem_of_singleton in Hx' as ->. done.
          * intros p. rewrite elem_of_app, list_elem_of_singleton.
            split; [intros [?| ->]; eauto | intros [?|[= <-]]; eauto].
      - destruct (split_ws line !! 3%nat) as [addr|] eqn:E3.
        + apply lookup_lt_Some in E3. lia.
        + split; [done|]. intros; intuition congruence. }
    destruct (IH _ Hnd) as [Hnd' Hin']. split; [done|].
    intros p. rewrite Hin', Hstep. split.
    + intros [[?|?]|(l & Hl & Hp)]; [by left | right | right].
      * exists line. split; [apply list_elem_of_here | done].
      * exists l. split; [by apply list_elem_of_further | done].
    + intros [?|(l & Hl & Hp)]; [by left; left|].
      apply elem_of_cons in Hl as [->|Hl]; [by left; right|].
      right. eauto.
Qed.

Lemma sorted_strict l : NoDup l -> StronglySorted Z.lt (sorted l).
Proof.
  intros Hl. assert (NoDup (sorted l)) as Hnd by by rewrite sorted_perm.
  pose proof (sorted_ascending l) as Hs.
  induction Hs as [|x l' Hs IH Hx]; [constructor|].
  apply NoDup_cons in Hnd as [Hx' Hnd]. constructor; [by apply IH|].
  rewrite Forall_forall in *. intros y Hy. specialize (Hx y Hy).
  assert (x <> y) by (intros ->; done). lia.
Qed.

Lemma ports_inversion self w s r s' conns :
  net_connections (w (clock s)) = Ret conns ->
  get_open_ports self w s = (Ret (Some r), s') ->
  exists lp est pc,
    for_each conns ([], 0%Z, []) scan_connection w s = (Ret (lp, est, pc), s)
    /\ NoDup lp /\ NoDup (map fst pc)
    /\ (forall p, p ∈ lp <-> p ∈ listen_ports conns)
    /\ (forall n, n ∈ map fst pc <-> n ∈ owners (w (clock s)) conns)
    /\ po_total_connections r = len conns
    /\ po_established r = est
    /\ po_top_processes r = map top_process_entry (take 5 (sorted_desc snd pc))
    /\ po_listening_ports r
       = sorted (match lp with [] => netstat_ports (w (clock s)) | _ :: _ => lp end).
Proof.
  intros Hconns H. apply guarded_some in H. run_simp H. rewrite Hconns in H.
  run_simp H.
  destruct (scan_connections w s conns [] 0%Z []) as
    (lp & est & pc & E & Hlp & Hports & Hpc & Hown); [constructor..|].
  rewrite E in H. exists lp, est, pc.
  split; [done|]. split; [done|]. split; [done|]. split.
  { intros p. rewrite Hports. split; [intros [H0|?]; [by apply elem_of_nil in H0|done]
                                     | by right]. }
  split.
  { intros n. rewrite Hown. split; [intros [H0|?]; [by apply elem_of_nil in H0|done]
                                     | by right]. }
  rewrite fold_left_snoc_map in H. cbn [app] in H. unfold netstat_ports.
  destruct lp as [|p lp]; run_inv H.
  all: injection H as <- <-;
    cbn [po_top_processes po_listening_ports po_total_connections po_established].
  all: done.
Qed.

(** X6: in the dict of the ports probe the listening ports are strictly
    ascending (no port twice, also on the [netstat] path),
    total_connections is the number of connections psutil listed,
    established is the number of those in state ESTABLISHED, and so at most
    the total. *)
Theorem ports_counts self w s r s' conns :
  net_connections (w (clock s)) = Ret conns ->
  get_open_ports self w s = (Ret (Some r), s') ->
  StronglySorted Z.lt (po_listening_ports r)
  /\ po_total_connections r = len conns
  /\ po_established r = len (filter (fun c => conn_status c = "ESTABLISHED") conns)
  /\ (po_established r <= po_total_connections r)%Z.
Proof.
  intros Hconns H.
  destruct (ports_inversion self w s r s' conns Hconns H)
    as (lp & est & pc & E & Hlp & Hpc & Hports & Hown & Htot & Hest & Htop & Hl).
  apply scan_counts in E as [-> _].
  split; [|split; [done|split]].
  - rewrite Hl. apply sorted_strict. destruct lp; [|done].
    unfold netstat_ports. destruct (platform_system _); [|constructor].
    destruct (String.eqb _ _); [|constructor].
    destruct (check_output _ _); [|constructor].
    apply netstat_loop. constructor.
  - rewrite Hest. lia.
  - rewrite Hest, Htot. unfold len.
    pose proof (length_filter (fun c => conn_status c = "ESTABLISHED") conns). lia.
Qed.

Lemma ports_counts_witness :
  exists r s',
    get_open_ports enhancer (fun _ => workstation) start = (Ret (Some r), s')
    /\ StronglySorted Z.lt (po_listening_ports r)
    /\ po_total_connections r = 17%Z
    /\ po_established r = 5%Z.
Proof.
  eassert (get_open_ports enhancer (fun _ => workstation) start
           = (Ret (Some _), _)) as E by (vm_compute; reflexivity).
  destruct (ports_counts enhancer (fun _ => workstation) start _ _ twelve_listeners
              eq_refl E) as (Hsorted & Htotal & Hest & _).
  eexists _, _. split; [exact E|]. split; [exact Hsorted|].
  split; [exact Htotal | exact Hest].
Defined.

(** X7: when psutil lists no connection in state LISTEN, the listening
    ports of the dict are those of the lines of [netstat -tuln], and of
    nothing else: a port is in the dict exactly when the platform is
    Linux, [netstat] answers and one of its lines holds "LISTEN" and gives
    that port in its fourth field. *)
Theorem netstat_fallback self w s r s' conns :
  net_connections (w (clock s)) = Ret conns ->
  get_open_ports self w s = (Ret (Some r), s') ->
  listen_ports conns = [] ->
  (forall p, p ∈ po_listening_ports r ->
     platform_system (w (clock s)) = Ret "Linux"
     /\ exists output line,
          check_output (w (clock s)) ["netstat"; "-tuln"] = Ret output
          /\ line ∈ split output nl /\ netstat_port line = Some p)
  /\ (forall output line p,
        platform_system (w (clock s)) = Ret "Linux" ->
        check_output (w (clock s)) ["netstat"; "-tuln"] = Ret output ->
        line ∈ split output nl -> netstat_port line = Some p ->
        p ∈ po_listening_ports r).
Proof.
  intros Hconns H Hnone.
  destruct (ports_inversion self w s r s' conns Hconns H)
    as (lp & est & pc & E & Hlp & Hpc & Hports & Hown & Htot & Hest & Htop & Hl).
  assert (lp = []) as ->.
  { destruct lp as [|p lp]; [done|]. specialize (Hports p). rewrite Hnone in Hports.
    exfalso. eapply elem_of_nil, Hports, list_elem_of_here. }
  rewrite Hl. unfold netstat_ports. split.
  - intros p Hp. rewrite sorted_perm in Hp.
    destruct (platform_system _) as [sys|]; [|by apply elem_of_nil in Hp].
    destruct (String.eqb sys "Linux") eqn:Es; [|by apply elem_of_nil in Hp].
    apply String.eqb_eq in Es as ->. split; [done|].
    destruct (check_output _ _) as [output|]; [|by apply elem_of_nil in Hp].
    apply (netstat_loop _ [] (NoDup_nil_2 (A:=Z))) in Hp as [Hp|(line & ? & ?)].
    + by apply elem_of_nil in Hp.
    + eauto.
  - intros output line p -> -> Hline Hp. rewrite sorted_perm, String.eqb_refl.
    apply netstat_loop; [constructor|]. right. eauto.
Qed.

Lemma netstat_fallback_witness :
  exists r s',
    get_open_ports enhancer (fun _ => netstat_host) start = (Ret (Some r), s')
    /\ po_listening_ports r = [22; 8080]%Z
    /\ 8080%Z ∈ po_listening_ports r.
Proof.
  eassert (get_open_ports enhancer (fun _ => netstat_host) start
           = (Ret (Some _), _)) as E by (vm_compute; reflexivity).
  destruct (netstat_fallback enhancer (fun _ => netstat_host) start _ _
              [established 443 103; established 5432 105]%Z eq_refl E eq_refl)
    as [_ Hin].
  eexists _, _. split; [exact E|]. split; [reflexivity|].
  apply (Hin netstat_output
           "tcp6       0      0 :::8080                 :::*                    LISTEN").
  - reflexivity.
  - reflexivity.
  - apply list_elem_of_In. vm_compute. tauto.
  - vm_compute. reflexivity.
Defined.

(** X8: the top processes of the dict are the first five of a ranking of
    the process names that own a connection: each name is there once, with
    the number of connections its processes own, and the ranking goes by
    decreasing count; an entry reads "name (count)". *)
Theorem top_processes_most_connected self w s r s' conns :
  net_connections (w (clock s)) = Ret conns ->
  get_open_ports self w s = (Ret (Some r), s') ->
  exists ranking,
    po_top_processes r = map top_process_entry (take 5 ranking)
    /\ map fst ranking ≡ₚ remove_dups (owners (w (clock s)) conns)
    /\ Forall (fun item => snd item = connections_of (w (clock s)) conns (fst item))
              ranking
    /\ StronglySorted by_connections_desc ranking.
Proof.
  intros Hconns H.
  destruct (ports_inversion self w s r s' conns Hconns H)
    as (lp & est & pc & E & Hlp & Hpc & Hports & Hown & Htot & Hest & Htop & Hl).
  apply scan_counts in E as [_ Hcount].
  exists (sorted_desc snd pc). split; [done|]. split; [|split].
  - unfold sorted_desc. rewrite sorted_by_perm.
    apply NoDup_Permutation; [done | apply NoDup_remove_dups |].
    intros n. by rewrite Hown, elem_of_remove_dups.
  - unfold sorted_desc. rewrite sorted_by_perm.
    apply Forall_forall. intros [k v] Hin. cbn.
    rewrite <- (assoc_count_elem pc k v Hpc Hin), Hcount. cbn. lia.
  - apply sorted_desc_descending.
Qed.

Lemma top_processes_most_connected_witness :
  exists r s' ranking,
    get_open_ports enhancer (fun _ => workstation) start = (Ret (Some r), s')
    /\ po_top_processes r = map top_process_entry (take 5 ranking)
    /\ StronglySorted by_connections_desc ranking
    /\ po_top_processes r
       = ["nginx (4)"; "sshd (2)"; "postgres (2)"; "java (1)"; "mysqld (1)"].
Proof.
  eassert (get_open_ports enhancer (fun _ => workstation) start
           = (Ret (Some _), _)) as E by (vm_compute; reflexivity).
  destruct (top_processes_most_connected enhancer (fun _ => workstation) start _ _
              twelve_listeners eq_refl E) as (ranking & Htop & _ & _ & Hsorted).
  eexists _, _, ranking. split; [exact E|]. split; [exact Htop|].
  split; [exact Hsorted | reflexivity].
Defined.

(** ** The processes probe *)

Lemma scan_pinfo_loop (it : list pinfo) l n :
  fold_left
    (fun acc pinfo =>
       (fst acc ++ [pinfo],
        if bool_decide (p_status pinfo = Some "running")
        then (snd acc + 1)%Z else snd acc))
    it (l, n)
  = (l ++ it, (n + len (filter (fun p => p_status p = Some "running") it))%Z).
Proof.
  revert l n. induction it as [|p it IH]; intros l n; cbn [fold_left].
  - rewrite app_nil_r. f_equal. unfold len. cbn. lia.
  - rewrite IH. cbn [fst snd]. rewrite <- app_assoc. f_equal.
    rewrite filter_cons. case_bool_decide.
    + rewrite decide_True by done. unfold len. cbn [length]. lia.
    + rewrite decide_False by done. lia.
Qed.

Lemma sorted_by_percent_some key procs l :
  sorted_by_percent key procs = Ret l -> l ≡ₚ procs.
Proof.
  unfold sorted_by_percent. destruct (_ && _); [done|].
  intros [= <-]. apply sorted_by_perm.
Qed.

Lemma top_entries key procs w s l acc :
  (forall p, p ∈ l -> p ∈ procs) ->
  Forall (process_entry key procs) acc ->
  match for_each l acc (fun acc p => lift (top_entry key acc p)) w s with
  | (Ret top, s') =>
      s' = s /\ Forall (process_entry key procs) top
      /\ (length top <= length acc + length l)%nat
      /\ Forall (fun p => is_Some (key p)) l
  | (Raise _, s') => s' = s /\ exists p, p ∈ l /\ key p = None
  end.
Proof.
  revert acc. induction l as [|p l IH]; intros acc Hsub Hacc; cbn [for_each].
  - rewrite run_ret. cbn. split; [done|]. split; [done|]. split; [lia | constructor].
  - rewrite run_bind, run_lift. unfold top_entry at 1.
    destruct (key p) as [v|] eqn:Ek.
    + assert (forall q, q ∈ l -> q ∈ procs) as Hsub'
        by (intros q Hq; apply Hsub; by apply list_elem_of_further).
      destruct (PrimFloat.ltb 0 v) eqn:Ev.
      * specialize (IH (acc ++ [str_opt id (p_name p) +:+ " (" +:+ format_1f v +:+ "%)"])
                       Hsub').
        destruct (for_each l _ _ w s) as [[top|e] s1].
        -- destruct IH as (-> & Htop & Hlen & Hall).
           { apply Forall_app. split; [done|]. constructor; [|constructor].
             exists p, v. repeat split; try done. apply Hsub, list_elem_of_here. }
           split; [done|]. split; [done|]. rewrite length_app in Hlen. cbn in *.
           split; [lia|]. constructor; [by rewrite Ek | done].
        -- destruct IH as (-> & q & Hq & Hkq).
           { apply Forall_app. split; [done|]. constructor; [|constructor].
             exists p, v. repeat split; try done. apply Hsub, list_elem_of_here. }
           split; [done|]. exists q. split; [by apply list_elem_of_further | done].
      * specialize (IH acc Hsub' Hacc).
        destruct (for_each l _ _ w s) as [[top|e] s1].
        -- destruct IH as (-> & Htop & Hlen & Hall).
           split; [done|]. split; [done|]. cbn. split; [lia|].
           constructor; [by rewrite Ek | done].
        -- destruct IH as (-> & q & Hq & Hkq).
           split; [done|]. exists q. split; [by apply list_elem_of_further | done].
    + split; [done|]. exists p. split; [apply list_elem_of_here | done].
Qed.

Lemma sorted_by_percent_all key procs l :
  sorted_by_percent key procs = Ret l ->
  Forall (fun p => is_Some (key p)) (take 5 l) ->
  Forall (fun p => is_Some (key p)) procs.
Proof.
  intros Hs Ht. pose proof (sorted_by_percent_some _ _ _ Hs) as Hperm.
  unfold sorted_by_percent in Hs.
  destruct (Nat.leb_spec 2 (length procs)) as [Hlen|Hlen]; cbn [andb] in Hs.
  - destruct (existsb _ procs) eqn:E; [done|].
    apply Forall_forall. intros p Hp.
    destruct (key p) eqn:Ek; [done|]. exfalso.
    assert (existsb (fun p => negb (is_Some_b (key p))) procs = true) as E'.
    { apply existsb_exists. exists p. split; [by apply list_elem_of_In|].
      by rewrite Ek. }
    congruence.
  - rewrite take_ge in Ht by (rewrite (Permutation_length Hperm); lia).
    by rewrite <- Hperm.
Qed.

(** What the processes probe has run, when it returns a dict. *)
Lemma process_run self w s r s' procs :
  process_iter (w (clock s)) = Ret procs ->
  get_process_info self w s = (Ret (Some r), s') ->
  exists by_cpu by_memory,
    sorted_by_percent p_cpu_percent procs = Ret by_cpu
    /\ sorted_by_percent p_memory_percent procs = Ret by_memory
    /\ for_each (take 5 by_cpu) []
         (fun acc p => lift (top_entry p_cpu_percent acc p)) w s
       = (Ret (pr_top_cpu r), s)
    /\ for_each (take 5 by_memory) []
         (fun acc p => lift (top_entry p_memory_percent acc p)) w s
       = (Ret (pr_top_memory r), s)
    /\ pr_total r = len procs
    /\ pr_running r = len (filter (fun p => p_status p = Some "running") procs).
Proof.
  intros Hit H. apply guarded_some in H. run_simp H. rewrite Hit in H.
  rewrite scan_pinfo_loop in H. cbn [app] in H. cbv iota beta in H.
  run_simp H.
  destruct (sorted_by_percent p_cpu_percent procs) as [by_cpu|e] eqn:Ecpu;
    run_simp H; [|discriminate H].
  pose proof (top_entries p_cpu_percent procs w s (take 5 by_cpu) []) as Hcpu.
  destruct (for_each (take 5 by_cpu) [] _ w s) as [[top_cpu|e] s1] eqn:Etop;
    [|discriminate H].
  destruct Hcpu as (-> & _); [|constructor|].
  { intros p Hp. apply elem_of_take in Hp as (i & Hp & _).
    apply list_elem_of_lookup_2 in Hp.
    by rewrite (sorted_by_percent_some _ _ _ Ecpu) in Hp. }
  run_simp H.
  destruct (sorted_by_percent p_memory_percent procs) as [by_mem|e] eqn:Emem;
    run_simp H; [|discriminate H].
  pose proof (top_entries p_memory_percent procs w s (take 5 by_mem) []) as Hmem.
  destruct (for_each (take 5 by_mem) [] _ w s) as [[top_mem|e] s1] eqn:Etop';
    [|discriminate H].
  destruct Hmem as (-> & _); [|constructor|].
  { intros p Hp. apply elem_of_take in Hp as (i & Hp & _).
    apply list_elem_of_lookup_2 in Hp.
    by rewrite (sorted_by_percent_some _ _ _ Emem) in Hp. }
  run_simp H. injection H as <- <-. cbn.
  exists by_cpu, by_mem. done.
Qed.

(** The five first of a sorted list are processes of the list. *)
Lemma top_five_listed key procs l :
  sorted_by_percent key procs = Ret l ->
  forall p, p ∈ take 5 l -> p ∈ procs.
Proof.
  intros Hs p Hp. apply elem_of_take in Hp as (i & Hp & _).
  apply list_elem_of_lookup_2 in Hp.
  by rewrite (sorted_by_percent_some _ _ _ Hs) in Hp.
Qed.

(** X9: in the dict of the processes probe total is the number of
    processes psutil listed and running the number of those whose status
    is "running"; each top list holds at most five entries, each the
    "name (x.y%)" of a listed process whose percentage is positive; and
    the probe returns a dict only if every process gave both of its
    percentages. *)
Theorem process_probe_fields self w s r s' procs :
  process_iter (w (clock s)) = Ret procs ->
  get_process_info self w s = (Ret (Some r), s') ->
  pr_total r = len procs
  /\ pr_running r = len (filter (fun p => p_status p = Some "running") procs)
  /\ (pr_running r <= pr_total r)%Z
  /\ Forall (process_entry p_cpu_percent procs) (pr_top_cpu r)
  /\ Forall (process_entry p_memory_percent procs) (pr_top_memory r)
  /\ (length (pr_top_cpu r) <= 5)%nat
  /\ (length (pr_top_memory r) <= 5)%nat
  /\ Forall (fun p => is_Some (p_cpu_percent p) /\ is_Some (p_memory_percent p)) procs.
Proof.
  intros Hit H.
  destruct (process_run self w s r s' procs Hit H)
    as (by_cpu & by_mem & Ecpu & Emem & Etop & Etop' & Htotal & Hrunning).
  pose proof (top_entries p_cpu_percent procs w s (take 5 by_cpu) []
                (top_five_listed _ _ _ Ecpu) (Forall_nil_2 _)) as Hcpu.
  pose proof (top_entries p_memory_percent procs w s (take 5 by_mem) []
                (top_five_listed _ _ _ Emem) (Forall_nil_2 _)) as Hmem.
  rewrite Etop in Hcpu. rewrite Etop' in Hmem.
  destruct Hcpu as (_ & Hcpu & Hlcpu & Hacpu), Hmem as (_ & Hmem & Hlmem & Hamem).
  rewrite length_take in Hlcpu, Hlmem.
  pose proof (Nat.le_min_l 5 (length by_cpu)).
  pose proof (Nat.le_min_l 5 (length by_mem)).
  change (length (@nil string)) with 0%nat in *.
  pose proof (length_filter (fun p => p_status p = Some "running") procs).
  split; [done|]. split; [done|]. split; [rewrite Hrunning, Htotal; unfold len; lia|].
  split; [done|]. split; [done|]. split; [lia|]. split; [lia|].
  pose proof (sorted_by_percent_all _ _ _ Ecpu Hacpu) as Hc.
  pose proof (sorted_by_percent_all _ _ _ Emem Hamem) as Hm.
  apply Forall_forall. intros p Hp.
  rewrite Forall_forall in Hc, Hm. split; eauto.
Qed.

Lemma process_probe_fields_witness :
  exists r s',
    get_process_info enhancer (fun _ => workstation) start = (Ret (Some r), s')
    /\ pr_total r = 5%Z
    /\ pr_running r = 0%Z
    /\ pr_top_cpu r = ["nginx-worker (2.5%)"; "nginx-worker (1.5%)"; "nginx-main (0.2%)"]
    /\ (length (pr_top_memory r) <= 5)%nat.
Proof.
  eassert (get_process_info enhancer (fun _ => workstation) start
           = (Ret (Some _), _)) as E by (vm_compute; reflexivity).
  destruct (process_probe_fields enhancer (fun _ => workstation) start _ _
              workstation_processes eq_refl E)
    as (Htotal & Hrunning & _ & _ & _ & _ & Hmem & _).
  eexists _, _. split; [exact E|]. split; [exact Htotal|]. split; [exact Hrunning|].
  split; [reflexivity | exact Hmem].
Defined.

(** X10: one process that denies its CPU or memory percentage hides them
    all: the comparison of [None] with a number in the sort, or with 0 in
    the loop, is a TypeError, the handler logs it and the probe returns
    [None] (while the logger works). *)
Theorem process_probe_denied self w s procs p :
  logger_works self w ->
  process_iter (w (clock s)) = Ret procs ->
  p ∈ procs ->
  p_cpu_percent p = None \/ p_memory_percent p = None ->
  exists s', get_process_info self w s = (Ret None, s').
Proof.
  intros Hw Hit Hp Hnone.
  assert (is_raise (fst (get_process_info self w s)) = false) as Hr
    by (by apply guarded_no_raise).
  destruct (get_process_info self w s) as [[[r|]|e] s'] eqn:E; [|eauto|done].
  exfalso.
  destruct (process_run self w s r s' procs Hit E)
    as (by_cpu & by_mem & Ecpu & Emem & Etop & Etop' & _).
  pose proof (top_entries p_cpu_percent procs w s (take 5 by_cpu) []
                (top_five_listed _ _ _ Ecpu) (Forall_nil_2 _)) as Hcpu.
  pose proof (top_entries p_memory_percent procs w s (take 5 by_mem) []
                (top_five_listed _ _ _ Emem) (Forall_nil_2 _)) as Hmem.
  rewrite Etop in Hcpu. rewrite Etop' in Hmem.
  destruct Hcpu as (_ & _ & _ & Hacpu), Hmem as (_ & _ & _ & Hamem).
  pose proof (sorted_by_percent_all _ _ _ Ecpu Hacpu) as Hc.
  pose proof (sorted_by_percent_all _ _ _ Emem Hamem) as Hm.
  rewrite Forall_forall in Hc, Hm.
  destruct (Hc p Hp) as [? H1], (Hm p Hp) as [? H2].
  destruct Hnone; congruence.
Qed.

Lemma process_probe_denied_witness :
  exists s',
    get_process_info enhancer (fun _ => denied_host) start = (Ret None, s')
    /\ file_content s' "/var/log/marechan.log"
       = ["2026-03-02T10:15:00 - Error getting process info: " +:+
          "'<' not supported between instances of 'float' and 'NoneType'" +:+ nl].
Proof.
  destruct (process_probe_denied enhancer (fun _ => denied_host) start
              (workstation_processes ++ [a_denied_process]) a_denied_process)
    as (s' & E).
  - intros t. repeat split; reflexivity.
  - reflexivity.
  - apply elem_of_app. right. apply list_elem_of_here.
  - left. reflexivity.
  - exists s'. split; [exact E|].
    assert (get_process_info enhancer (fun _ => denied_host) start
            = (Ret None, s')) as E' by exact E.
    vm_compute in E'. injection E' as <-. vm_compute. reflexivity.
Defined.

(** ** The services probe without systemd *)

(** X11: on a Linux host where [systemctl] cannot be run, the platform
    branch finds no service, whatever [service --status-all] prints: its
    loop fails on the first active line, before it appends, because
    [service_count] is not bound there.  The dict then has running_count 0
    and an empty list of services. *)
Theorem status_all_fallback_lists_nothing self w s e :
  platform_system (w (clock s)) = Ret "Linux" ->
  check_output (w (clock s))
    ["systemctl"; "list-units"; "--type=service"; "--state=running"] = Raise e ->
  listed_services w s = (Ret ([], []), s)
  /\ forall r s',
       get_services_info self w s = (Ret (Some r), s') ->
       sv_running_count r = 0%Z /\ sv_services r = [].
Proof.
  intros Hsys Hctl.
  assert (listed_services w s = (Ret ([], []), s)) as Hl.
  { unfold listed_services. rewrite run_bind, run_call, Hsys. cbn [String.eqb Ascii.eqb Bool.eqb].
    unfold linux_services. rewrite run_try, run_bind, run_call, Hctl.
    rewrite run_try, run_bind, run_call.
    destruct (check_output (w (clock s)) ["service"; "--status-all"]) as [out|e'];
      [|by rewrite run_ret].
    rewrite run_bind.
    destruct (status_all_loop w s (split out nl)) as [->|(e' & ->)];
      by rewrite run_ret. }
  split; [done|]. intros r s' H.
  destruct (services_result self w s r s' H) as (sv & cs & E & Hsv & Hcount & _).
  rewrite Hl in E. injection E as <- <-. by rewrite Hcount, Hsv.
Qed.

Lemma status_all_fallback_lists_nothing_witness :
  contains "[ + ]  nginx" status_all_output = true
  /\ listed_services (fun _ => sysv_host) start = (Ret ([], []), start)
  /\ exists r s',
       get_services_info enhancer (fun _ => sysv_host) start = (Ret (Some r), s')
       /\ sv_running_count r = 0%Z /\ sv_services r = [].
Proof.
  split; [reflexivity|].
  destruct (status_all_fallback_lists_nothing enhancer (fun _ => sysv_host) start
              (Exn "FileNotFoundError" "[Errno 2] No such file or directory: 'systemctl'")
              eq_refl eq_refl) as [Hlisted Hdict].
  split; [exact Hlisted|].
  eassert (get_services_info enhancer (fun _ => sysv_host) start
           = (Ret (Some _), _)) as E by (vm_compute; reflexivity).
  eexists _, _. split; [exact E|]. exact (Hdict _ _ E).
Defined.

(** ** The filesystem probe *)

Lemma add_partitions w s partitions disks :
  exists disks',
    for_each partitions disks add_partition w s = (Ret disks', s)
    /\ map disk_of disks'
       = map disk_of disks
         ++ map partition_of (List.filter (readable (w (clock s))) partitions).
Proof.
  revert disks. induction partitions as [|partition partitions IH]; intros disks;
    cbn [for_each].
  - rewrite run_ret. eexists. split; [done|]. cbn. by rewrite app_nil_r.
  - rewrite run_bind. unfold add_partition at 1.
    rewrite run_try, run_bind, run_call. cbn [List.filter]. unfold readable at 1.
    destruct (disk_usage (w (clock s)) (part_mountpoint partition)) as [usage|e] eqn:E;
      rewrite run_ret.
    + cbn [is_raise negb].
      destruct (IH (disks ++
        [{| dk_device := part_device partition;
            dk_mountpoint := part_mountpoint partition;
            dk_fstype := part_fstype partition;
            dk_total_gb := round2 (truediv (du_total usage) (1024 ^ 3));
            dk_used_gb := round2 (truediv (du_used usage) (1024 ^ 3));
            dk_percent := du_percent usage |}])) as (disks' & -> & Hd).
      eexists. split; [done|]. rewrite Hd, map_app, <- app_assoc. done.
    + cbn [is_raise negb]. apply IH.
Qed.

(** X12: the disks of the dict are the partitions whose usage can be
    read, in the order psutil lists them, each with its device, mount point
    and file system type; a partition whose usage cannot be read is left
    out and costs nothing else.  Without I/O counters the two counts of
    operations are 0. *)
Theorem filesystem_skips_unreadable self w s r s' partitions :
  disk_partitions (w (clock s)) = Ret partitions ->
  get_filesystem_info self w s = (Ret (Some r), s') ->
  map disk_of (fs_disks r)
  = map partition_of (List.filter (readable (w (clock s))) partitions)
  /\ (length (fs_disks r) <= length partitions)%nat
  /\ (disk_io_counters (w (clock s)) = Ret None ->
      fs_io_read r = 0%Z /\ fs_io_write r = 0%Z).
Proof.
  intros Hp H. apply guarded_some in H. run_simp H. rewrite Hp in H. run_simp H.
  destruct (add_partitions w s partitions []) as (disks & E & Hd).
  rewrite E in H. run_simp H.
  destruct (disk_io_counters (w (clock s))) as [io|e]; run_simp H; [|discriminate H].
  injection H as <- <-. cbn. split; [done|]. split.
  - rewrite <- (length_map disk_of), Hd. cbn. rewrite length_map. apply List.filter_length_le.
  - by intros [= ->].
Qed.

Lemma filesystem_skips_unreadable_witness :
  exists r s',
    get_filesystem_info enhancer (fun _ => locked_backup) start = (Ret (Some r), s')
    /\ map disk_of (fs_disks r)
       = [("/dev/sda1", "/", "ext4"); ("tmpfs", "/run", "tmpfs")]
    /\ (length (fs_disks r) <= 3)%nat.
Proof.
  eassert (get_filesystem_info enhancer (fun _ => locked_backup) start
           = (Ret (Some _), _)) as E by (vm_compute; reflexivity).
  destruct (filesystem_skips_unreadable enhancer (fun _ => locked_backup) start _ _
              three_partitions eq_refl E) as (Hdisks & Hlen & _).
  eexists _, _. split; [exact E|]. split; [exact Hdisks | exact Hlen].
Defined.

(** ** The locale probe *)

(** X13: in the dict of the locale probe language and encoding are never
    empty ("Unknown" stands for a missing or empty one), and the three
    formats go together: either [setlocale], [localeconv] and the two
    [strftime] all answered and the dict holds their answers, or one of
    them failed and currency, time format and date format are all
    "Unknown". *)
Theorem locale_formats_all_or_none self w s r s' :
  get_locale_info self w s = (Ret (Some r), s') ->
  li_language r <> EmptyString /\ li_encoding r <> EmptyString
  /\ ((locale_setlocale (w (clock s)) = Ret tt
       /\ locale_currency_symbol (w (clock s)) = Ret (li_currency r)
       /\ time_strftime_X (w (clock s)) = Ret (li_time_format r)
       /\ time_strftime_x (w (clock s)) = Ret (li_date_format r))
      \/ (li_currency r = "Unknown" /\ li_time_format r = "Unknown"
          /\ li_date_format r = "Unknown"
          /\ (is_raise (locale_setlocale (w (clock s))) = true
              \/ is_raise (locale_currency_symbol (w (clock s))) = true
              \/ is_raise (time_strftime_X (w (clock s))) = true
              \/ is_raise (time_strftime_x (w (clock s))) = true))).
Proof.
  intros H. apply guarded_some in H.
  assert (forall o, or_unknown o <> EmptyString) as Hu.
  { intros [[|c x]|]; done. }
  run_inv H.
  all: injection H as <- <-; cbn.
  all: split; [apply Hu|]; split; [apply Hu|].
  all: repeat match goal with u : unit |- _ => destruct u end.
  all: first [ left; repeat split; congruence
             | right; repeat split; try done; tauto ].
Qed.

Lemma locale_formats_all_or_none_witness :
  exists r s',
    get_locale_info enhancer (fun _ => missing_locale) start = (Ret (Some r), s')
    /\ li_language r <> EmptyString
    /\ li_currency r = "Unknown" /\ li_time_format r = "Unknown"
    /\ li_date_format r = "Unknown".
Proof.
  eassert (get_locale_info enhancer (fun _ => missing_locale) start
           = (Ret (Some _), _)) as E by (vm_compute; reflexivity).
  destruct (locale_formats_all_or_none enhancer (fun _ => missing_locale) start _ _ E)
    as (Hlang & _ & [(Hset & _)|(Hc & Ht & Hd & _)]); [discriminate Hset|].
  eexists _, _. split; [exact E|]. split; [exact Hlang|]. split; [exact Hc|].
  split; [exact Ht | exact Hd].
Defined.

(** ** The timezone probe *)

Lemma timezone_fields self w s r s' :
  get_timezone_info self w s = (Ret (Some r), s') ->
  exists isdst,
    time_localtime_isdst (w (clock s)) = Ret isdst
    /\ tz_dst_active r = negb (isdst =? 0)%Z
    /\ tz_utc_offset r
       = format_plus_g (round2 (truediv (offset_seconds (w (clock s)) isdst) (-3600)))
         +:+ " hours"
    /\ (length (tz_examples r) <= 5)%nat.
Proof.
  intros H. apply guarded_some in H. unfold offset_seconds.
  run_inv H.
  all: repeat match goal with E : Ret _ = Ret _ |- _ => injection E as -> end.
  all: injection H as <- <-; cbn.
  all: eexists; split; [first [reflexivity | eassumption]|]; split; [done|].
  all: rewrite ?length_take; split; [|lia].
  all: repeat match goal with H : ?b = _ |- context [?b] => rewrite H end.
  all: done.
Qed.

(** X14: dst_active is true exactly when [tm_isdst] is not 0, while the
    offset is taken from [altzone] only when [tm_isdst] is positive: when
    the C library does not know ([tm_isdst] negative), the dict says that
    daylight saving time is active and gives the standard offset. *)
Theorem dst_flag_and_offset self w s r s' isdst :
  time_localtime_isdst (w (clock s)) = Ret isdst ->
  get_timezone_info self w s = (Ret (Some r), s') ->
  (tz_dst_active r = true <-> isdst <> 0%Z)
  /\ ((isdst < 0)%Z ->
      tz_dst_active r = true
      /\ tz_utc_offset r
         = format_plus_g (round2 (truediv (time_timezone (w (clock s))) (-3600)))
           +:+ " hours").
Proof.
  intros Hd H. destruct (timezone_fields self w s r s' H) as (i & Hi & Hf & Ho & _).
  rewrite Hd in Hi. injection Hi as <-. split.
  - rewrite Hf. destruct (Z.eqb_spec isdst 0); cbn; split; congruence.
  - intros Hneg. split.
    + rewrite Hf. destruct (Z.eqb_spec isdst 0); [lia | done].
    + rewrite Ho. unfold offset_seconds.
      destruct (Z.ltb_spec 0 isdst); [lia|]. by rewrite andb_false_r.
Qed.

Lemma dst_flag_and_offset_witness :
  exists r s',
    get_timezone_info enhancer (fun _ => dst_unknown) start = (Ret (Some r), s')
    /\ tz_dst_active r = true
    /\ tz_utc_offset r = "+1 hours".
Proof.
  eassert (get_timezone_info enhancer (fun _ => dst_unknown) start
           = (Ret (Some _), _)) as E by (vm_compute; reflexivity).
  destruct (dst_flag_and_offset enhancer (fun _ => dst_unknown) start _ _ (-1)%Z
              eq_refl E) as [_ Hunknown].
  destruct Hunknown as [Hflag Hoffset]; [lia|].
  eexists _, _. split; [exact E|]. split; [exact Hflag | exact Hoffset].
Defined.

Lemma quarter_hours_table :
  forallb (fun q => String.eqb (format_plus_g (round2 (truediv (-900 * q) (-3600))))
                               (quarter_hours_text q))
          quarter_hour_offsets = true.
Proof. vm_compute. reflexivity. Qed.

(** X15: for an offset of a whole number of quarters of an hour between
    UTC-12:00 and UTC+14:00 the text of the dict is the signed number of
    hours east of Greenwich without trailing zeros ("+5.5 hours",
    "-3.75 hours", "+1 hours"); for UTC itself it is "-0 hours". *)
Theorem utc_offset_text self w s r s' isdst (q : Z) :
  (-48 <= q <= 56)%Z ->
  time_localtime_isdst (w (clock s)) = Ret isdst ->
  offset_seconds (w (clock s)) isdst = (-900 * q)%Z ->
  get_timezone_info self w s = (Ret (Some r), s') ->
  tz_utc_offset r = quarter_hours_text q +:+ " hours".
Proof.
  intros Hq Hd Hoff H.
  destruct (timezone_fields self w s r s' H) as (i & Hi & _ & Ho & _).
  rewrite Hd in Hi. injection Hi as <-. rewrite Ho, Hoff. f_equal.
  pose proof quarter_hours_table as Ht. rewrite forallb_forall in Ht.
  apply String.eqb_eq, Ht. unfold quarter_hour_offsets.
  apply in_map_iff. exists (Z.to_nat (q + 48)).
  split; [lia|]. apply in_seq. lia.
Qed.

Lemma utc_offset_text_witness :
  (exists r s',
     get_timezone_info enhancer (fun _ => in_kolkata) start = (Ret (Some r), s')
     /\ tz_utc_offset r = "+5.5 hours")
  /\ (exists r s',
        get_timezone_info enhancer (fun _ => workstation) start = (Ret (Some r), s')
        /\ tz_utc_offset r = "-0 hours").
Proof.
  split.
  - eassert (get_timezone_info enhancer (fun _ => in_kolkata) start
             = (Ret (Some _), _)) as E by (vm_compute; reflexivity).
    eexists _, _. split; [exact E|].
    exact (utc_offset_text enhancer (fun _ => in_kolkata) start _ _ 0%Z 22%Z
             ltac:(lia) eq_refl eq_refl E).
  - eassert (get_timezone_info enhancer (fun _ => workstation) start
             = (Ret (Some _), _)) as E by (vm_compute; reflexivity).
    eexists _, _. split; [exact E|].
    exact (utc_offset_text enhancer (fun _ => workstation) start _ _ 0%Z 0%Z
             ltac:(lia) eq_refl eq_refl E).
Defined.

(** ** The network probe *)

Lemma hex_digit_value d :
  (0 <= d < 16)%Z ->
  exists c, hex_digit d = String c EmptyString
            /\ Ascii.eqb c ":" = false /\ hex_value c = Some d.
Proof.
  intros Hd.
  assert (d ∈ [0;1;2;3;4;5;6;7;8;9;10;11;12;13;14;15]%Z) as Hin.
  { apply list_elem_of_In. cbn. lia. }
  repeat (apply elem_of_cons in Hin as [->|Hin];
          [eexists; split; [vm_compute; reflexivity|]; split; vm_compute; reflexivity|]).
  by apply elem_of_nil in Hin.
Qed.

Lemma mac_value_hex2 acc b rest :
  (0 <= b < 256)%Z ->
  mac_value acc (hex2 b +:+ rest) = mac_value (256 * acc + b) rest.
Proof.
  intros Hb. unfold hex2.
  destruct (hex_digit_value (b / 16)) as (c1 & -> & Hc1 & Hv1);
    [split; [apply Z.div_pos; lia | apply Z.div_lt_upper_bound; lia]|].
  destruct (hex_digit_value (b mod 16)) as (c2 & -> & Hc2 & Hv2);
    [apply Z.mod_pos_bound; lia|].
  simpl. rewrite Hc1, Hv1, Hc2, Hv2. f_equal.
  pose proof (Z.div_mod b 16). lia.
Qed.

Lemma mac_value_colon acc rest :
  mac_value acc (":" +:+ rest) = mac_value acc rest.
Proof. reflexivity. Qed.

Lemma byte_of_node node k :
  (0 <= k)%Z ->
  Z.land (Z.shiftr node k) 255 = ((node / 2 ^ k) mod 256)%Z.
Proof.
  intros Hk. rewrite Z.shiftr_div_pow2 by done.
  change 255%Z with (Z.ones 8). by rewrite Z.land_ones.
Qed.

Lemma network_fields self w s r s' :
  get_network_info self w s = (Ret (Some r), s') ->
  exists hostname node addrs,
    socket_gethostname (w (clock s)) = Ret hostname
    /\ uuid_getnode (w (clock s)) = Ret node
    /\ net_if_addrs (w (clock s)) = Ret addrs
    /\ ni_hostname r = hostname
    /\ ni_interfaces r = addrs
    /\ ni_mac_address r
       = join ":" (map (fun k => hex2 (Z.land (Z.shiftr node k) 255))
                       [40; 32; 24; 16; 8; 0]%Z)
    /\ ni_local_ip r
       = match socket_local_ip (w (clock s)) with
         | Ret ip => ip
         | Raise _ => "127.0.0.1"
         end
    /\ ((ni_internet_available r = true
         /\ exists start stop,
              time_time (w (clock s)) = Ret start
              /\ requests_get (w (S (clock s))) "https://www.google.com" = Ret tt
              /\ time_time (w (S (clock s))) = Ret stop
              /\ ni_latency r
                 = NFloat (round2 (PrimFloat.mul (PrimFloat.sub stop start)
                                                 (float_of_int 1000))))
        \/ (ni_internet_available r = false /\ ni_latency r = NInt (-1)
            /\ last (network_lines r) = Some "Internet connection: Unavailable")).
Proof.
  intros H. apply guarded_some in H.
  assert (forall (l acc : list string),
            fold_left (fun acc iface => acc ++ [iface]) l acc = acc ++ l) as Hfold.
  { induction l as [|x l IH]; intros acc; cbn; [by rewrite app_nil_r|].
    by rewrite IH, <- app_assoc. }
  run_inv H.
  all: repeat match goal with u : unit |- _ => destruct u end.
  all: injection H as <- <-; cbn -[hex2 join].
  all: eexists _, _, _; repeat (split; [first [reflexivity | eassumption | apply Hfold]|]).
  all: first [ left; split; [done|]; eexists _, _; repeat split; eassumption
             | right; repeat split; done ].
Qed.

Lemma string_length_app (a b : string) :
  String.length (a +:+ b) = (String.length a + String.length b)%nat.
Proof.
  induction a as [|c a IH]; [done|].
  change (String c a +:+ b) with (String c (a +:+ b)). cbn [String.length].
  by rewrite IH.
Qed.

Lemma string_app_nil_r (a : string) : a +:+ EmptyString = a.
Proof.
  induction a as [|c a IH]; [done|].
  change (String c a +:+ EmptyString) with (String c (a +:+ EmptyString)).
  by rewrite IH.
Qed.

Lemma hex2_length b : String.length (hex2 b) = 2%nat.
Proof. reflexivity. Qed.

(** X16: the MAC address of the dict is seventeen characters long and
    stands for the node number of [uuid.getnode()], a number below 2^48:
    its six groups of two lower-case hexadecimal digits, read from the
    left, give the number back. *)
Theorem mac_address_round_trip self w s r s' node :
  uuid_getnode (w (clock s)) = Ret node ->
  (0 <= node < 2 ^ 48)%Z ->
  get_network_info self w s = (Ret (Some r), s') ->
  String.length (ni_mac_address r) = 17%nat
  /\ mac_value 0 (ni_mac_address r) = Some node.
Proof.
  intros Hnode Hrange H.
  destruct (network_fields self w s r s' H)
    as (hostname & node' & addrs & _ & Hn & _ & _ & _ & -> & _).
  rewrite Hnode in Hn. injection Hn as <-.
  cbn [map join]. split.
  - rewrite !string_length_app, !hex2_length. reflexivity.
  - rewrite !byte_of_node by lia.
    rewrite <- (string_app_nil_r (hex2 ((node / 2 ^ 0) mod 256))).
    repeat (rewrite mac_value_hex2 by (apply Z.mod_pos_bound; lia);
            rewrite ?mac_value_colon).
    cbn [mac_value]. f_equal.
    change (2 ^ 0)%Z with 1%Z. change (2 ^ 8)%Z with 256%Z.
    change (2 ^ 16)%Z with 65536%Z. change (2 ^ 24)%Z with 16777216%Z.
    change (2 ^ 32)%Z with 4294967296%Z. change (2 ^ 40)%Z with 1099511627776%Z.
    change (2 ^ 48)%Z with 281474976710656%Z in Hrange.
    Z.div_mod_to_equations. lia.
Qed.

Lemma mac_address_round_trip_witness :
  exists r s',
    get_network_info enhancer (fun _ => workstation) start = (Ret (Some r), s')
    /\ ni_mac_address r = "02:42:ac:11:00:02"
    /\ mac_value 0 (ni_mac_address r) = Some 0x0242ac110002%Z.
Proof.
  eassert (get_network_info enhancer (fun _ => workstation) start
           = (Ret (Some _), _)) as E by (vm_compute; reflexivity).
  destruct (mac_address_round_trip enhancer (fun _ => workstation) start _ _
              0x0242ac110002%Z eq_refl ltac:(lia) E) as [_ Hmac].
  eexists _, _. split; [exact E|]. split; [reflexivity | exact Hmac].
Defined.

(** X17: a host without a network does not fail the network probe.  When
    the host name, the socket, the node number and the interfaces can be
    read, the probe returns a dict; a failure of the look-up of the local
    address leaves 127.0.0.1 in it, and a failure of the request to
    www.google.com leaves internet_available false and latency -1, which
    the block renders as "Internet connection: Unavailable". *)
Theorem network_probe_tolerates_offline self w s hostname node addrs :
  socket_gethostname (w (clock s)) = Ret hostname ->
  socket_socket (w (clock s)) = Ret tt ->
  uuid_getnode (w (clock s)) = Ret node ->
  net_if_addrs (w (clock s)) = Ret addrs ->
  exists r s',
    get_network_info self w s = (Ret (Some r), s')
    /\ ni_hostname r = hostname
    /\ (is_raise (socket_local_ip (w (clock s))) = true ->
        ni_local_ip r = "127.0.0.1")
    /\ (is_raise (requests_get (w (S (clock s))) "https://www.google.com") = true ->
        ni_internet_available r = false
        /\ ni_latency r = NInt (-1)
        /\ last (network_lines r) = Some "Internet connection: Unavailable").
Proof.
  intros Hh Hs Hn Ha.
  destruct (get_network_info self w s) as [[[r|]|e] s'] eqn:E.
  - exists r, s'. split; [done|].
    destruct (network_fields self w s r s' E)
      as (hostname' & node' & addrs' & Hh' & _ & _ & <- & _ & _ & Hip & Hnet).
    split; [congruence|]. split.
    + intros Hr. rewrite Hip. by destruct (socket_local_ip _).
    + intros Hr. destruct Hnet as [(_ & start & stop & _ & Hreq & _)|(? & ? & ?)]; [|done].
      by rewrite Hreq in Hr.
  - exfalso. unfold get_network_info in E. rewrite run_try in E.
    run_simp E. rewrite Hh in E. run_simp E. rewrite Hs in E. run_simp E.
    destruct (socket_local_ip (w (clock s))); run_simp E; rewrite Hn in E;
      run_simp E; rewrite Ha in E; run_inv E.
  - exfalso. unfold get_network_info in E. rewrite run_try in E.
    run_simp E. rewrite Hh in E. run_simp E. rewrite Hs in E. run_simp E.
    destruct (socket_local_ip (w (clock s))); run_simp E; rewrite Hn in E;
      run_simp E; rewrite Ha in E; run_inv E.
Qed.

Lemma network_probe_tolerates_offline_witness :
  exists r s',
    get_network_info enhancer (fun _ => offline) start = (Ret (Some r), s')
    /\ ni_local_ip r = "127.0.0.1"
    /\ ni_internet_available r = false
    /\ ni_latency r = NInt (-1)
    /\ last (network_lines r) = Some "Internet connection: Unavailable".
Proof.
  destruct (network_probe_tolerates_offline enhancer (fun _ => offline) start
              "marechan" 0x0242ac110002%Z ["lo"; "eth0"] eq_refl eq_refl eq_refl eq_refl)
    as (r & s' & E & _ & Hip & Hnet).
  exists r, s'. split; [exact E|]. split; [exact (Hip eq_refl)|]. exact (Hnet eq_refl).
Defined.

(** ** The system probe: the uptime *)

(** X18: the uptime text "D days, H hours, M minutes" splits the time
    elapsed since the boot: H is below 24 and M below 60, and D days, H
    hours and M minutes are the elapsed whole seconds less a remainder
    below one minute. *)
Theorem uptime_decomposition self w s r s' :
  get_system_info self w s = (Ret (Some r), s') ->
  exists bt boot now days hours minutes,
    boot_time (w (S (clock s))) = Ret bt
    /\ datetime_fromtimestamp (w (S (clock s))) bt = Ret boot
    /\ datetime_now (w (S (clock s))) = Ret now
    /\ si_uptime r = str_int days +:+ " days, " +:+ str_int hours +:+ " hours, "
                     +:+ str_int minutes +:+ " minutes"
    /\ (0 <= hours < 24)%Z /\ (0 <= minutes < 60)%Z
    /\ (0 <= (dt_micros now - dt_micros boot) / 1000000
             - (days * 86400 + hours * 3600 + minutes * 60) < 60)%Z.
Proof.
  intros H. apply guarded_some in H. run_inv H.
  all: injection H as <- <-; cbn [si_uptime].
  all: eexists _, _, _, _, _, _.
  all: do 3 (split; [first [reflexivity | eassumption]|]).
  all: split; [reflexivity|].
  all: match goal with
       | |- context [(dt_micros ?n - dt_micros ?b)%Z] =>
           generalize (dt_micros n - dt_micros b)%Z; intros u
       end.
  all: Z.div_mod_to_equations; lia.
Qed.

Lemma uptime_decomposition_witness :
  exists r s',
    get_system_info enhancer (fun _ => workstation) start = (Ret (Some r), s')
    /\ si_uptime r = "1 days, 0 hours, 0 minutes"
    /\ exists hours minutes, (0 <= hours < 24)%Z /\ (0 <= minutes < 60)%Z.
Proof.
  eassert (get_system_info enhancer (fun _ => workstation) start
           = (Ret (Some _), _)) as E by (vm_compute; reflexivity).
  destruct (uptime_decomposition enhancer (fun _ => workstation) start _ _ E)
    as (bt & boot & now & days & hours & minutes & _ & _ & _ & _ & Hh & Hm & _).
  eexists _, _. split; [exact E|]. split; [reflexivity|].
  exists hours, minutes. split; [exact Hh | exact Hm].
Defined.

(** ** The hardware probe *)

(** X19: the hardware dict tells the boot mode on Linux only ("UEFI" when
    /sys/firmware/efi exists, "Legacy BIOS" otherwise) and the BIOS
    version on Windows only (that of the last BIOS entry of WMI, "Unknown"
    when WMI fails or has none): on every host one of the two is
    "Unknown".  Machine type and processor are the answers of
    [platform]. *)
Theorem hardware_by_platform self w s r s' :
  get_hardware_info self w s = (Ret (Some r), s') ->
  exists sys,
    platform_system (w (clock s)) = Ret sys
    /\ platform_machine (w (clock s)) = Ret (hw_machine_type r)
    /\ platform_processor (w (clock s)) = Ret (hw_processor r)
    /\ hw_boot_mode r
       = (if String.eqb sys "Linux"
          then if os_path_exists (w (clock s)) "/sys/firmware/efi"
               then "UEFI" else "Legacy BIOS"
          else "Unknown")
    /\ hw_bios_version r
       = (if String.eqb sys "Windows"
          then match wmi_bios_versions (w (clock s)) with
               | Ret versions => default "Unknown" (last versions)
               | Raise _ => "Unknown"
               end
          else "Unknown")
    /\ (hw_bios_version r = "Unknown" \/ hw_boot_mode r = "Unknown").
Proof.
  intros H. apply guarded_some in H.
  assert (forall (versions : list string) acc,
            fold_left (fun _ version => version) versions acc
            = default acc (last versions)) as Hlast.
  { induction versions as [|v versions IH]; intros acc; cbn [fold_left]; [done|].
    rewrite IH, last_cons. by destruct (last versions). }
  run_simp H.
  destruct (platform_machine (w (clock s))) as [machine|]; run_simp H; [|discriminate H].
  destruct (platform_processor (w (clock s))) as [processor|]; run_simp H;
    [|discriminate H].
  destruct (platform_system (w (clock s))) as [sys|] eqn:Hsys; run_simp H;
    [|discriminate H].
  exists sys. split; [done|].
  run_inv H.
  all: repeat match goal with E : Ret _ = Ret _ |- _ => injection E as -> end.
  all: try match goal with
            | E1 : String.eqb ?x "Windows" = true, E2 : String.eqb ?x "Linux" = true
              |- _ =>
                apply String.eqb_eq in E1; apply String.eqb_eq in E2; congruence
            end.
  all: injection H as <- <-; cbn.
  all: repeat match goal with E : String.eqb _ _ = _ |- _ => rewrite E end.
  all: repeat match goal with E : os_path_exists _ _ = _ |- _ => rewrite E end.
  all: rewrite ?Hlast; auto 10.
Qed.

Lemma hardware_by_platform_witness :
  exists r s',
    get_hardware_info enhancer (fun _ => workstation) start = (Ret (Some r), s')
    /\ hw_boot_mode r = "UEFI"
    /\ hw_bios_version r = "Unknown".
Proof.
  eassert (get_hardware_info enhancer (fun _ => workstation) start
           = (Ret (Some _), _)) as E by (vm_compute; reflexivity).
  destruct (hardware_by_platform enhancer (fun _ => workstation) start _ _ E)
    as (sys & Hsys & _ & _ & Hboot & Hbios & _).
  injection Hsys as <-.
  eexists _, _. split; [exact E|]. split; [exact Hboot | exact Hbios].
Defined.

(** ** The size of the text added to a prompt *)

Lemma if_info_length {A} (lines : A -> list string) (info : option A) n :
  (forall i, length (lines i) <= n)%nat -> (length (if_info lines info) <= n)%nat.
Proof. intros H. destruct info; cbn; [apply H | lia]. Qed.

Ltac block_of H run :=
  destruct run as [[?|?] ?]; [|discriminate H];
  rewrite run_ret in H; injection H as <- <-;
  try (apply if_info_length; intros ?).

Lemma block_has_at_most_seven_lines self k w s lines s' :
  sections_of self k w s = (Ret lines, s') ->
  (length lines <= 7)%nat.
Proof.
  unfold sections_of.
  repeat match goal with |- context [if ?b then _ else _] => destruct b end.
  all: rewrite ?run_bind, ?run_ret; intros H.
  14: { injection H as <- <-. cbn. lia. }
  - block_of H (get_current_time_info w s). cbn. lia.
  - block_of H (get_system_info self w s). cbn. lia.
  - block_of H (get_network_info self w s). cbn. lia.
  - block_of H (get_locale_info self w s). cbn. lia.
  - block_of H (get_timezone_info self w s). cbn. lia.
  - block_of H (get_performance_metrics self w s). cbn. lia.
  - block_of H (get_hardware_info self w s). cbn. lia.
  - block_of H (get_users_info self w s). cbn. lia.
  - block_of H (get_network_traffic self w s). cbn. lia.
  - block_of H (get_open_ports self w s).
    unfold ports_lines. rewrite !length_app. destruct (_ <? _)%Z; cbn [length]; lia.
  - block_of H (get_process_info self w s). cbn. lia.
  - block_of H (get_filesystem_info self w s).
    unfold filesystem_lines. rewrite !length_app, length_map, length_take.
    destruct (_ <? _)%Z; cbn [length]; lia.
  - block_of H (get_services_info self w s).
    unfold services_lines. rewrite !length_app. destruct (_ <? _)%Z; cbn [length]; lia.
Qed.

(** X20: no kind adds more than seven lines: the lines collected for a
    selection are at most seven times as many as the elements of the
    selection, whatever the host answers (the lists inside a block are cut
    to three, five or ten entries). *)
Theorem sections_are_bounded self l w s secs s' :
  collect_sections self l w s = (Ret secs, s') ->
  (length secs <= 7 * length l)%nat.
Proof.
  unfold collect_sections.
  change (length secs <= 7 * length l)%nat
    with (length secs <= length (@nil string) + 7 * length l)%nat.
  generalize (@nil string) as acc.
  revert w s. induction l as [|k l IH]; intros w s acc; cbn [for_each].
  - rewrite run_ret. intros [= <- <-]. lia.
  - rewrite !run_bind.
    destruct (sections_of self k w s) as [[lines|e] s1] eqn:E; [|done].
    rewrite run_ret. intros H. apply IH in H.
    apply block_has_at_most_seven_lines in E.
    rewrite length_app in H. cbn [length]. lia.
Qed.

Lemma sections_are_bounded_witness :
  exists secs s',
    collect_sections enhancer ["time"; "ports"; "network_traffic"]
      (fun _ => workstation) start = (Ret secs, s')
    /\ length secs = 15%nat
    /\ (length secs <= 21)%nat.
Proof.
  eassert (collect_sections enhancer ["time"; "ports"; "network_traffic"]
             (fun _ => workstation) start = (Ret _, _)) as E
    by (vm_compute; reflexivity).
  eexists _, _. split; [exact E|]. split; [reflexivity|].
  exact (sections_are_bounded enhancer _ _ _ _ _ E).
Defined.

(** ** A selection given as a bare str *)

(** X21: a selection that is a str without "all" inside, the name of a
    kind included ("time" instead of ["time"]), selects nothing: the loop
    goes through its characters, none of which is a kind, no probe is
    called and the base prompt is returned as it is. *)
Theorem bare_string_selects_nothing self base (name : string) w s :
  contains "all" name = false ->
  enhance_prompt self base (SelStr name) w s = (Ret base, s).
Proof.
  intros Hall. unfold enhance_prompt. rewrite run_bind.
  destruct (str_selection_without_all self name w s Hall) as [-> ->].
  by rewrite run_ret.
Qed.

Lemma bare_string_selects_nothing_witness :
  enhance_prompt enhancer "Answer politely." (SelStr "time") (fun _ => workstation) start
  = (Ret "Answer politely.", start).
Proof.
  apply (bare_string_selects_nothing enhancer "Answer politely." "time").
  reflexivity.
Defined.

(** ** The parser of emails *)

Lemma log_works_message logger w message s :
  log_works logger w ->
  exists s', Logger.log_message logger message true w s = (Ret tt, s')
             /\ clock s' = clock s.
Proof.
  intros Hw.
  apply (log_message_returns {| PromptEnhancer.logger := logger |} w message s Hw).
Qed.

Lemma lower_ascii_idemp c : lower_ascii (lower_ascii c) = lower_ascii c.
Proof. destruct c as [[] [] [] [] [] [] [] []]; reflexivity. Qed.

Lemma lower_idemp s : lower (lower s) = lower s.
Proof. induction s as [|c s IH]; cbn; [done|]. by rewrite lower_ascii_idemp, IH. Qed.

Lemma is_assistant_address_spec sender_email items :
  EmailParser.is_assistant_address sender_email items = true
  <-> exists address, assistant_address items address /\ lower address = sender_email.
Proof.
  induction items as [|[name config] items IH]; cbn.
  - split; [done|]. intros (a & (n & c & e & Hin & _) & _). by apply elem_of_nil in Hin.
  - assert (forall a, assistant_address ((name, config) :: items) a
              <-> (exists e, Config.cfg_email config = Some e /\ Config.ec_sender e = Some a)
                  \/ assistant_address items a) as Hcons.
    { intros a. unfold assistant_address. split.
      - intros (n & c & e & Hin & He & Hs).
        apply elem_of_cons in Hin as [[= -> ->]|Hin]; [left; eauto | right; eauto 6].
      - intros [(e & He & Hs)|(n & c & e & Hin & He & Hs)].
        + exists name, config, e. split; [apply list_elem_of_here | done].
        + exists n, c, e. split; [by apply list_elem_of_further | done]. }
    destruct (Config.cfg_email config) as [email|] eqn:Ee.
    + destruct (Config.ec_sender email) as [address|] eqn:Es.
      * destruct (String.eqb_spec sender_email (lower address)) as [->|Hne].
        -- split; [|done]. intros _. exists address. split; [|done].
           apply Hcons. left. eauto.
        -- rewrite IH. split.
           ++ intros (a & Ha & Hl). exists a. split; [|done]. apply Hcons. by right.
           ++ intros (a & Ha & Hl). apply Hcons in Ha as [(e & [= <-] & Hs)|Ha].
              ** rewrite Es in Hs. injection Hs as <-. congruence.
              ** eauto.
      * rewrite IH. split.
        -- intros (a & Ha & Hl). exists a. split; [|done]. apply Hcons. by right.
        -- intros (a & Ha & Hl). apply Hcons in Ha as [(e & [= <-] & Hs)|Ha].
           ++ congruence.
           ++ eauto.
    + rewrite IH. split.
      * intros (a & Ha & Hl). exists a. split; [|done]. apply Hcons. by right.
      * intros (a & Ha & Hl). apply Hcons in Ha as [(e & He & Hs)|Ha]; [done | eauto].
Qed.

(** X22: for addresses written in ASCII (the characters on which [lower]
    is [str.lower()]), [is_no_reply_address] answers True exactly for an
    address that, in lower case, holds "noreply", "no-reply" or "daemon",
    or is the sender address of one of the assistants, letter case apart;
    the case of the letters of the address does not change the answer.
    Without a sender ([None], a mail without a From header) the call
    raises. *)
Theorem no_reply_addresses sender assistants_config :
  isascii sender = true ->
  (forall items address,
      assistants_config = Some items -> assistant_address items address ->
      isascii address = true) ->
  (exists b,
     EmailParser.is_no_reply_address (Some sender) assistants_config = Ret b
     /\ (b = true <->
         no_reply_word (lower sender)
         \/ exists items address,
              assistants_config = Some items /\ assistant_address items address
              /\ lower address = lower sender)
     /\ EmailParser.is_no_reply_address (Some (lower sender)) assistants_config = Ret b)
  /\ is_raise (EmailParser.is_no_reply_address None assistants_config) = true.
Proof.
  intros _ _. split; [|reflexivity].
  unfold EmailParser.is_no_reply_address, no_reply_word. cbn [EmailParser.lower_of].
  rewrite lower_idemp.
  destruct (contains "noreply" (lower sender)); [eexists; split; [done|]; split; [tauto | done]|].
  destruct (contains "no-reply" (lower sender)); [eexists; split; [done|]; split; [tauto | done]|].
  destruct (contains "daemon" (lower sender)); [eexists; split; [done|]; split; [tauto | done]|].
  cbn [orb]. destruct assistants_config as [items|].
  - eexists. split; [done|]. split; [|done]. rewrite is_assistant_address_spec. split.
    + intros (a & Ha & Hl). right. eauto.
    + intros [[?|[?|?]]|(items' & a & [= <-] & Ha & Hl)]; [done..|]. eauto.
  - eexists. split; [done|]. split; [|done]. split; [done|].
    intros [[?|[?|?]]|(items' & a & ? & _)]; done.
Qed.

Lemma no_reply_addresses_witness :
  EmailParser.is_no_reply_address (Some "Mailer-Daemon@Example.org")
    (Some assistants_file) = Ret true
  /\ EmailParser.is_no_reply_address (Some "mailer-daemon@example.org")
       (Some assistants_file) = Ret true
  /\ EmailParser.is_no_reply_address (Some "MARECHAN@Douxx.Tech")
       (Some assistants_file) = Ret true
  /\ EmailParser.is_no_reply_address (Some "Alice <alice@example.org>")
       (Some assistants_file) = Ret false.
Proof.
  assert (forall items address,
            Some assistants_file = Some items -> assistant_address items address ->
            isascii address = true) as Hfile.
  { intros items address [= <-] (name & config & email & Hin & Hc & Hs).
    apply list_elem_of_In in Hin. cbn in Hin.
    destruct Hin as [Hin|[Hin|[Hin|[]]]]; injection Hin as <- <-;
      cbn in Hc; injection Hc as <-; cbn in Hs; injection Hs as <-; reflexivity. }
  assert (assistant_address assistants_file "Marechan@douxx.tech") as Hmarechan.
  { exists "Marechan", marechan_config, {| Config.ec_sender := Some "Marechan@douxx.tech" |}.
    split; [|split; reflexivity]. apply list_elem_of_In. cbn. tauto. }
  destruct (no_reply_addresses "Mailer-Daemon@Example.org" (Some assistants_file)
              eq_refl Hfile) as ((b1 & E1 & Hb1 & L1) & _).
  destruct (no_reply_addresses "MARECHAN@Douxx.Tech" (Some assistants_file)
              eq_refl Hfile) as ((b2 & E2 & Hb2 & _) & _).
  destruct (no_reply_addresses "Alice <alice@example.org>" (Some assistants_file)
              eq_refl Hfile) as ((b3 & E3 & Hb3 & _) & _).
  assert (b1 = true) as -> by (apply Hb1; left; right; right; reflexivity).
  assert (b2 = true) as ->.
  { apply Hb2. right. exists assistants_file, "Marechan@douxx.tech".
    split; [reflexivity|]. split; [exact Hmarechan | reflexivity]. }
  split; [exact E1|]. split; [exact L1|]. split; [exact E2|].
  rewrite E3. f_equal. destruct b3; [|reflexivity].
  destruct Hb3 as [Hb3 _]. destruct (Hb3 eq_refl) as [[H|[H|H]]|(items & a & [= <-] & Ha & Hl)].
  - discriminate H.
  - discriminate H.
  - discriminate H.
  - destruct Ha as (name & config & email & Hin & Hc & Hs).
    apply list_elem_of_In in Hin. cbn in Hin.
    destruct Hin as [Hin|[Hin|[Hin|[]]]]; injection Hin as <- <-;
      cbn in Hc; injection Hc as <-; cbn in Hs; injection Hs as <-; discriminate Hl.
Defined.





(** X24: a mail without a To header stops [detect_assistant]: the
    recipient is [None], its [lower] raises, nothing is logged and the
    error goes to the caller. *)
Theorem detect_assistant_needs_a_recipient self data assistants_config
    default_assistant w s :
  EmailParser.ed_recipient data = None ->
  exists e,
    EmailParser.detect_assistant self data assistants_config default_assistant w s
    = (Raise e, s).
Proof.
  intros Hr. unfold EmailParser.detect_assistant. rewrite Hr.
  cbn [EmailParser.lower_of]. rewrite run_bind, run_lift. eauto.
Qed.

Lemma detect_assistant_needs_a_recipient_witness :
  exists e,
    EmailParser.detect_assistant a_parser an_unaddressed_email assistants_file "default"
      (fun _ => workstation) start = (Raise e, start).
Proof.
  apply (detect_assistant_needs_a_recipient a_parser an_unaddressed_email
           assistants_file "default" (fun _ => workstation) start).
  reflexivity.
Defined.












(** X26: an error of the library that parses the mail is logged, as
    "ERROR extracting email: ..." in both log files, and raised again as
    it is (while the logger works). *)
Theorem extract_email_content_reraises parse self raw e w s :
  log_works (EmailParser.logger self) w ->
  parse raw = Raise e ->
  exists s',
    EmailParser.extract_email_content parse self raw w s = (Raise e, s')
    /\ Logger.log_message (EmailParser.logger self)
         ("ERROR extracting email: " +:+ str_exn e) true w s = (Ret tt, s').
Proof.
  intros Hw Hp. unfold EmailParser.extract_email_content.
  rewrite run_try, run_bind, run_lift, Hp. rewrite run_bind.
  destruct (log_works_message (EmailParser.logger self) w
              ("ERROR extracting email: " +:+ str_exn e) s Hw) as (s' & -> & _).
  eauto.
Qed.

Lemma extract_email_content_reraises_witness :
  exists s',
    EmailParser.extract_email_content message_from_string a_parser EmptyString
      (fun _ => workstation) start
    = (Raise (Exn "TypeError" "initial_value must be str or None"), s')
    /\ Logger.log_message a_logger
         "ERROR extracting email: initial_value must be str or None" true
         (fun _ => workstation) start = (Ret tt, s').
Proof.
  apply (extract_email_content_reraises message_from_string a_parser EmptyString
           (Exn "TypeError" "initial_value must be str or None")
           (fun _ => workstation) start).
  - intros t. repeat split; reflexivity.
  - reflexivity.
Defined.

(** ** The client of the AI *)

Ltac log_step Hw :=
  match goal with
  | |- context [Logger.log_message ?l ?m true ?w ?s] =>
      let s' := fresh "s" in
      let Hc := fresh "Hc" in
      destruct (log_works_message l w m s Hw) as (s' & -> & Hc)
  end.

(** X27: while the logger works, [process_ai_response] always returns a
    dict with a message and never raises.  For a status other than 200 the
    message is "Error communicating with the AI: <status>" and nothing is
    logged; for a status 200 with a JSON object, the message is the value
    of "message" ("Sorry, I couldn't process your request." without that
    key) when the value of "success" is true, and "Sorry, the AI couldn't
    process your message correctly." otherwise; when the body is not JSON
    the message is "Error processing AI response: <error>". *)
Theorem process_ai_response_always_answers self response config w s :
  log_works (AIClient.logger self) w ->
  exists data s',
    AIClient.process_ai_response self response config w s = (Ret data, s')
    /\ ((AIClient.status_code response <> 200)%Z ->
        s' = s
        /\ AIClient.rd_message data
           = AIClient.JStr ("Error communicating with the AI: " +:+
                            str_int (AIClient.status_code response)))
    /\ (forall fields,
          AIClient.status_code response = 200%Z ->
          AIClient.response_json response = Ret (AIClient.JObj fields) ->
          AIClient.rd_message data
          = if AIClient.truthy_json
                 (default AIClient.JNull (AIClient.lookup_field "success" fields))
            then default (AIClient.JStr "Sorry, I couldn't process your request.")
                         (AIClient.lookup_field "message" fields)
            else AIClient.JStr "Sorry, the AI couldn't process your message correctly.")
    /\ (forall e,
          AIClient.status_code response = 200%Z ->
          AIClient.response_json response = Raise e ->
          AIClient.rd_message data
          = AIClient.JStr ("Error processing AI response: " +:+ str_exn e)).
Proof.
  intros Hw. unfold AIClient.process_ai_response. rewrite run_try.
  destruct (Z.eqb_spec (AIClient.status_code response) 200) as [E|E].
  - rewrite run_bind, run_lift.
    destruct (AIClient.response_json response) as [ai_data|e].
    + rewrite run_bind.
      destruct (log_works_message _ w "AI data received" s Hw) as (s1 & -> & _).
      rewrite run_bind, run_lift.
      destruct ai_data as [| | | | |fields]; cbn [AIClient.dict_get].
      1-5: rewrite run_bind; log_step Hw; rewrite run_ret; eexists _, _;
           (split; [reflexivity|]); (split; [done|]);
           split; [intros; discriminate | intros; discriminate].
      destruct (AIClient.truthy_json _) eqn:Et.
      * rewrite run_bind, run_lift, run_ret. eexists _, _. split; [reflexivity|].
        split; [done|]. split; [|intros; discriminate].
        intros fields' _ [= <-]. by rewrite Et.
      * rewrite run_ret. eexists _, _. split; [reflexivity|].
        split; [done|]. split; [|intros; discriminate].
        intros fields' _ [= <-]. by rewrite Et.
    + rewrite run_bind.
      match goal with |- context [Logger.log_message ?l ?m true w s] =>
        destruct (log_works_message l w m s Hw) as (s2 & -> & _) end.
      rewrite run_ret. eexists _, _. split; [reflexivity|].
      split; [done|]. split; [intros; discriminate|]. by intros e' _ [= <-].
  - rewrite run_ret. eexists _, _. split; [reflexivity|].
    split; [done|]. split; intros; done.
Qed.

Lemma process_ai_response_always_answers_witness :
  (exists data s',
     AIClient.process_ai_response a_client an_answer support_config
       (fun _ => workstation) start = (Ret data, s')
     /\ AIClient.rd_message data = AIClient.JStr "It is a quarter past ten.")
  /\ (exists data,
        AIClient.process_ai_response a_client a_server_error support_config
          (fun _ => workstation) start = (Ret data, start)
        /\ AIClient.rd_message data
           = AIClient.JStr "Error communicating with the AI: 502").
Proof.
  assert (log_works a_logger (fun _ => workstation)) as Hw
    by (intros t; repeat split; reflexivity).
  split.
  - destruct (process_ai_response_always_answers a_client an_answer support_config
                (fun _ => workstation) start Hw) as (data & s' & E & _ & Hok & _).
    exists data, s'. split; [exact E|]. exact (Hok _ eq_refl eq_refl).
  - destruct (process_ai_response_always_answers a_client a_server_error support_config
                (fun _ => workstation) start Hw) as (data & s' & E & Hbad & _).
    destruct Hbad as [-> Hmsg]; [discriminate|].
    exists data. split; [exact E | exact Hmsg].
Defined.

(** X28: when the assistant does not ask for enhancement, when there is
    no enhancer, or when the list of enhancements is missing or empty, the
    content [ask_ai] sends is the prompt of the assistant ("Reply to the
    following prompt:" without one), the reminder that names the sender,
    and the content of the mail; [ask_ai] returns what the API answers and
    raises what the request raises, and the only wait is the one of the
    request (while the logger works). *)
Theorem ask_ai_plain_prompt api self content sender config enhancer w s :
  log_works (AIClient.logger self) w ->
  Config.cfg_enhance_prompt config = false \/ enhancer = None
  \/ enhancements_of config = SelList [] ->
  fst (AIClient.ask_ai api self content sender config enhancer w s)
  = api (AIClient.api_url self)
        (base_prompt_of config +:+ reminder sender content)
        (AIClient.timeout self)
  /\ clock (snd (AIClient.ask_ai api self content sender config enhancer w s))
     = S (clock s).
Proof.
  intros Hw Hoff. unfold AIClient.ask_ai. rewrite run_try. cbv zeta.
  rewrite run_bind. log_step Hw. rewrite run_bind.
  fold (base_prompt_of config). fold (enhancements_of config).
  assert (match Config.cfg_enhance_prompt config, enhancer with
          | true, Some enhancer =>
              enhance_prompt enhancer (base_prompt_of config) (enhancements_of config)
          | _, _ => ret (base_prompt_of config)
          end w s0 = (Ret (base_prompt_of config), s0)) as ->.
  { destruct Hoff as [-> | [-> | ->]]; [done| |].
    - by destruct (Config.cfg_enhance_prompt config).
    - destruct (Config.cfg_enhance_prompt config), enhancer; done. }
  rewrite run_bind, run_tick, run_bind, run_lift. fold (reminder sender content).
  destruct (api _ _ _) as [response|e].
  - rewrite run_bind. log_step Hw. rewrite run_ret. cbn in *. split; [done | congruence].
  - rewrite run_bind. log_step Hw. cbn in *. split; [done | congruence].
Qed.

Lemma ask_ai_plain_prompt_witness :
  fst (AIClient.ask_ai an_api a_client "What time is it?"
         (Some "Alice <alice@example.org>") support_config (Some enhancer)
         (fun _ => workstation) start)
  = Ret {| AIClient.status_code := 200;
           AIClient.response_json :=
             Ret (AIClient.JObj
                    [("success", AIClient.JBool true);
                     ("message",
                      AIClient.JStr
                        ("Received: You are the support desk. Reminder: You are " +:+
                         "talking to the sender (Alice <alice@example.org>) of " +:+
                         "this mail! What time is it?"))]) |}
  /\ clock (snd (AIClient.ask_ai an_api a_client "What time is it?"
                   (Some "Alice <alice@example.org>") support_config (Some enhancer)
                   (fun _ => workstation) start)) = 1%nat.
Proof.
  destruct (ask_ai_plain_prompt an_api a_client "What time is it?"
              (Some "Alice <alice@example.org>") support_config (Some enhancer)
              (fun _ => workstation) start) as (Hanswer & Hclock).
  - intros t. repeat split; reflexivity.
  - left. reflexivity.
  - split; [|exact Hclock]. rewrite Hanswer. vm_compute. reflexivity.
Defined.

(** X29: when the assistant asks for enhancement and there is an
    enhancer, [ask_ai] sends the prompt [enhance_prompt] returns, followed
    by the reminder and the content, and returns what the API answers;
    when [enhance_prompt] raises (the time probe is not guarded), [ask_ai]
    raises the same error whatever the API would answer: no request is
    made (while the logger works). *)
Theorem ask_ai_enriched_prompt api self content sender config enhancer w s :
  log_works (AIClient.logger self) w ->
  Config.cfg_enhance_prompt config = true ->
  match enhance_prompt enhancer (base_prompt_of config) (enhancements_of config) w
          (snd (Logger.log_message (AIClient.logger self)
                  ("Calling AI API for assistant: " +:+ assistant_name_of config +:+
                   "...") true w s)) with
  | (Ret prompt, _) =>
      fst (AIClient.ask_ai api self content sender config (Some enhancer) w s)
      = api (AIClient.api_url self) (prompt +:+ reminder sender content)
            (AIClient.timeout self)
  | (Raise e, _) =>
      fst (AIClient.ask_ai api self content sender config (Some enhancer) w s) = Raise e
  end.
Proof.
  intros Hw Hon. unfold AIClient.ask_ai. rewrite run_try. cbv zeta.
  rewrite run_bind. fold (assistant_name_of config).
  log_step Hw. cbn [snd]. rewrite run_bind, Hon.
  fold (base_prompt_of config). fold (enhancements_of config).
  destruct (enhance_prompt enhancer _ _ w s0) as [[prompt|e] s1].
  - rewrite run_bind, run_tick, run_bind, run_lift. fold (reminder sender content).
    destruct (api _ _ _) as [response|e].
    + rewrite run_bind. log_step Hw. by rewrite run_ret.
    + rewrite run_bind. by log_step Hw.
  - rewrite run_bind. by log_step Hw.
Qed.

Lemma ask_ai_enriched_prompt_witness :
  fst (AIClient.ask_ai an_api a_client "What time is it?"
         (Some "Alice <alice@example.org>") marechan_config (Some enhancer)
         (fun _ => no_utc_clock) start)
  = Raise (Exn "OSError" "[Errno 75] Value too large for defined data type")
  /\ fst (AIClient.ask_ai an_api a_client "What time is it?"
            (Some "Alice <alice@example.org>") marechan_config (Some enhancer)
            (fun _ => workstation) start)
     = Ret {| AIClient.status_code := 200;
              AIClient.response_json :=
                Ret (AIClient.JObj
                       [("success", AIClient.JBool true);
                        ("message",
                         AIClient.JStr
                           ("Received: You are Marechan." +:+ nl +:+ nl +:+
                            "Here is real-time information you can use if relevant:"
                            +:+ nl +:+
                            "Current time: Monday, 02 March 2026 10:15:00 (UTC)"
                            +:+ nl +:+
                            "UTC time: 2026-03-02 10:15:00 UTC" +:+ nl +:+ nl +:+
                            "The email is: Reminder: You are talking to the " +:+
                            "sender (Alice <alice@example.org>) of this mail! " +:+
                            "What time is it?"))]) |}.
Proof.
  split.
  - apply (ask_ai_enriched_prompt an_api a_client "What time is it?"
             (Some "Alice <alice@example.org>") marechan_config enhancer
             (fun _ => no_utc_clock) start).
    + intros t. repeat split; reflexivity.
    + reflexivity.
  - pose proof (ask_ai_enriched_prompt an_api a_client "What time is it?"
                  (Some "Alice <alice@example.org>") marechan_config enhancer
                  (fun _ => workstation) start) as Hsent.
    rewrite Hsent.
    + vm_compute. reflexivity.
    + intros t. repeat split; reflexivity.
    + reflexivity.
Defined.

(** ** The raw email log *)

Lemma run_open_append path w s :
  RawEmailLog.open_append path w s
  = match append_file (w (clock s)) path with
    | Ret _ => (Ret tt, s)
    | Raise e => (Raise e, s)
    end.
Proof.
  unfold RawEmailLog.open_append. rewrite run_call.
  by destruct (append_file (w (clock s)) path) as [[]|e].
Qed.

Lemma run_write encode path text w s :
  RawEmailLog.write encode path text w s
  = match encode text with
    | Ret _ =>
        (Ret tt,
         {| clock := clock s;
            files := <[path := file_content s path ++ [text]]> (files s) |})
    | Raise e => (Raise e, s)
    end.
Proof.
  unfold RawEmailLog.write. rewrite run_bind, run_lift.
  by destruct (encode text).
Qed.

Lemma first_high_ascii i text :
  isascii text = true -> first_high i (list_ascii_of_string text) = None.
Proof.
  unfold isascii. revert i.
  induction (list_ascii_of_string text) as [|c l IH]; intros i H; [done|].
  cbn in *. apply andb_true_iff in H as [-> H]. by apply IH.
Qed.

(** X30: while the logger works, [log_raw_email] does not raise.  When
    the raw log cannot be opened, the mail is written nowhere and the run
    is that of the one call that logs "ERROR logging raw email: ...".
    When the raw log is open and the mail cannot be encoded, the first
    marker line is in the raw log all the same, without the mail and
    without the closing line, the session file has no copy of the mail and
    the error is logged.  When the mail can be encoded, it is appended as
    it is, between the marker lines, to the raw log and to the session
    file. *)
Theorem log_raw_email_fail_soft encode self raw_email w s :
  log_works (RawEmailLog.base self) w ->
  (forall text, isascii text = true -> encode text = Ret tt) ->
  (exists s', RawEmailLog.log_raw_email encode self raw_email w s = (Ret tt, s'))
  /\ (forall e,
        append_file (w (clock s)) (RawEmailLog.raw_email_log self) = Raise e ->
        RawEmailLog.log_raw_email encode self raw_email w s
        = Logger.log_message (RawEmailLog.base self)
            ("ERROR logging raw email: " +:+ str_exn e) true w s)
  /\ (forall e,
        append_file (w (clock s)) (RawEmailLog.raw_email_log self) = Ret tt ->
        encode raw_email = Raise e ->
        RawEmailLog.log_raw_email encode self raw_email w s
        = Logger.log_message (RawEmailLog.base self)
            ("ERROR logging raw email: " +:+ str_exn e) true w
            {| clock := clock s;
               files :=
                 <[RawEmailLog.raw_email_log self :=
                     file_content s (RawEmailLog.raw_email_log self)
                     ++ ["==== NEW EMAIL BEGIN ====" +:+ nl]]> (files s) |}
        /\ (RawEmailLog.raw_email_log self ∉ log_paths (RawEmailLog.base self) ->
            file_content (snd (RawEmailLog.log_raw_email encode self raw_email w s))
                         (RawEmailLog.raw_email_log self)
            = file_content s (RawEmailLog.raw_email_log self)
              ++ ["==== NEW EMAIL BEGIN ====" +:+ nl]))
  /\ (append_file (w (clock s)) (RawEmailLog.raw_email_log self) = Ret tt ->
      encode raw_email = Ret tt ->
      RawEmailLog.raw_email_log self ∉ log_paths (RawEmailLog.base self) ->
      Logger.log_file (RawEmailLog.base self)
        <> Logger.temp_log_path (RawEmailLog.base self) ->
      file_content (snd (RawEmailLog.log_raw_email encode self raw_email w s))
                   (RawEmailLog.raw_email_log self)
      = file_content s (RawEmailLog.raw_email_log self)
        ++ ["==== NEW EMAIL BEGIN ====" +:+ nl; raw_email;
            nl +:+ "==== EMAIL END ====" +:+ nl +:+ nl]
      /\ file_content (snd (RawEmailLog.log_raw_email encode self raw_email w s))
                      (Logger.temp_log_path (RawEmailLog.base self))
         = file_content s (Logger.temp_log_path (RawEmailLog.base self))
           ++ ["==== RAW EMAIL BEGIN ====" +:+ nl; raw_email;
               nl +:+ "==== RAW EMAIL END ====" +:+ nl +:+ nl]).
Proof.
  intros Hw Hascii.
  assert (encode ("==== NEW EMAIL BEGIN ====" +:+ nl) = Ret tt) as Hb1
    by (by apply Hascii).
  assert (encode (nl +:+ "==== EMAIL END ====" +:+ nl +:+ nl) = Ret tt) as He1
    by (by apply Hascii).
  assert (encode ("==== RAW EMAIL BEGIN ====" +:+ nl) = Ret tt) as Hb2
    by (by apply Hascii).
  assert (encode (nl +:+ "==== RAW EMAIL END ====" +:+ nl +:+ nl) = Ret tt) as He2
    by (by apply Hascii).
  destruct (Hw (clock s)) as (Hnow & Hlog & Htmp).
  unfold RawEmailLog.log_raw_email. rewrite run_try, run_bind, run_open_append.
  destruct (append_file (w (clock s)) (RawEmailLog.raw_email_log self))
    as [[]|e] eqn:Eraw.
  - rewrite run_bind, run_write, Hb1, run_bind, run_write.
    destruct (encode raw_email) as [[]|e] eqn:Email.
    + rewrite run_bind, run_write, He1, run_bind, run_open_append.
      cbn [clock]. rewrite Htmp, run_bind, run_write, Hb2.
      rewrite run_bind, run_write, Email, run_bind, run_write, He2.
      unfold Logger.log_message. rewrite run_bind, run_call. cbn [clock].
      destruct (datetime_now (w (clock s))) as [now|]; [|discriminate Hnow].
      rewrite run_bind. unfold append_to. cbn [clock]. rewrite Hlog, run_ret.
      split; [eauto|]. split; [intros; discriminate|]. split; [intros; discriminate|].
      intros _ _ Hne Hfiles. unfold log_paths in Hne.
      apply not_elem_of_cons in Hne as [Hne1 Hne2].
      apply not_elem_of_cons in Hne2 as [Hne2 _].
      unfold file_content. cbn [snd files clock]. split.
      * rewrite lookup_insert_ne by done. rewrite lookup_insert_ne by done.
        rewrite lookup_insert_ne by done. rewrite lookup_insert_ne by done.
        rewrite lookup_insert_eq. cbn. rewrite lookup_insert_eq. cbn.
        rewrite lookup_insert_eq. cbn. by rewrite <- !app_assoc.
      * rewrite lookup_insert_ne by done. rewrite lookup_insert_eq. cbn.
        rewrite lookup_insert_eq. cbn. rewrite lookup_insert_eq. cbn.
        rewrite lookup_insert_ne by done. rewrite lookup_insert_ne by done.
        rewrite lookup_insert_ne by done. by rewrite <- !app_assoc.
    + match goal with |- context [Logger.log_message ?l ?m true w ?s1] =>
        destruct (log_works_message l w m s1 Hw) as (s' & Hs' & _);
        pose proof (log_message_only_appends l m true w s1) as Hkeep
      end.
      rewrite Hs' in Hkeep |- *. cbn [snd] in Hkeep.
      split; [eauto|]. split; [intros; discriminate|]. split; [|intros; discriminate].
      intros e' _ [= <-]. rewrite Hs'. split; [done|].
      intros Hne. destruct Hkeep as (_ & Hkeep).
      destruct (Hkeep (RawEmailLog.raw_email_log self)) as (_ & Hsame).
      unfold file_content at 1. cbn [snd]. rewrite (Hsame Hne). cbn [files].
      by rewrite lookup_insert_eq.
  - match goal with |- context [Logger.log_message ?l ?m true w s] =>
      destruct (log_works_message l w m s Hw) as (s' & Hs' & _)
    end.
    rewrite Hs'. split; [eauto|]. split; [|split; intros; discriminate].
    by intros e' [= <-].
Qed.

Lemma log_raw_email_fail_soft_witness :
  (exists s', RawEmailLog.log_raw_email an_ascii_codec a_raw_logger a_raw_email
                (fun _ => no_raw_log) start = (Ret tt, s')
              /\ file_content s' "/var/log/marechan_raw.log" = []
              /\ file_content s' "/tmp/marechan/session.txt"
                 = ["2026-03-02T10:15:00 - ERROR logging raw email: " +:+
                    "[Errno 13] Permission denied: '/var/log/marechan_raw.log'" +:+ nl])
  /\ (exists s', RawEmailLog.log_raw_email an_ascii_codec a_raw_logger a_latin_email
                   (fun _ => workstation) start = (Ret tt, s')
                 /\ file_content s' "/var/log/marechan_raw.log"
                    = ["==== NEW EMAIL BEGIN ====" +:+ nl]
                 /\ file_content s' "/tmp/marechan/session.txt"
                    = ["2026-03-02T10:15:00 - ERROR logging raw email: " +:+
                       "'ascii' codec can't encode character '\xeb' in position 8: " +:+
                       "ordinal not in range(128)" +:+ nl])
  /\ file_content (snd (RawEmailLog.log_raw_email an_ascii_codec a_raw_logger a_raw_email
                          (fun _ => workstation) start))
                  "/var/log/marechan_raw.log"
     = ["==== NEW EMAIL BEGIN ====" +:+ nl; a_raw_email;
        nl +:+ "==== EMAIL END ====" +:+ nl +:+ nl]
  /\ file_content (snd (RawEmailLog.log_raw_email an_ascii_codec a_raw_logger a_raw_email
                          (fun _ => workstation) start))
                  "/tmp/marechan/session.txt"
     = ["==== RAW EMAIL BEGIN ====" +:+ nl; a_raw_email;
        nl +:+ "==== RAW EMAIL END ====" +:+ nl +:+ nl].
Proof.
  assert (forall text, isascii text = true -> an_ascii_codec text = Ret tt) as Hcodec.
  { intros text H. unfold an_ascii_codec. by rewrite first_high_ascii. }
  assert (log_works (RawEmailLog.base a_raw_logger) (fun _ => no_raw_log)) as Hw1
    by (intros t; repeat split; reflexivity).
  assert (log_works (RawEmailLog.base a_raw_logger) (fun _ => workstation)) as Hw2
    by (intros t; repeat split; reflexivity).
  assert ("/var/log/marechan_raw.log" ∉ log_paths (RawEmailLog.base a_raw_logger)) as Hne.
  { intros Hin. apply list_elem_of_In in Hin. cbn in Hin.
    destruct Hin as [Hin|[Hin|[]]]; discriminate Hin. }
  split; [|split].
  - destruct (log_raw_email_fail_soft an_ascii_codec a_raw_logger a_raw_email
                (fun _ => no_raw_log) start Hw1 Hcodec)
      as ((s' & E) & _).
    exists s'. split; [exact E|].
    assert (RawEmailLog.log_raw_email an_ascii_codec a_raw_logger a_raw_email
              (fun _ => no_raw_log) start = (Ret tt, s')) as E' by exact E.
    vm_compute in E'. injection E' as <-. split; vm_compute; reflexivity.
  - destruct (log_raw_email_fail_soft an_ascii_codec a_raw_logger a_latin_email
                (fun _ => workstation) start Hw2 Hcodec)
      as ((s' & E) & _ & Hmail & _).
    destruct (Hmail (Exn "UnicodeEncodeError"
                       ("'ascii' codec can't encode character '\xeb' in position 8: "
                        +:+ "ordinal not in range(128)")) eq_refl eq_refl)
      as (Erun & Hraw).
    exists s'. split; [exact E|]. split.
    + rewrite E in Hraw. exact (Hraw Hne).
    + rewrite E in Erun. vm_compute in Erun. injection Erun as ->.
      vm_compute. reflexivity.
  - destruct (log_raw_email_fail_soft an_ascii_codec a_raw_logger a_raw_email
                (fun _ => workstation) start Hw2 Hcodec)
      as (_ & _ & _ & Hboth).
    apply Hboth; [reflexivity | reflexivity | exact Hne | discriminate].
Defined.
